(** * The SageMaker Autopilot churn notebook

    A shallow embedding of [sagemaker-churn-lab-archived.ipynb]: the
    Python string and data-frame operations the notebook uses, the
    remote services it talks to (as history-indexed oracles), the code
    cells as programs of a small error-and-trace monad, and the
    properties of the orchestration that follow. *)

From Stdlib Require Import String Ascii List Bool Arith ZArith QArith Lia Permutation DecimalString.
Import ListNotations.
Close Scope Q_scope.
Open Scope list_scope.
Open Scope string_scope.

(** ** Python [str] operations *)

Module PyStr.

(** [pat in s] *)
Fixpoint contains (pat s : string) : bool :=
  prefix pat s ||
  match s with
  | EmptyString => false
  | String _ s' => contains pat s'
  end.

(** [s.replace(old, new)]: one pass from the left, occurrences do not
    overlap, the replacement text is not scanned again.  [skip] counts
    the characters of a matched occurrence still to be passed over. *)
Fixpoint replace_from (old new : string) (skip : nat) (s : string) : string :=
  match s with
  | EmptyString =>
      match skip, old with
      | O, EmptyString => new
      | _, _ => EmptyString
      end
  | String c s' =>
      match skip with
      | S k => replace_from old new k s'
      | O =>
          if prefix old s
          then new ++ match old with
                      | EmptyString => String c (replace_from old new 0 s')
                      | String _ old' => replace_from old new (String.length old') s'
                      end
          else String c (replace_from old new 0 s')
      end
  end.

Definition replace (old new s : string) : string := replace_from old new 0 s.

(** [s.split(sep)] for a one-character separator. *)
Fixpoint split (sep : ascii) (s : string) : list string :=
  match s with
  | EmptyString => [EmptyString]
  | String c s' =>
      if Ascii.eqb c sep then EmptyString :: split sep s'
      else match split sep s' with
           | [] => [String c EmptyString]
           | w :: ws => String c w :: ws
           end
  end.

(** [sep.join(parts)] *)
Definition join (sep : string) (parts : list string) : string := String.concat sep parts.

(** [s.startswith(p)] *)
Definition startswith (s p : string) : bool := prefix p s.

End PyStr.

(** ** Cell 22: [split_s3_path] *)

(** [path_parts.pop(0)]: [IndexError] on an empty list. *)
Definition pop0 {A} (l : list A) : option (A * list A) :=
  match l with
  | [] => None
  | x :: rest => Some (x, rest)
  end.

Definition split_s3_path (s3_path : string) : option (string * string) :=
  let path_parts := PyStr.split "/" (PyStr.replace "s3://" "" s3_path) in
  match pop0 path_parts with
  | None => None
  | Some (bucket, path_parts) =>
      let key := PyStr.join "/" path_parts in
      Some (bucket, key)
  end.

(** ** Python values, exceptions and fallible results *)

(** A cell of a frame as pandas holds it once [read_csv] has inferred
    the types of the columns: text, an integer, a float (by its IEEE 754
    binary64 bit pattern; a missing value is the float [nan]) or a
    boolean.  Keys of look-ups are texts and integers as well. *)
Inductive pyval : Type :=
| VStr (s : string)
| VInt (n : Z)
| VFloat (bits : Z)
| VBool (b : bool).

(** [KeyError(key)] for a look-up; [NotFoundInAxis labels] is the
    [KeyError] of [DataFrame.drop], whose message is the list of the
    labels that are missing, followed by [not found in axis]. *)
Inductive pyerror : Type :=
| KeyError (key : pyval)
| NotFoundInAxis (labels : list pyval)
| IndexError
| ValueError (msg : string)
| FileNotFoundError (path : string)
| ClientError (msg : string)
| WaiterError (msg : string)
| OtherError (class msg : string).

Inductive result (A : Type) : Type :=
| Ok (a : A)
| Raise (e : pyerror).
Arguments Ok {A} a.
Arguments Raise {A} e.

Definition rbind {A B} (r : result A) (f : A -> result B) : result B :=
  match r with
  | Ok a => f a
  | Raise e => Raise e
  end.

(** A Python float that results from dividing two integers: the exact
    quotient, or [nan] for [0/0] on NumPy scalars. *)
Inductive pyfloat : Type :=
| Ratio (q : Q)
| NaN.

(** ** The pandas operations of the notebook

    A frame keeps its column labels and its rows; a row carries its
    index label and its cells. *)

Module Frame.

Record DataFrame : Type := mk {
  columns : list string;
  rows : list (nat * list pyval)
}.

Definition index (df : DataFrame) : list nat := map fst (rows df).
Definition len (df : DataFrame) : nat := List.length (rows df).

(** [pd.read_csv(path)], given what the parser has made of the file: the
    labels of the header line and the typed cells of the data lines;
    the new frame gets the default index [0 .. n-1]. *)
Definition read_csv (header : list string) (data : list (list pyval)) : DataFrame :=
  mk header (combine (seq 0 (List.length data)) data).

(** Python's [round] on an exact quotient: nearest integer, ties to even. *)
Definition py_round (q : Q) : Z :=
  let n := Qnum q in
  let d := Zpos (Qden q) in
  let fl := (n / d)%Z in
  let r := (n mod d)%Z in
  match (2 * r ?= d)%Z with
  | Lt => fl
  | Gt => (fl + 1)%Z
  | Eq => if Z.even fl then fl else (fl + 1)%Z
  end.

(** [size = round(frac * axis_length)] of [DataFrame.sample]. *)
Definition sample_size (frac : Q) (axis_length : nat) : nat :=
  Z.to_nat (py_round (frac * inject_Z (Z.of_nat axis_length))%Q).

(** [self.take(locs)]: rows at the given positions, in that order;
    [IndexError] for a position outside the frame. *)
Fixpoint take_rows (rs : list (nat * list pyval)) (locs : list nat)
  : result (list (nat * list pyval)) :=
  match locs with
  | [] => Ok []
  | p :: locs' =>
      match nth_error rs p with
      | None => Raise IndexError
      | Some r => rbind (take_rows rs locs') (fun out => Ok (r :: out))
      end
  end.

Section Sampling.

(** NumPy's generator: [RandomState(seed).choice(n, size=k, replace=False)],
    a function of the seed alone. *)
Variable np_choice : Z -> nat -> nat -> list nat.

(** [df.sample(frac=frac, random_state=random_state)]: with an integer
    [random_state] a fresh generator is seeded with it; with [None]
    NumPy's global generator is used, whose state [ambient] is whatever
    the process has reached. *)
Definition sample (ambient : Z) (frac : Q) (random_state : option Z)
           (df : DataFrame) : result DataFrame :=
  let seed := match random_state with
              | Some s => s
              | None => ambient
              end in
  let locs := np_choice seed (len df) (sample_size frac (len df)) in
  rbind (take_rows (rows df) locs) (fun rs => Ok (mk (columns df) rs)).

End Sampling.

(** [df.drop(labels)]: [KeyError] naming the labels that are not in the
    index, otherwise every row carrying one of the labels is removed. *)
Definition mem_nat (i : nat) (l : list nat) : bool := existsb (Nat.eqb i) l.

Definition drop (labels : list nat) (df : DataFrame) : result DataFrame :=
  if forallb (fun i => mem_nat i (index df)) labels
  then Ok (mk (columns df)
              (filter (fun r => negb (mem_nat (fst r) labels)) (rows df)))
  else Raise (NotFoundInAxis
                (map (fun i => VInt (Z.of_nat i))
                     (filter (fun i => negb (mem_nat i (index df))) labels))).

(** Keep the cells whose column label is not [label]. *)
Fixpoint drop_cells (label : string) (cols : list string) (cells : list pyval)
  : list pyval :=
  match cols, cells with
  | c :: cols', v :: cells' =>
      if String.eqb c label then drop_cells label cols' cells'
      else v :: drop_cells label cols' cells'
  | _, _ => []
  end.

(** [df.drop(columns=[label])], also written [df.drop(label, axis=1)]:
    [KeyError("['label'] not found in axis")] when there is no such
    column. *)
Definition drop_column (label : string) (df : DataFrame) : result DataFrame :=
  if existsb (String.eqb label) (columns df)
  then Ok (mk (filter (fun c => negb (String.eqb c label)) (columns df))
              (map (fun r => (fst r, drop_cells label (columns df) (snd r)))
                   (rows df)))
  else Raise (NotFoundInAxis [VStr label]).

(** [df.reset_index()[label]].  [reset_index] puts the old index into a
    new column, named ['index'], or ['level_0'] where there is a column
    ['index'] already, and raises [ValueError] where that name is taken
    as well; the rows get the index [0 .. n-1].  Then the column
    [label] is looked up: [KeyError(label)] when there is none. *)
Fixpoint cell_at (label : string) (cols : list string) (cells : list pyval)
  : option pyval :=
  match cols, cells with
  | c :: cols', v :: cells' =>
      if String.eqb c label then Some v else cell_at label cols' cells'
  | _, _ => None
  end.

Definition reset_index_column (label : string) (df : DataFrame)
  : result (list (option pyval)) :=
  let has name := existsb (String.eqb name) (columns df) in
  let inserted := if has "index" then "level_0" else "index" in
  if has inserted
  then Raise (ValueError ("cannot insert " ++ inserted ++ ", already exists"))
  else if String.eqb label inserted
  then Ok (map (fun r => Some (VInt (Z.of_nat (fst r)))) (rows df))
  else if has label
  then Ok (map (fun r => cell_at label (columns df) (snd r)) (rows df))
  else Raise (KeyError (VStr label)).

(** *** Writing a frame as text *)

Definition newline : string := String (ascii_of_nat 10) EmptyString.

(** [str(n)] of an integer. *)
Definition decimal (n : Z) : string := NilZero.string_of_int (Z.to_int n).

(** Whether the bit pattern is one of the float [nan]s: all exponent
    bits set and a fraction that is not zero. *)
Definition is_nan (bits : Z) : bool :=
  (9218868437227405312 <? bits mod 9223372036854775808)%Z.

(** Text that the CSV writer passes through as it is, whatever the
    version of Python: printable ASCII without the separator and the
    quote character. *)
Definition plain_char (c : ascii) : bool :=
  let n := nat_of_ascii c in
  (32 <=? n)%nat && (n <=? 126)%nat
  && negb (Nat.eqb n 44) && negb (Nat.eqb n 34).

Definition plain (text : string) : bool :=
  forallb plain_char (list_ascii_of_string text).

(** A line of only such fields; the writer puts quotes around a field
    that is the only one of its line and empty. *)
Definition plain_line (fields : list string) : bool :=
  forallb plain fields
  && match fields with
     | [] => false
     | [EmptyString] => false
     | _ => true
     end.

Definition csv_line (fields : list string) : string :=
  PyStr.join "," fields ++ newline.

Section Writing.

(** NumPy's text of a float that is not [nan] (the shortest decimal
    that reads back as the same float), and what pandas writes for a
    frame that has a cell, or a label, outside the plain ones:
    quoting and escaping are the CSV writer's, and differ between
    versions of Python. *)
Variable float_repr : Z -> string.
Variable pandas_to_csv : bool -> DataFrame -> string.

(** The text of a cell; a missing value is written as the empty
    text ([na_rep='']). *)
Definition cell_text (v : pyval) : string :=
  match v with
  | VStr s => s
  | VInt n => decimal n
  | VFloat bits => if is_nan bits then "" else float_repr bits
  | VBool true => "True"
  | VBool false => "False"
  end.

(** The lines of fields that [to_csv] writes. *)
Definition csv_lines (header : bool) (df : DataFrame) : list (list string) :=
  ((if header then [columns df] else [])
   ++ map (fun r => map cell_text (snd r)) (rows df))%list.

(** [df.to_csv(path, index=False, header=header)] and
    [df.to_csv(sep=',', header=header, index=False)]: the text written
    or returned, with the line terminator of the Linux hosts that
    notebook instances run on. *)
Definition to_csv (header : bool) (df : DataFrame) : string :=
  if forallb plain_line (csv_lines header df)
  then String.concat "" (map csv_line (csv_lines header df))
  else pandas_to_csv header df.

End Writing.

(** *** Comparing two columns *)

(** [pd.DataFrame(rows)[0]] and [pd.read_csv(text, header=None)[0]]: the
    first field of every row ([None] where a row has no field);
    [KeyError(0)] when there is no column [0] at all. *)
Definition column0 (parsed : list (list pyval)) : result (list (option pyval)) :=
  if existsb (fun r => negb (Nat.eqb (List.length r) 0)) parsed
  then Ok (map (fun r => hd_error r) parsed)
  else Raise (KeyError (VInt 0)).

(** Integers that every NumPy type of the columns holds exactly. *)
Definition small (n : Z) : bool := (Z.abs n <=? 9007199254740992)%Z.

(** [x == y] for two cells where the types of the two columns do not
    matter: a text equals a text with the same characters and nothing
    else, a missing value equals nothing, and integers and booleans
    compare by value. *)
Definition cell_eq (x y : option pyval) : option bool :=
  match x, y with
  | None, _ | _, None => Some false
  | Some (VStr a), Some (VStr b) => Some (String.eqb a b)
  | Some (VStr _), Some _ | Some _, Some (VStr _) => Some false
  | Some (VInt a), Some (VInt b) =>
      if small a && small b then Some (Z.eqb a b) else None
  | Some (VBool a), Some (VBool b) => Some (Bool.eqb a b)
  | Some _, Some _ => None
  end.

Section Comparing.

(** NumPy's comparison at one place of two columns, for the pairs of
    numbers that [cell_eq] leaves open: the outcome depends on the
    types of the two columns. *)
Variable np_equal : list (option pyval) -> list (option pyval) -> nat -> bool.

(** [(a == b)] on two series with the default index: [ValueError]
    unless they are identically labelled, that is, of equal length. *)
Definition series_eq (a b : list (option pyval)) : result (list bool) :=
  if Nat.eqb (List.length a) (List.length b)
  then Ok (map (fun p => match cell_eq (fst (snd p)) (snd (snd p)) with
                         | Some r => r
                         | None => np_equal a b (fst p)
                         end)
               (combine (seq 0 (List.length a)) (combine a b)))
  else Raise (ValueError "Can only compare identically-labeled Series objects").

End Comparing.

(** [.sum()] of a boolean series. *)
Definition sum (bs : list bool) : nat := List.length (filter (fun b => b) bs).

(** [count / n] on NumPy integers. *)
Definition divide (count n : nat) : pyfloat :=
  match n with
  | O => NaN
  | S _ => Ratio (Z.of_nat count # Pos.of_nat n)%Q
  end.

End Frame.
Import Frame.

(** ** The remote services

    The notebook reaches Amazon S3 and SageMaker through [boto3] and the
    SageMaker SDK (the names [sm] and [session] are bound by the lab's
    kernel; the notebook uses them without defining them).  Requests and
    responses keep the fields the notebook writes and reads. *)

Record container : Type := {
  Image : string;
  ModelDataUrl : string
}.

Record metric : Type := {
  MetricName : string;
  Value : string
}.

Record candidate : Type := {
  CandidateName : string;
  FinalAutoMLJobObjectiveMetric : metric;
  InferenceContainers : list container
}.

Record artifacts : Type := {
  CandidateDefinitionNotebookLocation : string;
  DataExplorationNotebookLocation : string
}.

(** The response of [describe_auto_ml_job]; the two optional keys are
    absent from the dictionary until the service has produced them. *)
Record DescribeAutoMLJobResponse : Type := {
  AutoMLJobStatus : string;
  AutoMLJobSecondaryStatus : string;
  AutoMLJobArtifacts : option artifacts;
  BestCandidate : option candidate
}.

Record input_channel : Type := {
  S3DataType : string;
  S3Uri : string;
  TargetAttributeName : string
}.

Record automl_job_request : Type := {
  AutoMLJobName : string;
  InputDataConfig : list input_channel;
  S3OutputPath : string;
  MaxCandidates : Z;
  RoleArn : string
}.

Record production_variant : Type := {
  InstanceType : string;
  InitialInstanceCount : Z;
  ModelName : string;
  VariantName : string
}.

(** A remote operation together with the arguments the notebook passes. *)
Inductive call : Type :=
| GetExecutionRole
| ListBuckets
| UploadData (path key_prefix : string)
| CreateAutoMLJob (request : automl_job_request)
| DescribeAutoMLJob (job_name : string)
| DownloadData (path bucket key_prefix : string)
| ListCandidatesForAutoMLJob (job_name : string)
| CreateModel (containers : list container) (model_name execution_role_arn : string)
| CreateEndpointConfig (config_name : string) (variants : list production_variant)
| CreateEndpoint (endpoint_name config_name : string)
| WaitEndpointInService (endpoint_name : string)
| DescribeEndpoint (endpoint_name : string)
| DescribeEndpointConfig (config_name : string)
| InvokeEndpoint (endpoint_name body : string)
| DeleteEndpoint (endpoint_name : string)
| DeleteEndpointConfig (config_name : string)
| DeleteModel (model_name : string).

(** What [print] is given; [PFormat] is [template.format(x)]. *)
Inductive pyobj : Type :=
| PStr (s : string)
| PCandidate (c : candidate)
| PMetric (m : metric)
| PFormat (template : string) (x : pyfloat).

(** What a run of the notebook does that is visible from outside. *)
Inductive event : Type :=
| EvCall (c : call) (raised : option pyerror)
| EvSleep (seconds : Z)
| EvPrint (args : list pyobj)
| EvWriteFile (path content : string)
| EvShell (command : string)
| EvStore (name value : string).

Definition history : Type := list event.

(** Everything outside the notebook.  A remote operation answers as a
    function of what has happened so far, so that any single run of any
    service is covered.  The other fields are the clock, the file that
    [wget] leaves behind as pandas parses it, the installed SDK and what
    its predictor does, NumPy's generators, and the behaviour of pandas,
    NumPy and scikit-learn where the embedding does not spell it out. *)
Record world : Type := {
  get_execution_role : history -> result string;
  list_buckets : history -> result (list string);
  upload_data : history -> string -> string -> result string;
  create_auto_ml_job : history -> automl_job_request -> result string;
  describe_auto_ml_job : history -> string -> result DescribeAutoMLJobResponse;
  download_data : history -> string -> string -> string -> result unit;
  list_candidates_for_auto_ml_job : history -> string -> result (list candidate);
  create_model : history -> list container -> string -> string -> result string;
  create_endpoint_config : history -> string -> list production_variant -> result string;
  create_endpoint : history -> string -> string -> result string;
  wait_endpoint_in_service : history -> string -> result unit;
  (* [describe_endpoint(...)['EndpointConfigName']] and the model names
     in [describe_endpoint_config(...)['ProductionVariants']] *)
  describe_endpoint : history -> string -> result string;
  describe_endpoint_config : history -> string -> result (list string);
  (* the body of the response, as the bytes received *)
  invoke_endpoint : history -> string -> string -> result string;
  delete_endpoint : history -> string -> result unit;
  delete_endpoint_config : history -> string -> result unit;
  delete_model : history -> string -> result unit;
  strftime_gmtime : history -> string;
  (* [./churn.txt]: [None] while there is no such file, otherwise the
     header and the typed rows that [pd.read_csv] makes of it *)
  churn_txt : history -> option (list string * list (list pyval));
  sagemaker_version : string;
  (* whether the constructor of the SDK's predictor looks up the
     configuration and the models of the endpoint (the releases of the
     notebook's time do) or leaves that to the methods that need them *)
  predictor_describes : bool;
  (* [CSVDeserializer.deserialize] on a body outside the plain ones *)
  csv_deserializer : string -> result (list (list string));
  (* [pd.read_csv(StringIO(body.decode('utf-8')), header=None)] *)
  pd_read_csv : string -> result (list (list pyval));
  float_repr : Z -> string;
  pandas_to_csv : bool -> DataFrame -> string;
  np_equal : list (option pyval) -> list (option pyval) -> nat -> bool;
  np_choice : Z -> nat -> nat -> list nat;
  np_global_state : Z;
  sklearn_score : string -> list (option pyval) -> list (option pyval)
                  -> result pyfloat
}.

(** ** The monad of notebook code

    A piece of code reads the world and the history so far and yields an
    outcome and the events it adds.  [Running] is the outcome of a loop
    that has not left after the iterations it was given. *)

Inductive outcome (A : Type) : Type :=
| Done (a : A)
| Raised (e : pyerror)
| Running.
Arguments Done {A} a.
Arguments Raised {A} e.
Arguments Running {A}.

Definition M (A : Type) : Type := world -> history -> outcome A * list event.

Definition ret {A} (a : A) : M A := fun _ _ => (Done a, []).

Definition bind {A B} (m : M A) (f : A -> M B) : M B :=
  fun w h =>
    match m w h with
    | (Done a, evs) =>
        let (o, evs') := f a w (h ++ evs)%list in (o, (evs ++ evs')%list)
    | (Raised e, evs) => (Raised e, evs)
    | (Running, evs) => (Running, evs)
    end.

Declare Scope nb_scope.
Delimit Scope nb_scope with nb.
Notation "x <- m ;; k" := (bind m (fun x => k))
  (at level 61, m at next level, right associativity) : nb_scope.
Notation "' p <- m ;; k" := (bind m (fun x => match x with p => k end))
  (at level 61, p pattern, m at next level, right associativity) : nb_scope.
Notation "m ;; k" := (bind m (fun _ => k))
  (at level 61, right associativity) : nb_scope.
Open Scope nb_scope.

Definition raise {A} (e : pyerror) : M A := fun _ _ => (Raised e, []).

Definition lift {A} (r : result A) : M A :=
  match r with
  | Ok a => ret a
  | Raise e => raise e
  end.

Definition emit (ev : event) : M unit := fun _ _ => (Done tt, [ev]).

Definition ask {A} (f : world -> history -> A) : M A :=
  fun w h => (Done (f w h), []).

(** A remote call: it is recorded whether it returns or raises, and an
    error it raises is the outcome of the calling code. *)
Definition remote {A} (c : call) (oracle : world -> history -> result A) : M A :=
  fun w h =>
    match oracle w h with
    | Ok a => (Done a, [EvCall c None])
    | Raise e => (Raised e, [EvCall c (Some e)])
    end.

Definition print (args : list pyobj) : M unit := emit (EvPrint args).
Definition sleep (seconds : Z) : M unit := emit (EvSleep seconds).

(** [d[key]] on a dictionary that may lack the key. *)
Definition getitem {A} (key : string) (v : option A) : result A :=
  match v with
  | Some a => Ok a
  | None => Raise (KeyError (VStr key))
  end.

(** [for item in l: body] *)
Fixpoint for_each {A} (l : list A) (body : A -> M unit) : M unit :=
  match l with
  | [] => ret tt
  | item :: l' => body item ;; for_each l' body
  end.

(** The methods of [sm], [session], [s3_client] and [predictor]. *)
Definition sm_create_auto_ml_job (request : automl_job_request) : M string :=
  remote (CreateAutoMLJob request) (fun w h => create_auto_ml_job w h request).

Definition sm_describe_auto_ml_job (job_name : string) : M DescribeAutoMLJobResponse :=
  remote (DescribeAutoMLJob job_name) (fun w h => describe_auto_ml_job w h job_name).

Definition sm_list_candidates_for_auto_ml_job (job_name : string) : M (list candidate) :=
  remote (ListCandidatesForAutoMLJob job_name)
         (fun w h => list_candidates_for_auto_ml_job w h job_name).

Definition sm_create_model (containers : list container) (model_name role : string)
  : M string :=
  remote (CreateModel containers model_name role)
         (fun w h => create_model w h containers model_name role).

Definition sm_create_endpoint_config (config_name : string)
           (variants : list production_variant) : M string :=
  remote (CreateEndpointConfig config_name variants)
         (fun w h => create_endpoint_config w h config_name variants).

Definition sm_create_endpoint (endpoint_name config_name : string) : M string :=
  remote (CreateEndpoint endpoint_name config_name)
         (fun w h => create_endpoint w h endpoint_name config_name).

Definition sm_wait_endpoint_in_service (endpoint_name : string) : M unit :=
  remote (WaitEndpointInService endpoint_name)
         (fun w h => wait_endpoint_in_service w h endpoint_name).

Definition sm_delete_endpoint (endpoint_name : string) : M unit :=
  remote (DeleteEndpoint endpoint_name) (fun w h => delete_endpoint w h endpoint_name).

Definition sm_delete_endpoint_config (config_name : string) : M unit :=
  remote (DeleteEndpointConfig config_name)
         (fun w h => delete_endpoint_config w h config_name).

Definition sm_delete_model (model_name : string) : M unit :=
  remote (DeleteModel model_name) (fun w h => delete_model w h model_name).

Definition session_upload_data (path key_prefix : string) : M string :=
  remote (UploadData path key_prefix) (fun w h => upload_data w h path key_prefix).

Definition session_download_data (path bucket key_prefix : string) : M unit :=
  remote (DownloadData path bucket key_prefix)
         (fun w h => download_data w h path bucket key_prefix).

Definition sm_describe_endpoint (endpoint_name : string) : M string :=
  remote (DescribeEndpoint endpoint_name)
         (fun w h => describe_endpoint w h endpoint_name).

Definition sm_describe_endpoint_config (config_name : string) : M (list string) :=
  remote (DescribeEndpointConfig config_name)
         (fun w h => describe_endpoint_config w h config_name).

Definition runtime_invoke_endpoint (endpoint_name body : string) : M string :=
  remote (InvokeEndpoint endpoint_name body)
         (fun w h => invoke_endpoint w h endpoint_name body).

(** ** The cells of the notebook, in order

    Cells are numbered by their position in the file, counting from 0
    (cell 0 is the title).  A global variable of the notebook is a bound
    variable here; a cell takes the variables it reads and returns the
    ones it assigns.  What a cell displays as the value of its last
    expression is left out. *)

(** Cell 1: the IAM role and the S3 bucket. *)
Definition cell_01 : M (string * string * string) :=
  role <- remote GetExecutionRole (fun w h => get_execution_role w h) ;;
  response <- remote ListBuckets (fun w h => list_buckets w h) ;;
  bucket <- lift (match filter (fun name => PyStr.startswith name "sagemaker-lab")
                               response with
                  | [] => Raise IndexError
                  | name :: _ => Ok name
                  end) ;;
  let prefix := "sagemaker/DEMO-xgboost-churn" in
  ret (role, bucket, prefix).

(** Cell 5: [!wget ...]; the exit status of the shell command is not
    looked at. *)
Definition cell_05 : M unit :=
  emit (EvShell "wget https://raw.githubusercontent.com/phonghuule/sagemaker-churn/master/churn.txt").

(** Cell 6: [churn = pd.read_csv('./churn.txt')]. *)
Definition cell_06 : M DataFrame :=
  file <- ask (fun w h => churn_txt w h) ;;
  match file with
  | None => raise (FileNotFoundError "./churn.txt")
  | Some (header, data) => ret (read_csv header data)
  end.

(** Cell 9: the training and testing splits. *)
Definition split_rows (choice : Z -> nat -> nat -> list nat) (global_state : Z)
           (churn : DataFrame) : result (DataFrame * DataFrame * DataFrame) :=
  rbind (sample choice global_state (8 # 10)%Q (Some 200%Z) churn) (fun train_data =>
  rbind (drop (index train_data) churn) (fun test_data =>
  rbind (drop_column "Churn?" test_data) (fun test_data_no_target =>
  Ok (train_data, test_data, test_data_no_target)))).

Definition cell_09 (churn : DataFrame) : M (DataFrame * DataFrame * DataFrame) :=
  r <- ask (fun w _ => split_rows (np_choice w) (np_global_state w) churn) ;;
  lift r.

(** Cell 11: the two files, written and uploaded. *)
Definition df_to_csv (header : bool) (df : DataFrame) : M string :=
  ask (fun w _ => to_csv (float_repr w) (pandas_to_csv w) header df).

Definition cell_11 (prefix : string) (train_data test_data_no_target : DataFrame)
  : M unit :=
  let train_file := "train_data.csv" in
  text <- df_to_csv true train_data ;;
  emit (EvWriteFile train_file text) ;;
  train_data_s3_path <- session_upload_data train_file (prefix ++ "/train") ;;
  print [PStr ("Train data uploaded to: " ++ train_data_s3_path)] ;;
  let test_file := "test_data.csv" in
  text <- df_to_csv false test_data_no_target ;;
  emit (EvWriteFile test_file text) ;;
  test_data_s3_path <- session_upload_data test_file (prefix ++ "/test") ;;
  print [PStr ("Test data uploaded to: " ++ test_data_s3_path)].

(** Cell 13: the input and output configuration of the job. *)
Definition input_data_config (bucket prefix : string) : list input_channel :=
  [ {| S3DataType := "S3Prefix";
       S3Uri := "s3://" ++ bucket ++ "/" ++ prefix ++ "/train";
       TargetAttributeName := "Churn?" |} ].

Definition output_data_config (bucket prefix : string) : string :=
  "s3://" ++ bucket ++ "/" ++ prefix ++ "/output".

(** Cell 16: the job is launched. *)
Definition cell_16 (role bucket prefix : string) : M string :=
  timestamp_suffix <- ask (fun w h => strftime_gmtime w h) ;;
  let auto_ml_job_name := "automl-churn-" ++ timestamp_suffix in
  print [PStr ("AutoMLJobName: " ++ auto_ml_job_name)] ;;
  sm_create_auto_ml_job
    {| AutoMLJobName := auto_ml_job_name;
       InputDataConfig := input_data_config bucket prefix;
       S3OutputPath := output_data_config bucket prefix;
       MaxCandidates := 20;
       RoleArn := role |} ;;
  ret auto_ml_job_name.

(** Cell 17: [%store auto_ml_job_name]. *)
Definition cell_17 (auto_ml_job_name : string) : M unit :=
  emit (EvStore "auto_ml_job_name" auto_ml_job_name).

(** Cell 19: the job is tracked until it has ended. *)
Definition ended (job_run_status : string) : bool :=
  existsb (String.eqb job_run_status) ["Failed"; "Completed"; "Stopped"].

Definition status_line (d : DescribeAutoMLJobResponse) : list pyobj :=
  [PStr (AutoMLJobStatus d ++ " - " ++ AutoMLJobSecondaryStatus d)].

(** [while job_run_status not in ('Failed', 'Completed', 'Stopped'): ...],
    given [iterations] turns of the loop at most. *)
Fixpoint poll_while (iterations : nat) (auto_ml_job_name : string)
         (describe_response : DescribeAutoMLJobResponse) (job_run_status : string)
  : M DescribeAutoMLJobResponse :=
  if ended job_run_status then ret describe_response
  else match iterations with
       | O => fun _ _ => (Running, [])
       | S iterations' =>
           describe_response <- sm_describe_auto_ml_job auto_ml_job_name ;;
           let job_run_status := AutoMLJobStatus describe_response in
           print (status_line describe_response) ;;
           sleep 30 ;;
           poll_while iterations' auto_ml_job_name describe_response job_run_status
       end.

Definition cell_19 (iterations : nat) (auto_ml_job_name : string) : M DescribeAutoMLJobResponse :=
  print [PStr "JobStatus - Secondary Status"] ;;
  print [PStr "------------------------------"] ;;
  describe_response <- sm_describe_auto_ml_job auto_ml_job_name ;;
  print (status_line describe_response) ;;
  let job_run_status := AutoMLJobStatus describe_response in
  poll_while iterations auto_ml_job_name describe_response job_run_status.

(** Cell 21: where the generated notebooks are. *)
Definition cell_21 (describe_response : DescribeAutoMLJobResponse) : M (string * string) :=
  a <- lift (getitem "AutoMLJobArtifacts" (AutoMLJobArtifacts describe_response)) ;;
  print [PStr (CandidateDefinitionNotebookLocation a)] ;;
  print [PStr (DataExplorationNotebookLocation a)] ;;
  let candidate_nbk := CandidateDefinitionNotebookLocation a in
  let data_explore_nbk := DataExplorationNotebookLocation a in
  ret (candidate_nbk, data_explore_nbk).

(** Cell 22: the generated notebooks are downloaded. *)
Definition split_s3_path_call (s3_path : string) : M (string * string) :=
  match split_s3_path s3_path with
  | None => raise IndexError
  | Some r => ret r
  end.

Definition cell_22 (candidate_nbk data_explore_nbk : string) : M unit :=
  '(s3_bucket, candidate_nbk_key) <- split_s3_path_call candidate_nbk ;;
  '(_, data_explore_nbk_key) <- split_s3_path_call data_explore_nbk ;;
  print [PStr s3_bucket; PStr candidate_nbk_key; PStr data_explore_nbk_key] ;;
  session_download_data "./" s3_bucket candidate_nbk_key ;;
  session_download_data "./" s3_bucket data_explore_nbk_key.

(** Cell 24: the best candidate. *)
Definition cell_24 (auto_ml_job_name : string) : M (candidate * string) :=
  d <- sm_describe_auto_ml_job auto_ml_job_name ;;
  best_candidate <- lift (getitem "BestCandidate" (BestCandidate d)) ;;
  let best_candidate_name := CandidateName best_candidate in
  print [PCandidate best_candidate] ;;
  print [PStr Frame.newline] ;;
  print [PStr ("CandidateName: " ++ best_candidate_name)] ;;
  print [PStr ("FinalAutoMLJobObjectiveMetricName: "
               ++ MetricName (FinalAutoMLJobObjectiveMetric best_candidate))] ;;
  print [PStr ("FinalAutoMLJobObjectiveMetricValue: "
               ++ Value (FinalAutoMLJobObjectiveMetric best_candidate))] ;;
  ret (best_candidate, best_candidate_name).

(** Cell 27: all candidates. *)
Definition cell_27 (auto_ml_job_name : string) : M (list candidate) :=
  sm_list_candidates_for_auto_ml_job auto_ml_job_name.

(** Cell 28: one line per candidate; [item['InferenceContainers'][1]] is
    an [IndexError] on a candidate with fewer than two containers. *)
Definition cell_28 (candidates : list candidate) : M unit :=
  for_each candidates (fun item =>
    print [PStr (CandidateName item); PMetric (FinalAutoMLJobObjectiveMetric item)] ;;
    c <- lift (match nth_error (InferenceContainers item) 1 with
               | None => Raise IndexError
               | Some c => Ok c
               end) ;;
    print [PStr (Image c); PStr Frame.newline]).

(** Cell 30: the model, the endpoint configuration and the endpoint. *)
Definition cell_30 (role : string) (best_candidate : candidate)
           (best_candidate_name : string) : M (string * string * string) :=
  timestamp_suffix <- ask (fun w h => strftime_gmtime w h) ;;
  let model_name := best_candidate_name ++ timestamp_suffix ++ "-model" in
  model_arn <- sm_create_model (InferenceContainers best_candidate) model_name role ;;
  let epc_name := best_candidate_name ++ timestamp_suffix ++ "-epc" in
  ep_config <- sm_create_endpoint_config epc_name
                 [ {| InstanceType := "ml.m5.2xlarge";
                      InitialInstanceCount := 1;
                      ModelName := model_name;
                      VariantName := "main" |} ] ;;
  let ep_name := best_candidate_name ++ timestamp_suffix ++ "-ep" in
  create_endpoint_response <- sm_create_endpoint ep_name epc_name ;;
  ret (model_name, epc_name, ep_name).

(** Cell 31: [sm.get_waiter('endpoint_in_service').wait(EndpointName=ep_name)]. *)
Definition cell_31 (ep_name : string) : M unit :=
  sm_wait_endpoint_in_service ep_name.

(** Cell 33: predictions for the testing split, and their accuracy. *)

(** [RealTimePredictor(endpoint=...)] and [Predictor(endpoint_name=...)]:
    where the constructor looks the endpoint up, it describes the
    endpoint, and then the configuration that the endpoint names. *)
Definition predictor_init (endpoint_name : string) : M unit :=
  eager <- ask (fun w _ => predictor_describes w) ;;
  if eager : bool then
    endpoint_config_name <- sm_describe_endpoint endpoint_name ;;
    model_names <- sm_describe_endpoint_config endpoint_config_name ;;
    ret tt
  else ret tt.

(** A body that Python's [splitlines] and [csv.reader] take apart at
    line feeds and commas alone: printable ASCII without the quote
    character, and line feeds, within the reader's field size limit. *)
Definition plain_body_char (c : ascii) : bool :=
  let n := nat_of_ascii c in
  Nat.eqb n 10 || ((32 <=? n)%nat && (n <=? 126)%nat && negb (Nat.eqb n 34)).

Definition plain_body (body : string) : bool :=
  forallb plain_body_char (list_ascii_of_string body)
  && (Z.of_nat (String.length body) <=? 131072)%Z.

(** [text.splitlines()], for text whose only line boundary is the line
    feed. *)
Definition splitlines (text : string) : list string :=
  let parts := PyStr.split (ascii_of_nat 10) text in
  if String.eqb (last parts "") "" then removelast parts else parts.

(** [csv.reader] on one line without quoted fields. *)
Definition csv_fields (line : string) : list string :=
  if String.eqb line "" then [] else PyStr.split "," line.

(** [CSVDeserializer.deserialize]:
    [list(csv.reader(body.decode('utf-8').splitlines()))]; on a body
    that is not plain the SDK's own answer, which may be an error. *)
Definition csv_deserialize (sdk : string -> result (list (list string)))
           (body : string) : result (list (list string)) :=
  if plain_body body then Ok (map csv_fields (splitlines body)) else sdk body.

(** [(test_data.reset_index()['Churn?'] == prediction_df[0]).sum()
     / len(test_data_inference)] *)
Definition accuracy_of (np_equal : list (option pyval) -> list (option pyval)
                                   -> nat -> bool)
           (test_data test_data_inference : DataFrame)
           (prediction_df : list (list pyval)) : result pyfloat :=
  rbind (reset_index_column "Churn?" test_data) (fun truth =>
  rbind (column0 prediction_df) (fun predicted =>
  rbind (series_eq np_equal truth predicted) (fun hits =>
  Ok (divide (Frame.sum hits) (len test_data_inference))))).

(** The imports of either branch are taken to be there, as those of the
    other cells are. *)
Definition cell_33 (ep_name : string) (test_data : DataFrame)
  : M (list (list pyval) * pyfloat) :=
  version <- ask (fun w _ => sagemaker_version w) ;;
  if String.ltb version "2" then
    predictor_init ep_name ;;
    test_data_inference <- lift (drop_column "Churn?" test_data) ;;
    body <- df_to_csv false test_data_inference ;;
    prediction <- runtime_invoke_endpoint ep_name body ;;
    parsed <- ask (fun w _ => pd_read_csv w prediction) ;;
    prediction_df <- lift parsed ;;
    compared <- ask (fun w _ => accuracy_of (np_equal w) test_data
                                            test_data_inference prediction_df) ;;
    accuracy <- lift compared ;;
    print [PFormat "Accuracy: {}" accuracy] ;;
    ret (prediction_df, accuracy)
  else
    predictor_init ep_name ;;
    test_data_inference <- lift (drop_column "Churn?" test_data) ;;
    body <- df_to_csv false test_data_inference ;;
    response <- runtime_invoke_endpoint ep_name body ;;
    deserialized <- ask (fun w _ => csv_deserialize (csv_deserializer w) response) ;;
    prediction <- lift deserialized ;;
    let prediction_df := map (map VStr) prediction in
    compared <- ask (fun w _ => accuracy_of (np_equal w) test_data
                                            test_data_inference prediction_df) ;;
    accuracy <- lift compared ;;
    print [PFormat "Accuracy: {}" accuracy] ;;
    ret (prediction_df, accuracy).

(** Cell 34: the scikit-learn metrics of the same two columns. *)
Definition sklearn (name : string) (test_data : DataFrame)
           (prediction_df : list (list pyval)) : M pyfloat :=
  y_true <- lift (reset_index_column "Churn?" test_data) ;;
  y_pred <- lift (column0 prediction_df) ;;
  r <- ask (fun w _ => sklearn_score w name y_true y_pred) ;;
  lift r.

Definition cell_34 (test_data : DataFrame) (prediction_df : list (list pyval))
  : M unit :=
  accuracy <- sklearn "accuracy_score" test_data prediction_df ;;
  precision <- sklearn "precision_score" test_data prediction_df ;;
  recall <- sklearn "recall_score" test_data prediction_df ;;
  f1 <- sklearn "f1_score" test_data prediction_df ;;
  print [PFormat "Accuracy: {}" accuracy] ;;
  print [PFormat "Precision: {}" precision] ;;
  print [PFormat "Recall: {}" recall] ;;
  print [PFormat "F1: {}" f1].

(** Cell 36, a markdown cell: the job's outputs in S3 (the deletion in its
    last line is commented out in the text itself). *)
Definition cell_36 (bucket prefix auto_ml_job_name : string) : M unit :=
  print [PStr ("s3.Bucket(name='" ++ bucket ++ "')")] ;;
  let job_outputs_prefix := prefix ++ "/output/" ++ auto_ml_job_name in
  print [PStr job_outputs_prefix].

(** Cell 38, a markdown cell: the endpoint and what belongs to it. *)
Definition cell_38 (ep_name epc_name model_name : string) : M unit :=
  sm_delete_endpoint ep_name ;;
  sm_delete_endpoint_config epc_name ;;
  sm_delete_model model_name.

(** ** The notebook

    Jupyter executes a code cell and renders a markdown cell. *)
Inductive cell_type : Type := code | markdown.

Definition run_cell (t : cell_type) (source : M unit) : M unit :=
  match t with
  | code => source
  | markdown => ret tt
  end.

(** All cells from top to bottom; an exception ends the run. *)
Definition notebook (iterations : nat) : M unit :=
  '(role, bucket, prefix) <- cell_01 ;;
  run_cell code cell_05 ;;
  churn <- cell_06 ;;
  '(train_data, test_data, test_data_no_target) <- cell_09 churn ;;
  run_cell code (cell_11 prefix train_data test_data_no_target) ;;
  auto_ml_job_name <- cell_16 role bucket prefix ;;
  run_cell code (cell_17 auto_ml_job_name) ;;
  describe_response <- cell_19 iterations auto_ml_job_name ;;
  '(candidate_nbk, data_explore_nbk) <- cell_21 describe_response ;;
  run_cell code (cell_22 candidate_nbk data_explore_nbk) ;;
  '(best_candidate, best_candidate_name) <- cell_24 auto_ml_job_name ;;
  sm_dict <- cell_27 auto_ml_job_name ;;
  run_cell code (cell_28 sm_dict) ;;
  '(model_name, epc_name, ep_name) <- cell_30 role best_candidate best_candidate_name ;;
  run_cell code (cell_31 ep_name) ;;
  '(prediction_df, accuracy) <- cell_33 ep_name test_data ;;
  run_cell code (cell_34 test_data prediction_df) ;;
  run_cell markdown (cell_36 bucket prefix auto_ml_job_name) ;;
  run_cell markdown (cell_38 ep_name epc_name model_name).

(** ** Reading a run *)

Definition run {A} (m : M A) (w : world) : outcome A * list event := m w [].

Definition calls_of (evs : list event) : list call :=
  flat_map (fun ev => match ev with
                      | EvCall c _ => [c]
                      | _ => []
                      end) evs.

Definition is_delete (c : call) : bool :=
  match c with
  | DeleteEndpoint _ | DeleteEndpointConfig _ | DeleteModel _ => true
  | _ => false
  end.

(** The calls that create, await and use the endpoint; the look-ups of
    the predictor's constructor change nothing and are not among them. *)
Definition is_hosting (c : call) : bool :=
  match c with
  | CreateModel _ _ _ | CreateEndpointConfig _ _ | CreateEndpoint _ _
  | WaitEndpointInService _ | InvokeEndpoint _ _ => true
  | _ => false
  end.

Definition is_job_creation (c : call) : bool :=
  match c with
  | CreateAutoMLJob _ => true
  | _ => false
  end.

(** The job a call is about, for the calls that name one. *)
Definition job_of (c : call) : option string :=
  match c with
  | CreateAutoMLJob request => Some (AutoMLJobName request)
  | DescribeAutoMLJob job_name => Some job_name
  | ListCandidatesForAutoMLJob job_name => Some job_name
  | _ => None
  end.

Definition raised_by (ev : event) : option pyerror :=
  match ev with
  | EvCall _ (Some e) => Some e
  | _ => None
  end.

Definition quiet (ev : event) : Prop := raised_by ev = None.

(** The hosting resources a service holds after the calls of a run: what
    a call that returned has created and no later call has deleted. *)
Inductive resource : Type :=
| ModelRes (name : string)
| EndpointConfigRes (name : string)
| EndpointRes (name : string).

Definition resource_eqb (a b : resource) : bool :=
  match a, b with
  | ModelRes x, ModelRes y => String.eqb x y
  | EndpointConfigRes x, EndpointConfigRes y => String.eqb x y
  | EndpointRes x, EndpointRes y => String.eqb x y
  | _, _ => false
  end.

Definition apply_event (live : list resource) (ev : event) : list resource :=
  match ev with
  | EvCall (CreateModel _ n _) None => ModelRes n :: live
  | EvCall (CreateEndpointConfig n _) None => EndpointConfigRes n :: live
  | EvCall (CreateEndpoint n _) None => EndpointRes n :: live
  | EvCall (DeleteModel n) None =>
      filter (fun r => negb (resource_eqb r (ModelRes n))) live
  | EvCall (DeleteEndpointConfig n) None =>
      filter (fun r => negb (resource_eqb r (EndpointConfigRes n))) live
  | EvCall (DeleteEndpoint n) None =>
      filter (fun r => negb (resource_eqb r (EndpointRes n))) live
  | _ => live
  end.

Definition live_after (evs : list event) : list resource :=
  fold_left apply_event evs [].

(** ** The trace of the tracking cell *)

(** How many times the job has been described in a stretch of events. *)
Definition polls (evs : list event) : nat :=
  List.length (filter (fun c => match c with
                                | DescribeAutoMLJob _ => true
                                | _ => false
                                end) (calls_of evs)).

(** The total time slept in a stretch of events. *)
Definition slept (evs : list event) : Z :=
  fold_right (fun ev acc => match ev with
                            | EvSleep s => (s + acc)%Z
                            | _ => acc
                            end) 0%Z evs.

(** One turn of the loop that observes response [d]. *)
Definition turn (job_name : string) (d : DescribeAutoMLJobResponse) : list event :=
  [EvCall (DescribeAutoMLJob job_name) None; EvPrint (status_line d); EvSleep 30].

(** What cell 19 does before the loop, observing response [d]. *)
Definition first_look (job_name : string) (d : DescribeAutoMLJobResponse) : list event :=
  [EvPrint [PStr "JobStatus - Secondary Status"];
   EvPrint [PStr "------------------------------"];
   EvCall (DescribeAutoMLJob job_name) None;
   EvPrint (status_line d)].

(** [n] turns, observing the responses number [k+1 .. k+n]. *)
Definition turns (job_name : string) (responses : nat -> DescribeAutoMLJobResponse)
           (k n : nat) : list event :=
  flat_map (fun i => turn job_name (responses (S i))) (seq k n).

Definition ended_at (responses : nat -> DescribeAutoMLJobResponse) (i : nat) : bool :=
  ended (AutoMLJobStatus (responses i)).

(** Response number [n] is the first one with a status that ends the loop. *)
Definition first_ended (responses : nat -> DescribeAutoMLJobResponse) (n : nat) : Prop :=
  ended_at responses n = true /\ forall i, (i < n)%nat -> ended_at responses i = false.

(** The service answers the descriptions of the job that follow history
    [h] with [responses 0], [responses 1], ... *)
Definition follows (w : world) (h : history) (job_name : string)
           (responses : nat -> DescribeAutoMLJobResponse) : Prop :=
  forall evs, describe_auto_ml_job w (h ++ evs)%list job_name
              = Ok (responses (polls evs)).

(** The hosting resources that calls which returned have created. *)
Definition created_by (ev : event) : list resource :=
  match ev with
  | EvCall (CreateModel _ n _) None => [ModelRes n]
  | EvCall (CreateEndpointConfig n _) None => [EndpointConfigRes n]
  | EvCall (CreateEndpoint n _) None => [EndpointRes n]
  | _ => []
  end.

Definition created (evs : list event) : list resource := flat_map created_by evs.

Definition hosting (evs : list event) : list call := filter is_hosting (calls_of evs).

(** The hosting calls of a run that goes through, for the best candidate,
    the time stamp of cell 30, the role and the request body. *)
Definition hosting_plan (role : string) (best_candidate : candidate)
           (timestamp_suffix body : string) : list call :=
  let best_candidate_name := CandidateName best_candidate in
  let model_name := best_candidate_name ++ timestamp_suffix ++ "-model" in
  let epc_name := best_candidate_name ++ timestamp_suffix ++ "-epc" in
  let ep_name := best_candidate_name ++ timestamp_suffix ++ "-ep" in
  [ CreateModel (InferenceContainers best_candidate) model_name role;
    CreateEndpointConfig epc_name
      [ {| InstanceType := "ml.m5.2xlarge";
           InitialInstanceCount := 1;
           ModelName := model_name;
           VariantName := "main" |} ];
    CreateEndpoint ep_name epc_name;
    WaitEndpointInService ep_name;
    InvokeEndpoint ep_name body ].

(** The request of cell 16. *)
Definition job_request (role bucket prefix job_name : string) : automl_job_request :=
  {| AutoMLJobName := job_name;
     InputDataConfig := input_data_config bucket prefix;
     S3OutputPath := output_data_config bucket prefix;
     MaxCandidates := 20;
     RoleArn := role |}.

(** The three creation calls of cell 30. *)
Definition three_calls (role : string) (bc : candidate) (bcn ts : string) : list call :=
  [ CreateModel (InferenceContainers bc) (bcn ++ ts ++ "-model") role;
    CreateEndpointConfig (bcn ++ ts ++ "-epc")
      [ {| InstanceType := "ml.m5.2xlarge";
           InitialInstanceCount := 1;
           ModelName := bcn ++ ts ++ "-model";
           VariantName := "main" |} ];
    CreateEndpoint (bcn ++ ts ++ "-ep") (bcn ++ ts ++ "-epc") ].

(** Kinds of events, by the calls they may hold. *)
Definition no_hosting (ev : event) : Prop :=
  match ev with
  | EvCall c _ => is_hosting c = false
  | _ => True
  end.

Definition no_job (ev : event) : Prop :=
  match ev with
  | EvCall c _ => job_of c = None
  | _ => True
  end.

Definition job_ok (job_name : string) (ev : event) : Prop :=
  match ev with
  | EvCall c _ =>
      is_job_creation c = false /\ (job_of c = None \/ job_of c = Some job_name)
  | _ => True
  end.

Definition no_create (ev : event) : Prop :=
  match created_by ev with
  | [] => True
  | _ :: _ => False
  end.

(** The files a stretch of events writes: name and content. *)
Definition files_written (evs : list event) : list (string * string) :=
  flat_map (fun ev => match ev with
                      | EvWriteFile path content => [(path, content)]
                      | _ => []
                      end) evs.

(** No character of [s] is [c]. *)
Definition free (c : ascii) (s : string) : Prop :=
  Forall (fun x => x <> c) (list_ascii_of_string s).

(** Lines of text, each followed by a line feed. *)
Definition unlines (lines : list string) : string :=
  String.concat "" (map (fun line => line ++ Frame.newline) lines).

(** The number of rows whose ground-truth cell is a text, and the very
    text predicted for the row. *)
Definition text_matches (truth : list (option pyval))
           (predicted : list (option string)) : nat :=
  List.length (filter (fun p => match fst p, snd p with
                                | Some (VStr label), Some prediction =>
                                    String.eqb label prediction
                                | _, _ => false
                                end)
                      (combine truth predicted)).

(** A line of a response as fields: plain texts, and not one empty field
    alone (that line would be blank, and a blank line has no field). *)
Definition response_row (fields : list string) : bool :=
  forallb plain fields
  && match fields with
     | [EmptyString] => false
     | _ => true
     end.

(** The predictions as a frame, by the branch of cell 33 that the
    installed SDK selects: [pd.read_csv] for a release before 2, the
    rows of [CSVDeserializer] as texts otherwise. *)
Definition parsed_prediction (w : world) (response : string)
  : result (list (list pyval)) :=
  if String.ltb (sagemaker_version w) "2"
  then pd_read_csv w response
  else rbind (csv_deserialize (csv_deserializer w) response)
             (fun prediction => Ok (map (map VStr) prediction)).

(** The calls that the constructor of the predictor makes for an
    endpoint whose description names configuration [config]. *)
Definition lookups (eager : bool) (endpoint_name config : string) : list call :=
  if eager
  then [DescribeEndpoint endpoint_name; DescribeEndpointConfig config]
  else [].


(** ** Statements about code

    [post m w h Q]: the outcome and the events of [m], run in world [w]
    after history [h], satisfy [Q]. *)
Definition post {A} (m : M A) (w : world) (h : history)
           (Q : outcome A -> list event -> Prop) : Prop :=
  Q (fst (m w h)) (snd (m w h)).

(** All events of the code satisfy [P], in every world and after every
    history. *)
Definition emits {A} (P : event -> Prop) (m : M A) : Prop :=
  forall w h, Forall P (snd (m w h)).

(** The events are free of raising calls, or they end with the first one
    and its error is the outcome. *)
Definition stopped {A} (o : outcome A) (evs : list event) : Prop :=
  Forall quiet evs \/
  exists pre c e,
    evs = (pre ++ [EvCall c (Some e)])%list /\ Forall quiet pre /\ o = Raised e.

Definition stops {A} (m : M A) : Prop :=
  forall w h, stopped (fst (m w h)) (snd (m w h)).

Definition no_delete (ev : event) : Prop :=
  match ev with
  | EvCall c _ => is_delete c = false
  | _ => True
  end.

(** ** A small lab to run the notebook in

    A bucket list, a ten-line [churn.txt], a job that is in progress for
    its first two descriptions, and an endpoint that predicts ['False.']
    for every row. *)
Module Lab.

Definition tuned : candidate :=
  {| CandidateName := "tuning-job-1-007";
     FinalAutoMLJobObjectiveMetric :=
       {| MetricName := "validation:f1"; Value := "0.93" |};
     InferenceContainers :=
       [ {| Image := "sklearn-automl"; ModelDataUrl := "s3://lab/dpp/model.tar.gz" |};
         {| Image := "xgboost"; ModelDataUrl := "s3://lab/tuning/model.tar.gz" |} ] |}.

Definition in_progress : DescribeAutoMLJobResponse :=
  {| AutoMLJobStatus := "InProgress";
     AutoMLJobSecondaryStatus := "AnalyzingData";
     AutoMLJobArtifacts := None;
     BestCandidate := None |}.

Definition completed : DescribeAutoMLJobResponse :=
  {| AutoMLJobStatus := "Completed";
     AutoMLJobSecondaryStatus := "MaxCandidatesReached";
     AutoMLJobArtifacts :=
       Some {| CandidateDefinitionNotebookLocation :=
                 "s3://sagemaker-lab-1/out/nb/CandidateDefinition.ipynb";
               DataExplorationNotebookLocation :=
                 "s3://sagemaker-lab-1/out/nb/DataExploration.ipynb" |};
     BestCandidate := Some tuned |}.

Definition responses (i : nat) : DescribeAutoMLJobResponse :=
  if (i <? 2)%nat then in_progress else completed.

(** A job that never ends. *)
Definition stuck (i : nat) : DescribeAutoMLJobResponse := in_progress.

Definition header : list string := ["State"; "Day Mins"; "Churn?"].

(** The minutes as floats, by their bit patterns. *)
Definition minutes : list (Z * string) :=
  [ (4643371304711985562, "265.1"); (4639889811093795635, "161.6");
    (4642767892730662093, "243.4"); (4643974716693309030, "299.4");
    (4640069251391448678, "166.7"); (4642064205288885453, "223.4");
    (4641881246554023526, "218.2"); (4639727962982187008, "157.0");
    (4640695533214629888, "184.5"); (4643256955502696858, "258.6") ]%Z.

Definition repr (bits : Z) : string :=
  match find (fun p => Z.eqb (fst p) bits) minutes with
  | Some p => snd p
  | None => "0.0"
  end.

Definition data : list (list pyval) :=
  [ [VStr "KS"; VFloat 4643371304711985562; VStr "False."];
    [VStr "OH"; VFloat 4639889811093795635; VStr "False."];
    [VStr "NJ"; VFloat 4642767892730662093; VStr "False."];
    [VStr "OH"; VFloat 4643974716693309030; VStr "True."];
    [VStr "OK"; VFloat 4640069251391448678; VStr "False."];
    [VStr "AL"; VFloat 4642064205288885453; VStr "False."];
    [VStr "MA"; VFloat 4641881246554023526; VStr "False."];
    [VStr "MO"; VFloat 4639727962982187008; VStr "False."];
    [VStr "LA"; VFloat 4640695533214629888; VStr "True."];
    [VStr "WV"; VFloat 4643256955502696858; VStr "False."] ].

(** A stand-in for NumPy's generator: [k] positions of [0 .. n-1],
    counted down from the end, starting [seed mod n] places in. *)
Definition choice (seed : Z) (n k : nat) : list nat :=
  let positions := rev (seq 0 n) in
  let start := (Z.to_nat seed mod n)%nat in
  firstn k (skipn start positions ++ firstn start positions)%list.

Definition predictions : string :=
  "False." ++ Frame.newline ++ "False." ++ Frame.newline.

Definition lab_at (generator_state : Z) (clock : string)
           (describe : nat -> DescribeAutoMLJobResponse) : world :=
  {| get_execution_role := fun _ => Ok "arn:aws:iam::1:role/lab";
     list_buckets := fun _ => Ok ["logs"; "sagemaker-lab-1"];
     upload_data := fun _ path key_prefix =>
       Ok ("s3://sagemaker-us-west-2-1/" ++ key_prefix ++ "/" ++ path);
     create_auto_ml_job := fun _ request =>
       Ok ("arn:aws:sagemaker:us-west-2:1:automl-job/" ++ AutoMLJobName request);
     describe_auto_ml_job := fun h _ => Ok (describe (polls h));
     download_data := fun _ _ _ _ => Ok tt;
     list_candidates_for_auto_ml_job := fun _ _ => Ok [tuned];
     create_model := fun _ _ name _ => Ok ("arn:model/" ++ name);
     create_endpoint_config := fun _ name _ => Ok ("arn:endpoint-config/" ++ name);
     create_endpoint := fun _ name _ => Ok ("arn:endpoint/" ++ name);
     wait_endpoint_in_service := fun _ _ => Ok tt;
     describe_endpoint := fun _ name => Ok (name ++ "c");
     describe_endpoint_config := fun _ _ => Ok ["tuning-job-1-007-model"];
     invoke_endpoint := fun _ _ _ => Ok predictions;
     delete_endpoint := fun _ _ => Ok tt;
     delete_endpoint_config := fun _ _ => Ok tt;
     delete_model := fun _ _ => Ok tt;
     strftime_gmtime := fun _ => clock;
     churn_txt := fun _ => Some (header, data);
     sagemaker_version := "2.15.0";
     predictor_describes := true;
     csv_deserializer := fun _ => Raise (OtherError "UnicodeDecodeError" "");
     pd_read_csv := fun _ => Raise (OtherError "EmptyDataError" "");
     float_repr := repr;
     pandas_to_csv := fun _ _ => "";
     np_equal := fun _ _ _ => false;
     np_choice := choice;
     np_global_state := generator_state;
     sklearn_score := fun _ _ _ => Ok (Ratio (1 # 2)%Q) |}.

Definition lab : (nat -> DescribeAutoMLJobResponse) -> world :=
  lab_at 0 "02-01-27-00".

(** The same lab with a service that refuses to create the endpoint. *)
Definition refusing : world :=
  let w := lab responses in
  {| get_execution_role := get_execution_role w;
     list_buckets := list_buckets w;
     upload_data := upload_data w;
     create_auto_ml_job := create_auto_ml_job w;
     describe_auto_ml_job := describe_auto_ml_job w;
     download_data := download_data w;
     list_candidates_for_auto_ml_job := list_candidates_for_auto_ml_job w;
     create_model := create_model w;
     create_endpoint_config := create_endpoint_config w;
     create_endpoint := fun _ _ _ => Raise (ClientError "ResourceLimitExceeded");
     wait_endpoint_in_service := wait_endpoint_in_service w;
     describe_endpoint := describe_endpoint w;
     describe_endpoint_config := describe_endpoint_config w;
     invoke_endpoint := invoke_endpoint w;
     delete_endpoint := delete_endpoint w;
     delete_endpoint_config := delete_endpoint_config w;
     delete_model := delete_model w;
     strftime_gmtime := strftime_gmtime w;
     churn_txt := churn_txt w;
     sagemaker_version := sagemaker_version w;
     predictor_describes := predictor_describes w;
     csv_deserializer := csv_deserializer w;
     pd_read_csv := pd_read_csv w;
     float_repr := float_repr w;
     pandas_to_csv := pandas_to_csv w;
     np_equal := np_equal w;
     np_choice := np_choice w;
     np_global_state := np_global_state w;
     sklearn_score := sklearn_score w |}.



(** A testing split of the lab's kind, with one label predicted wrong. *)
Definition held_out : DataFrame :=
  mk header [(0, [VStr "KS"; VFloat 4643371304711985562; VStr "False."]);
             (1, [VStr "OH"; VFloat 4639889811093795635; VStr "True."])]%nat.

End Lab.

(** ** Further vocabulary for single cells *)

Definition lab_bucket (name : string) : bool := PyStr.startswith name "sagemaker-lab".

(** The lines cell 28 prints for one candidate: the second one only
    where the candidate has a second container. *)
Definition candidate_lines (item : candidate) : list event :=
  EvPrint [PStr (CandidateName item); PMetric (FinalAutoMLJobObjectiveMetric item)]
  :: match nth_error (InferenceContainers item) 1 with
     | Some c => [EvPrint [PStr (Image c); PStr Frame.newline]]
     | None => []
     end.

Definition two_containers (item : candidate) : bool :=
  (2 <=? List.length (InferenceContainers item))%nat.

(** How many descriptions of the job have returned in a stretch of events. *)
Definition returned_polls (evs : list event) : nat :=
  List.length (filter (fun ev => match ev with
                                 | EvCall (DescribeAutoMLJob _) None => true
                                 | _ => false
                                 end) evs).

(** A job that has failed: artifacts, but no best candidate. *)
Definition failed_job : DescribeAutoMLJobResponse :=
  {| AutoMLJobStatus := "Failed";
     AutoMLJobSecondaryStatus := "Failed";
     AutoMLJobArtifacts := AutoMLJobArtifacts Lab.completed;
     BestCandidate := None |}.

(** The events of cell 1. *)
Definition setup_event (ev : event) : Prop :=
  match ev with
  | EvCall GetExecutionRole _ => True
  | EvCall ListBuckets _ => True
  | _ => False
  end.

Definition is_shell (ev : event) : bool :=
  match ev with
  | EvShell _ => true
  | _ => false
  end.

(** A world with another state of [./churn.txt]. *)
Definition with_churn_txt (file : history -> option (list string * list (list pyval)))
           (w : world) : world :=
  {| get_execution_role := get_execution_role w;
     list_buckets := list_buckets w;
     upload_data := upload_data w;
     create_auto_ml_job := create_auto_ml_job w;
     describe_auto_ml_job := describe_auto_ml_job w;
     download_data := download_data w;
     list_candidates_for_auto_ml_job := list_candidates_for_auto_ml_job w;
     create_model := create_model w;
     create_endpoint_config := create_endpoint_config w;
     create_endpoint := create_endpoint w;
     wait_endpoint_in_service := wait_endpoint_in_service w;
     describe_endpoint := describe_endpoint w;
     describe_endpoint_config := describe_endpoint_config w;
     invoke_endpoint := invoke_endpoint w;
     delete_endpoint := delete_endpoint w;
     delete_endpoint_config := delete_endpoint_config w;
     delete_model := delete_model w;
     strftime_gmtime := strftime_gmtime w;
     churn_txt := file;
     sagemaker_version := sagemaker_version w;
     predictor_describes := predictor_describes w;
     csv_deserializer := csv_deserializer w;
     pd_read_csv := pd_read_csv w;
     float_repr := float_repr w;
     pandas_to_csv := pandas_to_csv w;
     np_equal := np_equal w;
     np_choice := np_choice w;
     np_global_state := np_global_state w;
     sklearn_score := sklearn_score w |}.

(** Events that are no calls. *)
Definition no_call (ev : event) : Prop :=
  match ev with
  | EvCall _ _ => False
  | _ => True
  end.

(** The calls of a run of the notebook that goes through: the loop of
    cell 19 has taken [turns] turns, and the constructor of the
    predictor has made the calls [looked_up]. *)
Definition completed_calls (role bucket job_name : string) (turns : nat)
           (s3_bucket candidate_nbk_key data_explore_nbk_key : string)
           (best_candidate : candidate) (timestamp_suffix : string)
           (looked_up : list call) (body : string)
  : list call :=
  let prefix := "sagemaker/DEMO-xgboost-churn" in
  let best_candidate_name := CandidateName best_candidate in
  let ep_name := best_candidate_name ++ timestamp_suffix ++ "-ep" in
  ([ GetExecutionRole;
     ListBuckets;
     UploadData "train_data.csv" (prefix ++ "/train");
     UploadData "test_data.csv" (prefix ++ "/test");
     CreateAutoMLJob (job_request role bucket prefix job_name) ]
   ++ repeat (DescribeAutoMLJob job_name) (S turns)
   ++ [ DownloadData "./" s3_bucket candidate_nbk_key;
        DownloadData "./" s3_bucket data_explore_nbk_key;
        DescribeAutoMLJob job_name;
        ListCandidatesForAutoMLJob job_name ]
   ++ three_calls role best_candidate best_candidate_name timestamp_suffix
   ++ [ WaitEndpointInService ep_name ]
   ++ looked_up
   ++ [ InvokeEndpoint ep_name body ])%list.
Example split_s3_path_notebook :
  split_s3_path "s3://sagemaker-lab-1/sagemaker/out/nb/Candidate.ipynb"
  = Some ("sagemaker-lab-1", "sagemaker/out/nb/Candidate.ipynb").
Proof. reflexivity. Qed.

Example replace_all_occurrences :
  PyStr.replace "s3://" "" "s3://a/s3://b" = "a/b".
Proof. reflexivity. Qed.

Example replace_empty_pattern : PyStr.replace "" "-" "abc" = "-a-b-c-".
Proof. reflexivity. Qed.

Example replace_no_overlap : PyStr.replace "aa" "b" "aaa" = "ba".
Proof. reflexivity. Qed.

Example split_trailing : PyStr.split "/" "a//b/" = ["a"; ""; "b"; ""].
Proof. reflexivity. Qed.

(** *** Lemmas on the string operations *)

Section StringFacts.

Lemma split_nonempty sep s : PyStr.split sep s <> [].
Proof.
  induction s as [|c s IH]; simpl; [discriminate|].
  destruct (Ascii.eqb c sep); [discriminate|].
  destruct (PyStr.split sep s); discriminate.
Qed.

Lemma join_cons sep w ws :
  ws <> [] -> PyStr.join sep (w :: ws) = w ++ sep ++ PyStr.join sep ws.
Proof. destruct ws; [congruence | reflexivity]. Qed.

Lemma join_split sep s :
  PyStr.join (String sep EmptyString) (PyStr.split sep s) = s.
Proof.
  induction s as [|c s IH]; [reflexivity|].
  simpl PyStr.split.
  destruct (Ascii.eqb_spec c sep) as [->|Hne].
  - rewrite join_cons by apply split_nonempty.
    rewrite IH. reflexivity.
  - pose proof (split_nonempty sep s) as Hs.
    destruct (PyStr.split sep s) as [|w ws]; [congruence|].
    destruct ws as [|w' ws].
    + simpl in *. congruence.
    + rewrite join_cons by discriminate.
      rewrite join_cons in IH by discriminate.
      rewrite <- IH. reflexivity.
Qed.

Lemma contains_char_cons sep c s :
  PyStr.contains (String sep EmptyString) (String c s) = false ->
  c <> sep /\ PyStr.contains (String sep EmptyString) s = false.
Proof.
  simpl. intros H. apply orb_false_iff in H as [H1 H2]. split; [|exact H2].
  intros ->. destruct (ascii_dec sep sep); [|congruence].
  destruct s; discriminate.
Qed.

Lemma split_app_sep sep b k :
  PyStr.contains (String sep EmptyString) b = false ->
  PyStr.split sep (b ++ String sep k) = b :: PyStr.split sep k.
Proof.
  induction b as [|c b IH]; intros H.
  - simpl. rewrite Ascii.eqb_refl. reflexivity.
  - apply contains_char_cons in H as [Hc Hb].
    simpl. destruct (Ascii.eqb_spec c sep); [congruence|].
    rewrite (IH Hb). reflexivity.
Qed.

Lemma replace_absent old new s :
  old <> EmptyString ->
  PyStr.contains old s = false -> PyStr.replace old new s = s.
Proof.
  intros Hold. unfold PyStr.replace.
  induction s as [|c s IH]; intros H.
  - destruct old; [congruence | reflexivity].
  - cbn [PyStr.contains] in H. apply orb_false_iff in H as [H1 H2].
    cbn [PyStr.replace_from]. rewrite H1. rewrite (IH H2). reflexivity.
Qed.

Lemma replace_s3_prefix rest :
  PyStr.replace "s3://" "" ("s3://" ++ rest) = PyStr.replace "s3://" "" rest.
Proof. unfold PyStr.replace. cbn. destruct rest; reflexivity. Qed.

End StringFacts.

Example read_csv_index :
  index (read_csv ["a"; "Churn?"]
                  [[VInt 1; VStr "True."]; [VInt 2; VStr "False."];
                   [VInt 3; VStr "False."]])
  = [0; 1; 2]%nat.
Proof. reflexivity. Qed.

Example sample_size_5000 : sample_size (8 # 10)%Q 5000 = 4000%nat.
Proof. reflexivity. Qed.

Example sample_size_3333 : sample_size (8 # 10)%Q 3333 = 2666%nat.
Proof. reflexivity. Qed.

Example py_round_ties : (py_round (1 # 2)%Q, py_round (3 # 2)%Q, py_round (5 # 2)%Q) = (0, 2, 2)%Z.
Proof. reflexivity. Qed.

Example to_csv_no_header :
  to_csv Lab.repr (fun _ _ => "") false
         (mk ["a"; "b"] [(4, [VStr "x"; VInt (-7)]);
                         (7, [VBool true; VFloat 4643371304711985562])]%nat)
  = "x,-7" ++ newline ++ "True,265.1" ++ newline.
Proof. reflexivity. Qed.

Example to_csv_header_and_missing_value :
  to_csv Lab.repr (fun _ _ => "") true
         (mk ["a"; "b"] [(4, [VStr "x"; VFloat 9221120237041090560])]%nat)
  = "a,b" ++ newline ++ "x," ++ newline.
Proof. reflexivity. Qed.

Example to_csv_of_a_cell_to_quote :
  to_csv Lab.repr (fun _ _ => "what pandas writes") false
         (mk ["a"; "b"] [(0, [VStr "x,y"; VInt 1])]%nat)
  = "what pandas writes".
Proof. reflexivity. Qed.

Example reset_index_name_clash :
  reset_index_column "Churn?" (mk ["index"; "level_0"; "Churn?"] [])
  = Raise (ValueError "cannot insert level_0, already exists")
  /\ reset_index_column "Churn?" (mk ["index"; "Churn?"] [(7, [VInt 1; VStr "True."])]%nat)
     = Ok [Some (VStr "True.")]
  /\ reset_index_column "index" (mk ["Churn?"] [(7, [VStr "True."])]%nat)
     = Ok [Some (VInt 7)].
Proof. repeat split. Qed.

Example comparing_cells :
  series_eq (fun _ _ _ => true)
            [Some (VStr "True."); Some (VStr "1"); Some (VInt 1); Some (VBool true);
             Some (VInt 1); Some (VFloat 4607182418800017408)]
            [Some (VStr "True."); Some (VInt 1); Some (VStr "1"); Some (VStr "True");
             Some (VInt 1); Some (VInt 1)]
  = Ok [true; false; false; false; true; true].
Proof. reflexivity. Qed.

(** ** The S3 path helper (cell 22) *)

Lemma split_s3_path_clean b k :
  PyStr.contains "/" b = false ->
  PyStr.contains "s3://" (b ++ "/" ++ k) = false ->
  split_s3_path ("s3://" ++ b ++ "/" ++ k) = Some (b, k).
Proof.
  intros Hb Hclean. unfold split_s3_path.
  rewrite replace_s3_prefix.
  rewrite (replace_absent "s3://" "" (b ++ "/" ++ k) ltac:(discriminate) Hclean).
  change (b ++ "/" ++ k) with (b ++ String "/" k).
  rewrite split_app_sep by exact Hb.
  cbn [pop0]. change "/" with (String "/" EmptyString) at 1.
  rewrite join_split. reflexivity.
Qed.

(** Where the scheme occurs only in front: for a bucket name [b] that is
    not empty and holds no ['/'], and a key [k] such that the text
    [b ++ "/" ++ k] holds no occurrence of ["s3://"], [split_s3_path] maps
    ["s3://" ++ b ++ "/" ++ k] to the pair [(b, k)], and putting the pair
    it returns together again gives the input back. *)
Theorem split_s3_path_round_trip :
  forall b k : string,
    b <> "" ->
    PyStr.contains "/" b = false ->
    PyStr.contains "s3://" (b ++ "/" ++ k) = false ->
    split_s3_path ("s3://" ++ b ++ "/" ++ k) = Some (b, k)
    /\ forall b' k',
         split_s3_path ("s3://" ++ b ++ "/" ++ k) = Some (b', k') ->
         "s3://" ++ b' ++ "/" ++ k' = "s3://" ++ b ++ "/" ++ k.
Proof.
  intros b k _ Hb Hclean.
  pose proof (split_s3_path_clean b k Hb Hclean) as E.
  split; [exact E|].
  intros b' k' E'. rewrite E in E'. injection E' as <- <-. reflexivity.
Qed.

Lemma split_s3_path_round_trip_witness :
  split_s3_path "s3://sagemaker-lab-1/out/nb/DataExploration.ipynb"
  = Some ("sagemaker-lab-1", "out/nb/DataExploration.ipynb").
Proof.
  refine (proj1 (split_s3_path_round_trip
                   "sagemaker-lab-1" "out/nb/DataExploration.ipynb" _ _ _)).
  - discriminate.
  - reflexivity.
  - reflexivity.
Defined.


(** ** The data split (cell 9) *)

Section FrameFacts.

Lemma mem_nat_In i l : mem_nat i l = true <-> In i l.
Proof.
  unfold mem_nat. rewrite existsb_exists. split.
  - intros (x & Hx & E). apply Nat.eqb_eq in E. subst. exact Hx.
  - intros H. exists i. split; [exact H | apply Nat.eqb_refl].
Qed.

Lemma labels_combine_seq {X} (data : list X) a :
  map fst (combine (seq a (List.length data)) data) = seq a (List.length data).
Proof.
  revert a. induction data as [|d data IH]; intros a; [reflexivity|].
  simpl. rewrite IH. reflexivity.
Qed.

Lemma index_read_csv header data :
  index (read_csv header data) = seq 0 (List.length data).
Proof. apply labels_combine_seq. Qed.

Lemma len_read_csv header data : len (read_csv header data) = List.length data.
Proof.
  unfold len, read_csv. cbn [rows]. rewrite length_combine, length_seq.
  apply Nat.min_id.
Qed.

Variable rs : list (nat * list pyval).
Hypothesis labelled : map fst rs = seq 0 (List.length rs).

Lemma label_is_position p r : nth_error rs p = Some r -> fst r = p.
Proof.
  intros H. apply (map_nth_error fst) in H.
  rewrite labelled, nth_error_seq in H.
  destruct (p <? List.length rs)%nat; [|discriminate].
  injection H as H. symmetry. exact H.
Qed.

Lemma labels_NoDup : NoDup (map fst rs).
Proof. rewrite labelled. apply seq_NoDup. Qed.

Lemma label_determines_row r r' :
  In r rs -> In r' rs -> fst r = fst r' -> r = r'.
Proof.
  pose proof labels_NoDup as Hnd. clear labelled.
  induction rs as [|x l IH]; intros Hr Hr' E; [contradiction|].
  cbn [map] in Hnd. inversion Hnd as [|? ? Hx Hl]; subst.
  destruct Hr as [->|Hr], Hr' as [->|Hr'].
  - reflexivity.
  - exfalso. apply Hx. rewrite E. apply in_map. exact Hr'.
  - exfalso. apply Hx. rewrite <- E. apply in_map. exact Hr.
  - apply IH; assumption.
Qed.

Lemma take_rows_labelled locs :
  Forall (fun p => (p < List.length rs)%nat) locs ->
  exists out, take_rows rs locs = Ok out
              /\ map fst out = locs
              /\ (forall r, In r out -> In r rs).
Proof.
  induction 1 as [|p locs Hp _ (out & E & Hl & Hin)].
  - exists []. split; [reflexivity|]. split; [reflexivity|]. intros r [].
  - cbn [take_rows].
    destruct (nth_error rs p) as [r|] eqn:Hn.
    + exists (r :: out). rewrite E. cbn [rbind map].
      rewrite Hl, (label_is_position p r Hn).
      split; [reflexivity|]. split; [reflexivity|].
      intros r' [<-|Hr']; [eapply nth_error_In; exact Hn | apply Hin; exact Hr'].
    + apply nth_error_None in Hn. lia.
Qed.

Lemma split_permutation locs out :
  NoDup locs ->
  map fst out = locs ->
  (forall r, In r out -> In r rs) ->
  Permutation (out ++ filter (fun r => negb (mem_nat (fst r) locs)) rs)%list rs.
Proof.
  intros Hnd Hl Hin.
  apply NoDup_Permutation.
  - apply NoDup_app.
    + apply NoDup_map_inv with (f := fst). rewrite Hl. exact Hnd.
    + apply NoDup_filter. apply NoDup_map_inv with (f := fst). apply labels_NoDup.
    + intros r Hr Hf. apply filter_In in Hf as [_ Hf].
      apply negb_true_iff in Hf.
      assert (mem_nat (fst r) locs = true) as Hm
          by (apply mem_nat_In; rewrite <- Hl; apply in_map; exact Hr).
      congruence.
  - apply NoDup_map_inv with (f := fst). apply labels_NoDup.
  - intros r. rewrite in_app_iff, filter_In. split.
    + intros [Hr|[Hr _]]; [apply Hin; exact Hr | exact Hr].
    + intros Hr. destruct (mem_nat (fst r) locs) eqn:Hm.
      * left. apply mem_nat_In in Hm. rewrite <- Hl in Hm.
        apply in_map_iff in Hm as (r' & E & Hr').
        rewrite (label_determines_row r r' Hr (Hin r' Hr') (eq_sym E)).
        exact Hr'.
      * right. split; [exact Hr | reflexivity].
Qed.

End FrameFacts.

(** [round(0.8 * n)] is within half a row of four fifths of [n]. *)
Lemma sample_size_four_fifths n :
  let k := Z.of_nat (sample_size (8 # 10)%Q n) in
  (Z.abs (5 * k - 4 * Z.of_nat n) <= 2)%Z.
Proof.
  cbv zeta. unfold sample_size, py_round.
  change (Qnum ((8 # 10) * inject_Z (Z.of_nat n))%Q) with (8 * Z.of_nat n)%Z.
  change (Zpos (Qden ((8 # 10) * inject_Z (Z.of_nat n))%Q)) with 10%Z.
  pose proof (Z.div_mod (8 * Z.of_nat n) 10 ltac:(lia)) as Hdm.
  pose proof (Z.mod_pos_bound (8 * Z.of_nat n) 10 ltac:(lia)) as Hb.
  set (fl := (8 * Z.of_nat n / 10)%Z) in *.
  set (r := ((8 * Z.of_nat n) mod 10)%Z) in *.
  assert (0 <= fl)%Z by (apply Z.div_pos; lia).
  destruct (Z.compare_spec (2 * r) 10) as [E|E|E].
  - exfalso. lia.
  - rewrite Z2Nat.id by lia. lia.
  - rewrite Z2Nat.id by lia. lia.
Qed.

(** ** Reasoning about notebook code *)

(** *** What a piece of code guarantees about its outcome and events *)

Section PostRules.

Context {A B : Type}.
Variables (w : world) (h : history).

Lemma post_bind (m : M A) (f : A -> M B) (Q : outcome B -> list event -> Prop) :
  post m w h (fun o evs =>
    match o with
    | Done a => post (f a) w (h ++ evs)%list (fun o' evs' => Q o' (evs ++ evs')%list)
    | Raised e => Q (Raised e) evs
    | Running => Q Running evs
    end) ->
  post (bind m f) w h Q.
Proof.
  unfold post, bind. destruct (m w h) as [[a|e|] evs]; simpl; auto.
  destruct (f a w (h ++ evs)%list); auto.
Qed.

Lemma post_ret (a : A) (Q : outcome A -> list event -> Prop) :
  Q (Done a) [] -> post (ret a) w h Q.
Proof. auto. Qed.

Lemma post_raise (e : pyerror) (Q : outcome A -> list event -> Prop) :
  Q (Raised e) [] -> post (raise e) w h Q.
Proof. auto. Qed.

Lemma post_lift (r : result A) (Q : outcome A -> list event -> Prop) :
  (forall a, r = Ok a -> Q (Done a) []) ->
  (forall e, r = Raise e -> Q (Raised e) []) ->
  post (lift r) w h Q.
Proof. destruct r; unfold post; simpl; auto. Qed.

Lemma post_ask (f : world -> history -> A) (Q : outcome A -> list event -> Prop) :
  Q (Done (f w h)) [] -> post (ask f) w h Q.
Proof. auto. Qed.

Lemma post_remote (c : call) (oracle : world -> history -> result A)
      (Q : outcome A -> list event -> Prop) :
  (forall a, oracle w h = Ok a -> Q (Done a) [EvCall c None]) ->
  (forall e, oracle w h = Raise e -> Q (Raised e) [EvCall c (Some e)]) ->
  post (remote c oracle) w h Q.
Proof.
  intros H1 H2. unfold post, remote.
  destruct (oracle w h) as [a|e] eqn:E; simpl; auto.
Qed.

Lemma post_any (m : M A) (Q : outcome A -> list event -> Prop) :
  (forall o evs, m w h = (o, evs) -> Q o evs) -> post m w h Q.
Proof. intros H. unfold post. apply H. destruct (m w h); reflexivity. Qed.

End PostRules.

Lemma post_emit w h (ev : event) (Q : outcome unit -> list event -> Prop) :
  Q (Done tt) [ev] -> post (emit ev) w h Q.
Proof. auto. Qed.

(** *** Events of one kind only *)

Section Emits.

Variable P : event -> Prop.

Lemma emits_ret {A} (a : A) : emits P (ret a).
Proof. intros w h. constructor. Qed.

Lemma emits_raise {A} e : emits P (@raise A e).
Proof. intros w h. constructor. Qed.

Lemma emits_lift {A} (r : result A) : emits P (lift r).
Proof. destruct r; intros w h; constructor. Qed.

Lemma emits_ask {A} (f : world -> history -> A) : emits P (ask f).
Proof. intros w h. constructor. Qed.

Lemma emits_emit ev : P ev -> emits P (emit ev).
Proof. intros H w h. repeat constructor. exact H. Qed.

Lemma emits_remote {A} c (oracle : world -> history -> result A) :
  (forall r, P (EvCall c r)) -> emits P (remote c oracle).
Proof.
  intros H w h. unfold remote.
  destruct (oracle w h); repeat constructor; apply H.
Qed.

Lemma emits_bind {A B} (m : M A) (f : A -> M B) :
  emits P m -> (forall a, emits P (f a)) -> emits P (bind m f).
Proof.
  intros Hm Hf w h. unfold bind. specialize (Hm w h).
  destruct (m w h) as [[a|e|] evs]; simpl in *; auto.
  specialize (Hf a w (h ++ evs)%list).
  destruct (f a w (h ++ evs)%list); simpl in *.
  apply Forall_app; auto.
Qed.

Lemma emits_for_each {A} (l : list A) (body : A -> M unit) :
  (forall a, emits P (body a)) -> emits P (for_each l body).
Proof.
  intros Hb. induction l as [|a l IH]; simpl.
  - apply emits_ret.
  - apply emits_bind; auto.
Qed.

Lemma emits_markdown (source : M unit) : emits P (run_cell markdown source).
Proof. apply emits_ret. Qed.

Lemma emits_running {A} : emits P (fun _ _ => (@Running A, [])).
Proof. intros w h. constructor. Qed.

End Emits.

(** *** Code that stops where a remote call raises *)

Lemma stopped_done_quiet {A} (a : A) evs : stopped (Done a) evs -> Forall quiet evs.
Proof. intros [H|(pre & c & e & _ & _ & H)]; [exact H | discriminate]. Qed.

Lemma stopped_app {A} (o : outcome A) evs evs' :
  Forall quiet evs -> stopped o evs' -> stopped o (evs ++ evs')%list.
Proof.
  intros Hq [H|(pre & c & e & -> & Hpre & ->)].
  - left. apply Forall_app; auto.
  - right. exists (evs ++ pre)%list, c, e. rewrite app_assoc.
    repeat split; auto. apply Forall_app; auto.
Qed.

Lemma stopped_retag {A B} (o : outcome A) (o' : outcome B) evs :
  (forall e, o = Raised e -> o' = Raised e) -> stopped o evs -> stopped o' evs.
Proof.
  intros Ho [H|(pre & c & e & -> & Hpre & Heq)]; [left; exact H|].
  right. exists pre, c, e. auto.
Qed.

Section Stops.

Lemma stops_ret {A} (a : A) : stops (ret a).
Proof. intros w h. left. constructor. Qed.

Lemma stops_raise {A} e : stops (@raise A e).
Proof. intros w h. left. constructor. Qed.

Lemma stops_lift {A} (r : result A) : stops (lift r).
Proof. destruct r; intros w h; left; constructor. Qed.

Lemma stops_ask {A} (f : world -> history -> A) : stops (ask f).
Proof. intros w h. left. constructor. Qed.

Lemma stops_emit ev : quiet ev -> stops (emit ev).
Proof. intros H w h. left. repeat constructor. exact H. Qed.

Lemma stops_running {A} : stops (fun _ _ => (@Running A, [])).
Proof. intros w h. left. constructor. Qed.

Lemma stops_remote {A} c (oracle : world -> history -> result A) :
  stops (remote c oracle).
Proof.
  intros w h. unfold remote. destruct (oracle w h) as [a|e]; simpl.
  - left. constructor; [reflexivity | constructor].
  - right. exists [], c, e. repeat split; constructor.
Qed.

Lemma stops_bind {A B} (m : M A) (f : A -> M B) :
  stops m -> (forall a, stops (f a)) -> stops (bind m f).
Proof.
  intros Hm Hf w h. unfold bind. specialize (Hm w h).
  destruct (m w h) as [[a|e|] evs]; simpl in *.
  - specialize (Hf a w (h ++ evs)%list).
    destruct (f a w (h ++ evs)%list) as [o evs']; simpl in *.
    apply stopped_app; [apply (stopped_done_quiet a); exact Hm | exact Hf].
  - eapply stopped_retag; [|exact Hm]. intros e' [= ->]. reflexivity.
  - eapply stopped_retag; [|exact Hm]. discriminate.
Qed.

Lemma stops_for_each {A} (l : list A) (body : A -> M unit) :
  (forall a, stops (body a)) -> stops (for_each l body).
Proof.
  intros Hb. induction l as [|a l IH]; simpl.
  - apply stops_ret.
  - apply stops_bind; auto.
Qed.

Lemma stops_markdown (source : M unit) : stops (run_cell markdown source).
Proof. apply stops_ret. Qed.

End Stops.

(** *** Going through the code of the cells *)

Ltac unfold_cells :=
  unfold notebook, cell_01, cell_05, cell_06, cell_09, cell_11, cell_16, cell_17,
    cell_19, cell_21, cell_22, cell_24, cell_27, cell_28, cell_30, cell_31,
    cell_33, cell_34, sklearn, split_s3_path_call, predictor_init, df_to_csv,
    sm_create_auto_ml_job, sm_describe_auto_ml_job,
    sm_list_candidates_for_auto_ml_job, sm_create_model,
    sm_create_endpoint_config, sm_create_endpoint, sm_wait_endpoint_in_service,
    session_upload_data, session_download_data, sm_describe_endpoint,
    sm_describe_endpoint_config, runtime_invoke_endpoint, print, sleep.

Ltac split_scrutinee :=
  match goal with
  | |- context [match ?x with _ => _ end] => is_var x; destruct x
  | |- context [if ?b then _ else _] => destruct b
  | |- context [match ?x with _ => _ end] => destruct x
  end.

Ltac stops_step :=
  lazymatch goal with
  | |- stops (bind _ _) => apply stops_bind; [|intros ?]
  | |- stops (ret _) => apply stops_ret
  | |- stops (raise _) => apply stops_raise
  | |- stops (lift _) => apply stops_lift
  | |- stops (ask _) => apply stops_ask
  | |- stops (remote _ _) => apply stops_remote
  | |- stops (emit _) => apply stops_emit; reflexivity
  | |- stops (for_each _ _) => apply stops_for_each; intros ?
  | |- stops (run_cell markdown _) => apply stops_markdown
  | |- stops (run_cell code _) => unfold run_cell
  | |- stops (fun _ _ => (Running, _)) => apply stops_running
  | |- stops _ => split_scrutinee
  end.

Ltac emits_step :=
  lazymatch goal with
  | |- emits _ (bind _ _) => apply emits_bind; [|intros ?]
  | |- emits _ (ret _) => apply emits_ret
  | |- emits _ (raise _) => apply emits_raise
  | |- emits _ (lift _) => apply emits_lift
  | |- emits _ (ask _) => apply emits_ask
  | |- emits _ (remote _ _) => apply emits_remote; intros [?|]; simpl; auto; hnf; auto
  | |- emits _ (emit _) => apply emits_emit; simpl; auto; hnf; auto
  | |- emits _ (for_each _ _) => apply emits_for_each; intros ?
  | |- emits _ (run_cell markdown _) => apply emits_markdown
  | |- emits _ (run_cell code _) => unfold run_cell
  | |- emits _ (fun _ _ => (Running, _)) => apply emits_running
  | |- emits _ _ => split_scrutinee
  end.

Lemma stops_poll_while n name d st : stops (poll_while n name d st).
Proof.
  revert d st. induction n as [|n IH]; intros d st; simpl;
    destruct (ended st); unfold_cells; repeat stops_step.
  apply IH.
Qed.

Lemma emits_poll_while (P : event -> Prop) n name d st :
  (forall r, P (EvCall (DescribeAutoMLJob name) r)) ->
  (forall args, P (EvPrint args)) ->
  P (EvSleep 30) ->
  emits P (poll_while n name d st).
Proof.
  intros Hcall Hprint Hsleep.
  revert d st. induction n as [|n IH]; intros d st; simpl;
    destruct (ended st); unfold_cells; repeat emits_step.
  apply IH.
Qed.

Ltac emits_cell :=
  unfold_cells;
  repeat first
    [ apply emits_poll_while;
      [intros [?|]; simpl; auto; hnf; auto | intros ?; simpl; auto; hnf; auto
      | simpl; auto; hnf; auto]
    | emits_step ].

Lemma notebook_stops n : stops (notebook n).
Proof.
  unfold_cells; repeat first [apply stops_poll_while | stops_step].
Qed.

Lemma notebook_no_delete n : emits no_delete (notebook n).
Proof. emits_cell. Qed.

Lemma quiet_split pre pre' (x x' : event) post :
  Forall quiet pre' -> ~ quiet x ->
  (pre ++ x :: post)%list = (pre' ++ [x'])%list ->
  pre = pre' /\ x = x' /\ post = [].
Proof.
  revert pre'. induction pre as [|y pre IH]; intros pre' Hq Hx E.
  - destruct pre' as [|y' pre']; simpl in E.
    + injection E as -> <-. auto.
    + injection E as <- _. inversion Hq; subst. contradiction.
  - destruct pre' as [|y' pre']; simpl in E.
    + injection E as _ E. destruct pre; discriminate.
    + injection E as <- E. inversion Hq; subst.
      destruct (IH pre' H2 Hx E) as (-> & -> & ->). auto.
Qed.

Lemma stopped_at_failure {A} (o : outcome A) evs pre c e post :
  stopped o evs -> evs = (pre ++ EvCall c (Some e) :: post)%list ->
  post = [] /\ o = Raised e /\ Forall quiet pre.
Proof.
  intros [Hq|(pre' & c' & e' & -> & Hpre & ->)] E.
  - subst evs. apply Forall_app in Hq as [_ Hq]. inversion Hq; subst.
    discriminate.
  - symmetry in E. apply quiet_split in E; [|exact Hpre|discriminate].
    destruct E as (-> & [= -> ->] & ->). auto.
Qed.

(** ** The tracking loop (cell 19) *)

Section Tracking.

Variables (w : world) (h : history) (job_name : string).
Variable responses : nat -> DescribeAutoMLJobResponse.
Hypothesis service : follows w h job_name responses.

Lemma polls_app a b : polls (a ++ b)%list = (polls a + polls b)%nat.
Proof.
  unfold polls, calls_of. rewrite flat_map_app, filter_app, length_app.
  reflexivity.
Qed.

Lemma polls_turn d : polls (turn job_name d) = 1%nat.
Proof. reflexivity. Qed.

Lemma turns_succ k n :
  turns job_name responses k (S n)
  = (turn job_name (responses (S k)) ++ turns job_name responses (S k) n)%list.
Proof. reflexivity. Qed.

(** The loop entered after response [k] has been observed. *)
Lemma poll_while_exits iterations : forall k n evs0,
  polls evs0 = S k ->
  ended_at responses (k + n) = true ->
  (forall i, (i < n)%nat -> ended_at responses (k + i) = false) ->
  (n <= iterations)%nat ->
  poll_while iterations job_name (responses k) (AutoMLJobStatus (responses k))
             w (h ++ evs0)%list
  = (Done (responses (k + n)), turns job_name responses k n).
Proof.
  induction iterations as [|it IH]; intros k n evs0 Hp He Hn Hle.
  - assert (n = 0)%nat as -> by lia. rewrite Nat.add_0_r in *.
    unfold ended_at in He. simpl. rewrite He. reflexivity.
  - destruct n as [|n].
    + rewrite Nat.add_0_r in *. unfold ended_at in He.
      simpl. rewrite He. reflexivity.
    + pose proof (Hn 0%nat ltac:(lia)) as H0. rewrite Nat.add_0_r in H0.
      unfold ended_at in H0. cbn [poll_while]. rewrite H0.
      unfold bind at 1. unfold sm_describe_auto_ml_job, remote.
      rewrite service, Hp.
      unfold bind at 1. unfold print, emit.
      unfold bind at 1. unfold sleep, emit.
      pose proof (IH (S k) n
                     (evs0 ++ turn job_name (responses (S k)))%list) as IH'.
      rewrite polls_app, polls_turn, Hp in IH'.
      unfold turn in IH'. repeat rewrite <- app_assoc. cbn [app].
      rewrite IH'.
      * rewrite <- Nat.add_succ_comm. reflexivity.
      * lia.
      * rewrite Nat.add_succ_comm. exact He.
      * intros i Hi. rewrite Nat.add_succ_comm. apply Hn. lia.
      * lia.
Qed.

Lemma poll_while_running iterations : forall k evs0,
  polls evs0 = S k ->
  (forall i, (i <= iterations)%nat -> ended_at responses (k + i) = false) ->
  poll_while iterations job_name (responses k) (AutoMLJobStatus (responses k))
             w (h ++ evs0)%list
  = (Running, turns job_name responses k iterations).
Proof.
  induction iterations as [|it IH]; intros k evs0 Hp Hn;
    pose proof (Hn 0%nat ltac:(lia)) as H0; rewrite Nat.add_0_r in H0;
    unfold ended_at in H0; cbn [poll_while]; rewrite H0.
  - reflexivity.
  - unfold bind at 1. unfold sm_describe_auto_ml_job, remote.
    rewrite service, Hp.
    unfold bind at 1. unfold print, emit.
    unfold bind at 1. unfold sleep, emit.
    pose proof (IH (S k) (evs0 ++ turn job_name (responses (S k)))%list) as IH'.
    rewrite polls_app, polls_turn, Hp in IH'.
    unfold turn in IH'. repeat rewrite <- app_assoc. cbn [app].
    rewrite IH'.
    * reflexivity.
    * lia.
    * intros i Hi. rewrite Nat.add_succ_comm. apply Hn. lia.
Qed.

Lemma cell_19_first_look iterations :
  cell_19 iterations job_name w h
  = let (o, evs) :=
      poll_while iterations job_name (responses 0)
                 (AutoMLJobStatus (responses 0)) w
                 (h ++ first_look job_name (responses 0))%list in
    (o, (first_look job_name (responses 0) ++ evs)%list).
Proof.
  unfold cell_19, first_look.
  unfold bind at 1. unfold print at 1, emit.
  unfold bind at 1. unfold print at 1, emit.
  unfold bind at 1. unfold sm_describe_auto_ml_job, remote.
  pose proof (service [EvPrint [PStr "JobStatus - Secondary Status"];
                       EvPrint [PStr "------------------------------"]]) as E.
  change (polls _) with 0%nat in E.
  repeat rewrite <- app_assoc. cbn [app]. rewrite E.
  unfold bind at 1. unfold print at 1, emit.
  repeat rewrite <- app_assoc. cbn [app].
  destruct (poll_while _ _ _ _ _ _) as [o evs]. reflexivity.
Qed.

Lemma cell_19_exits iterations n :
  first_ended responses n -> (n <= iterations)%nat ->
  cell_19 iterations job_name w h
  = (Done (responses n),
     (first_look job_name (responses 0) ++ turns job_name responses 0 n)%list).
Proof.
  intros [He Hn] Hle. rewrite cell_19_first_look.
  rewrite (poll_while_exits iterations 0 n); auto.
Qed.

Lemma cell_19_running iterations :
  (forall i, (i <= iterations)%nat -> ended_at responses i = false) ->
  cell_19 iterations job_name w h
  = (Running,
     (first_look job_name (responses 0)
      ++ turns job_name responses 0 iterations)%list).
Proof.
  intros Hn. rewrite cell_19_first_look.
  rewrite (poll_while_running iterations 0); auto.
Qed.

Lemma polls_turns k n : polls (turns job_name responses k n) = n.
Proof.
  revert k. induction n as [|n IH]; intros k; [reflexivity|].
  rewrite turns_succ, polls_app, polls_turn, IH. reflexivity.
Qed.

Lemma slept_turns k n : slept (turns job_name responses k n) = (30 * Z.of_nat n)%Z.
Proof.
  revert k. induction n as [|n IH]; intros k; [reflexivity|].
  rewrite turns_succ. unfold turn. cbn [app slept fold_right].
  fold (slept (turns job_name responses (S k) n)). rewrite IH. lia.
Qed.

(** A status that ends the loop somewhere has a first place. *)
Lemma first_ended_search n :
  (exists m, (m <= n)%nat /\ first_ended responses m)
  \/ (forall i, (i <= n)%nat -> ended_at responses i = false).
Proof.
  induction n as [|n [(m & Hm & Hf)|Hall]].
  - destruct (ended_at responses 0) eqn:E.
    + left. exists 0%nat. split; [lia|]. split; [exact E|]. intros i Hi. lia.
    + right. intros i Hi. assert (i = 0)%nat as -> by lia. exact E.
  - left. exists m. split; [lia | exact Hf].
  - destruct (ended_at responses (S n)) eqn:E.
    + left. exists (S n). split; [lia|]. split; [exact E|].
      intros i Hi. apply Hall. lia.
    + right. intros i Hi. destruct (Nat.eq_dec i (S n)) as [->|Hne]; [exact E|].
      apply Hall. lia.
Qed.

Lemma first_ended_exists n :
  ended_at responses n = true -> exists m, (m <= n)%nat /\ first_ended responses m.
Proof.
  intros He. destruct (first_ended_search n) as [H|H]; [exact H|].
  rewrite H in He by lia. discriminate.
Qed.

End Tracking.

(** ** Properties of the tracking loop *)

(** C1.  Cell 19 leaves its loop exactly when the response it has looked
    at last is the first one whose status is ['Failed'], ['Completed'] or
    ['Stopped'].  For a service whose answers are [responses 0],
    [responses 1], ...: if response [n] is the first such one, the cell
    returns it after the first look and [n] turns of the loop, one turn
    for each response before it, each turn describing the job again and
    sleeping 30 seconds; while no response so far has such a status the
    cell is still running; and whenever the cell returns, what it
    returns is that first response. *)
Theorem tracking_exits_on_ended_status :
  forall (w : world) (h : history) (job_name : string)
         (responses : nat -> DescribeAutoMLJobResponse) (iterations : nat),
    follows w h job_name responses ->
    (forall n, first_ended responses n -> (n <= iterations)%nat ->
       cell_19 iterations job_name w h
       = (Done (responses n),
          (first_look job_name (responses 0)
           ++ turns job_name responses 0 n)%list))
    /\ ((forall i, (i <= iterations)%nat -> ended_at responses i = false) ->
        cell_19 iterations job_name w h
        = (Running,
           (first_look job_name (responses 0)
            ++ turns job_name responses 0 iterations)%list))
    /\ (forall d evs, cell_19 iterations job_name w h = (Done d, evs) ->
          exists n, first_ended responses n /\ d = responses n
                    /\ ended (AutoMLJobStatus d) = true
                    /\ polls evs = S n /\ slept evs = (30 * Z.of_nat n)%Z).
Proof.
  intros w h job_name responses iterations Hs. split; [|split].
  - intros n Hf Hle. apply cell_19_exits; assumption.
  - intros Hn. apply cell_19_running; assumption.
  - intros d evs H.
    destruct (first_ended_search responses iterations) as [(m & Hm & Hf)|Hall].
    + rewrite (cell_19_exits w h job_name responses Hs iterations m Hf Hm) in H.
      injection H as <- <-. exists m.
      split; [exact Hf|]. split; [reflexivity|]. split; [apply Hf|]. split.
      * change (polls (first_look job_name (responses 0)
                        ++ turns job_name responses 0 m)%list = S m).
        rewrite polls_app, polls_turns. reflexivity.
      * change (slept (turns job_name responses 0 m) = (30 * Z.of_nat m)%Z).
        apply slept_turns.
    + rewrite (cell_19_running w h job_name responses Hs iterations Hall) in H.
      discriminate.
Qed.

Lemma tracking_exits_witness :
  follows (Lab.lab Lab.responses) [] "automl-churn-02-01-27-00" Lab.responses
  /\ cell_19 5 "automl-churn-02-01-27-00" (Lab.lab Lab.responses) []
     = (Done Lab.completed,
        (first_look "automl-churn-02-01-27-00" Lab.in_progress
         ++ turns "automl-churn-02-01-27-00" Lab.responses 0 2)%list).
Proof.
  assert (follows (Lab.lab Lab.responses) [] "automl-churn-02-01-27-00"
                  Lab.responses) as Hs by (intros evs; reflexivity).
  split; [exact Hs|].
  refine (proj1 (tracking_exits_on_ended_status _ _ _ _ 5 Hs) 2 _ _).
  - split; [reflexivity|].
    intros i Hi. destruct i as [|[|i]]; [reflexivity | reflexivity | lia].
  - lia.
Defined.

Lemma ended_at_same responses responses' :
  (forall i, AutoMLJobStatus (responses' i) = AutoMLJobStatus (responses i)) ->
  forall i, ended_at responses' i = ended_at responses i.
Proof. intros H i. unfold ended_at. rewrite H. reflexivity. Qed.

(** C6.  Whether cell 19 ends is decided by the statuses the service
    returns and by nothing else.  If some response has a status that
    ends the loop, the cell returns after finitely many descriptions of
    the job (one more than the place [n] of the first such response),
    whatever larger number of turns it is allowed; if no response has
    one, the cell is still running after any number of turns, having
    described the job once per turn and once before, and slept 30
    seconds per turn; and two services that return the same statuses
    make the cell describe the job equally often and end or not end
    alike. *)
Theorem tracking_termination_by_statuses :
  forall (w : world) (h : history) (job_name : string)
         (responses : nat -> DescribeAutoMLJobResponse),
    follows w h job_name responses ->
    ((exists n, ended_at responses n = true) ->
       exists n, first_ended responses n /\
         forall iterations, (n <= iterations)%nat ->
           exists evs, cell_19 iterations job_name w h = (Done (responses n), evs)
                       /\ polls evs = S n)
    /\ ((forall n, ended_at responses n = false) ->
          forall iterations,
            exists evs, cell_19 iterations job_name w h = (Running, evs)
                        /\ polls evs = S iterations
                        /\ slept evs = (30 * Z.of_nat iterations)%Z)
    /\ (forall w' h' job_name' responses',
          follows w' h' job_name' responses' ->
          (forall i, AutoMLJobStatus (responses' i) = AutoMLJobStatus (responses i)) ->
          forall iterations,
            polls (snd (cell_19 iterations job_name' w' h'))
            = polls (snd (cell_19 iterations job_name w h))
            /\ (fst (cell_19 iterations job_name' w' h') = Running
                <-> fst (cell_19 iterations job_name w h) = Running)).
Proof.
  intros w h job_name responses Hs. split; [|split].
  - intros [n0 He]. destruct (first_ended_exists responses n0 He) as (n & _ & Hf).
    exists n. split; [exact Hf|]. intros iterations Hle.
    rewrite (cell_19_exits w h job_name responses Hs iterations n Hf Hle).
    eexists. split; [reflexivity|].
    rewrite polls_app, polls_turns. reflexivity.
  - intros Hnever iterations.
    rewrite (cell_19_running w h job_name responses Hs iterations)
      by (intros; apply Hnever).
    eexists. split; [reflexivity|]. split.
    + rewrite polls_app, polls_turns. reflexivity.
    + change (slept (turns job_name responses 0 iterations)
              = (30 * Z.of_nat iterations)%Z).
      apply slept_turns.
  - intros w' h' job_name' responses' Hs' Hsame iterations.
    pose proof (ended_at_same responses responses' Hsame) as Heq.
    destruct (first_ended_search responses iterations) as [(m & Hm & Hf)|Hall].
    + assert (first_ended responses' m) as Hf'.
      { destruct Hf as [H1 H2]. split; [rewrite Heq; exact H1|].
        intros i Hi. rewrite Heq. apply H2. exact Hi. }
      rewrite (cell_19_exits w h job_name responses Hs iterations m Hf Hm).
      rewrite (cell_19_exits w' h' job_name' responses' Hs' iterations m Hf' Hm).
      cbn [fst snd]. rewrite !polls_app, !polls_turns.
      split; [reflexivity|]. split; discriminate.
    + assert (forall i, (i <= iterations)%nat -> ended_at responses' i = false)
        as Hall' by (intros i Hi; rewrite Heq; apply Hall; exact Hi).
      rewrite (cell_19_running w h job_name responses Hs iterations Hall).
      rewrite (cell_19_running w' h' job_name' responses' Hs' iterations Hall').
      cbn [fst snd]. rewrite !polls_app, !polls_turns.
      split; [reflexivity|]. split; reflexivity.
Qed.

Lemma tracking_termination_witness :
  follows (Lab.lab Lab.stuck) [] "automl-churn-02-01-27-00" Lab.stuck
  /\ forall iterations,
       exists evs,
         cell_19 iterations "automl-churn-02-01-27-00" (Lab.lab Lab.stuck) []
         = (Running, evs)
         /\ polls evs = S iterations
         /\ slept evs = (30 * Z.of_nat iterations)%Z.
Proof.
  assert (follows (Lab.lab Lab.stuck) [] "automl-churn-02-01-27-00" Lab.stuck)
    as Hs by (intros evs; reflexivity).
  split; [exact Hs|].
  refine (proj1 (proj2 (tracking_termination_by_statuses _ _ _ _ Hs)) _).
  intros n. reflexivity.
Defined.

(** ** A failing remote call ends the run *)

(** C7.  In every run of the notebook, an event in which a remote call
    raises is the last event of the run: no call, sleep, print or file
    write follows it (no retry, no clean-up call, no later cell), the
    run's outcome is the error the call raised, and no call before it
    had raised. *)
Theorem failing_call_ends_run :
  forall (w : world) (iterations : nat) (pre post : list event)
         (c : call) (e : pyerror),
    snd (run (notebook iterations) w) = (pre ++ EvCall c (Some e) :: post)%list ->
    post = []
    /\ fst (run (notebook iterations) w) = Raised e
    /\ Forall quiet pre.
Proof.
  intros w iterations pre post c e H.
  eapply stopped_at_failure; [|exact H].
  apply notebook_stops.
Qed.

Lemma failing_call_ends_run_witness :
  let pre := removelast (snd (run (notebook 5) Lab.refusing)) in
  let c := CreateEndpoint "tuning-job-1-00702-01-27-00-ep"
                          "tuning-job-1-00702-01-27-00-epc" in
  let e := ClientError "ResourceLimitExceeded" in
  snd (run (notebook 5) Lab.refusing) = (pre ++ EvCall c (Some e) :: [])%list
  /\ fst (run (notebook 5) Lab.refusing) = Raised e.
Proof.
  intros pre c e.
  assert (snd (run (notebook 5) Lab.refusing)
          = (pre ++ EvCall c (Some e) :: [])%list) as H
    by (vm_compute; reflexivity).
  split; [exact H|].
  exact (proj1 (proj2 (failing_call_ends_run Lab.refusing 5 pre [] c e H))).
Defined.

(** ** Running the notebook cell by cell *)

Lemma emits_run {A} (P : event -> Prop) (m : M A) w h o evs :
  emits P m -> m w h = (o, evs) -> Forall P evs.
Proof. intros H E. specialize (H w h). rewrite E in H. exact H. Qed.

Lemma post_run {A} (m : M A) w h (Q : outcome A -> list event -> Prop) o evs :
  post m w h Q -> m w h = (o, evs) -> Q o evs.
Proof. unfold post. intros H E. rewrite E in H. exact H. Qed.

Lemma calls_of_app a b : calls_of (a ++ b)%list = (calls_of a ++ calls_of b)%list.
Proof. apply flat_map_app. Qed.

Lemma hosting_app a b : hosting (a ++ b)%list = (hosting a ++ hosting b)%list.
Proof. unfold hosting. rewrite calls_of_app. apply filter_app. Qed.

Lemma created_app a b : created (a ++ b)%list = (created a ++ created b)%list.
Proof. apply flat_map_app. Qed.

(** One step through the code of a cell. *)
Ltac wp_step :=
  lazymatch goal with
  | |- post (bind _ _) _ _ _ => apply post_bind
  | |- post (ret _) _ _ _ => apply post_ret
  | |- post (raise _) _ _ _ => apply post_raise
  | |- post (lift _) _ _ _ => apply post_lift; intros ? ?
  | |- post (ask _) _ _ _ => apply post_ask
  | |- post (remote _ _) _ _ _ => apply post_remote; intros ? ?
  | |- post (emit _) _ _ _ => apply post_emit
  | |- post _ _ _ _ => split_scrutinee
  end; cbv beta iota.

Ltac wp := unfold_cells; repeat wp_step.

(** *** What single cells do *)

Lemma cell_01_spec w h :
  post cell_01 w h (fun o evs =>
    forall role bucket prefix, o = Done (role, bucket, prefix) ->
      prefix = "sagemaker/DEMO-xgboost-churn").
Proof. wp; intros; congruence. Qed.

Lemma cell_16_spec role bucket prefix w h :
  post (cell_16 role bucket prefix) w h (fun o evs =>
    calls_of evs
    = [CreateAutoMLJob (job_request role bucket prefix
                                    ("automl-churn-" ++ strftime_gmtime w h))]
    /\ forall a, o = Done a -> a = "automl-churn-" ++ strftime_gmtime w h).
Proof. wp; (split; [reflexivity | intros; congruence]). Qed.

Lemma cell_24_spec job_name w h :
  post (cell_24 job_name) w h (fun o evs =>
    forall bc bcn, o = Done (bc, bcn) ->
      bcn = CandidateName bc
      /\ exists d, describe_auto_ml_job w h job_name = Ok d
                   /\ BestCandidate d = Some bc).
Proof.
  wp; intros bc bcn [=]; subst.
  split; [reflexivity|]. eexists. split; [eassumption|].
  destruct (BestCandidate a); [|discriminate]. simpl in *. congruence.
Qed.

Lemma cell_30_spec role bc bcn w h :
  post (cell_30 role bc bcn) w h (fun o evs =>
    let ts := strftime_gmtime w h in
    (exists rest, three_calls role bc bcn ts = (hosting evs ++ rest)%list
                  /\ hosting evs <> []
                  /\ (forall a, o = Done a -> rest = []))
    /\ (forall a, o = Done a ->
          a = (bcn ++ ts ++ "-model", bcn ++ ts ++ "-epc", bcn ++ ts ++ "-ep")
          /\ created evs = [ModelRes (bcn ++ ts ++ "-model");
                            EndpointConfigRes (bcn ++ ts ++ "-epc");
                            EndpointRes (bcn ++ ts ++ "-ep")])).
Proof.
  wp; cbv zeta; (split; [eexists; split; [reflexivity|]; split; [discriminate|];
                         try (intros; reflexivity); intros; discriminate
                        | intros ? [=]; subst; try (split; reflexivity) ]).
Qed.

Lemma cell_31_spec ep_name w h :
  post (cell_31 ep_name) w h (fun o evs =>
    hosting evs = [WaitEndpointInService ep_name]).
Proof. wp; reflexivity. Qed.

Lemma cell_33_spec ep_name test_data w h :
  post (cell_33 ep_name test_data) w h (fun o evs =>
    (hosting evs = [] /\ forall a, o <> Done a)
    \/ exists test_data_inference,
         drop_column "Churn?" test_data = Ok test_data_inference
         /\ hosting evs
            = [InvokeEndpoint ep_name
                 (to_csv (float_repr w) (pandas_to_csv w) false
                         test_data_inference)]).
Proof.
  wp; first [ left; split; [reflexivity | intros; discriminate]
            | right; eexists; split; [eassumption | reflexivity] ].
Qed.

Lemma hosting_none seg : Forall no_hosting seg -> hosting seg = [].
Proof.
  unfold hosting. induction 1 as [|ev evs Hev _ IH]; [reflexivity|].
  destruct ev as [c r| | | | |]; try exact IH.
  simpl in *. rewrite Hev. exact IH.
Qed.

(** One step through the notebook: the next cell is run as a whole; its
    events are known to satisfy [P] where the cell's code shows it, and
    [special] adds what is known of the cell besides. *)
Ltac nb_step P special :=
  lazymatch goal with
  | |- post (bind _ _) _ _ _ =>
      apply post_bind; apply post_any;
      let o := fresh "o" in
      let seg := fresh "seg" in
      let E := fresh "E" in
      intros o seg E;
      try (assert (Forall P seg)
            by (refine (emits_run P _ _ _ _ _ _ E); emits_cell));
      try special E;
      clear E; destruct o; cbv beta iota
  | |- post (run_cell markdown _) _ _ _ => apply post_ret
  | |- post _ _ _ _ => split_scrutinee
  end.

Ltac hosting_specs E :=
  first [ pose proof (post_run _ _ _ _ _ _ (cell_24_spec _ _ _) E)
        | pose proof (post_run _ _ _ _ _ _ (cell_30_spec _ _ _ _ _) E)
        | pose proof (post_run _ _ _ _ _ _ (cell_31_spec _ _ _) E)
        | pose proof (post_run _ _ _ _ _ _ (cell_33_spec _ _ _ _) E) ].

Lemma hosting_plan_split role bc ts body :
  hosting_plan role bc ts body
  = (three_calls role bc (CandidateName bc) ts
     ++ [WaitEndpointInService (CandidateName bc ++ ts ++ "-ep");
         InvokeEndpoint (CandidateName bc ++ ts ++ "-ep") body])%list.
Proof. reflexivity. Qed.

(** The hosting calls of the cells that make none are dropped. *)
Ltac norm_hosting :=
  repeat rewrite hosting_app;
  repeat match goal with
         | H : Forall no_hosting ?s |- _ => rewrite (hosting_none s H)
         end;
  change (hosting []) with (@nil call);
  repeat rewrite app_nil_r; cbn [app].

Ltac use_cell_24 :=
  match goal with
  | H : forall bc bcn, Done _ = Done (bc, bcn) -> _ |- _ =>
      destruct (H _ _ eq_refl) as (-> & ?d & ?Hd & ?Hbc); clear H
  end.

Ltac use_cell_30 :=
  match goal with
  | H : let ts := _ in _ |- _ =>
      cbv zeta in H;
      let rest := fresh "rest" in
      let Hplan := fresh "Hplan" in
      let Hne := fresh "Hne" in
      let Hrest := fresh "Hrest" in
      let Hdone := fresh "Hdone" in
      destruct H as [(rest & Hplan & Hne & Hrest) Hdone];
      try (specialize (Hrest _ eq_refl); subst rest; rewrite app_nil_r in Hplan;
           destruct (Hdone _ eq_refl) as [[= -> -> ->] _])
  end.

(** C4.  In every run of the notebook the hosting calls are made in one
    order: create-model with the inference containers of the best
    candidate, create-endpoint-config naming that model,
    create-endpoint naming that configuration, the wait for the endpoint
    to be in service, and only then the request to the endpoint.  What
    a run has made of them is a beginning of this list (nothing of it
    when the run ends before cell 30), and a run that goes through has
    made all of them, each once. *)
Theorem deployment_calls_in_order :
  forall (w : world) (iterations : nat),
    let o := fst (run (notebook iterations) w) in
    let evs := snd (run (notebook iterations) w) in
    (hosting evs = [] /\ o <> Done tt)
    \/ exists role bc ts body rest,
         (exists job_name h d,
            describe_auto_ml_job w h job_name = Ok d /\ BestCandidate d = Some bc)
         /\ hosting_plan role bc ts body = (hosting evs ++ rest)%list
         /\ (o = Done tt -> rest = []).
Proof.
  intros w iterations.
  change (post (notebook iterations) w [] (fun o evs =>
    (hosting evs = [] /\ o <> Done tt)
    \/ exists role bc ts body rest,
         (exists job_name h d,
            describe_auto_ml_job w h job_name = Ok d /\ BestCandidate d = Some bc)
         /\ hosting_plan role bc ts body = (hosting evs ++ rest)%list
         /\ (o = Done tt -> rest = []))).
  unfold notebook.
  repeat nb_step no_hosting hosting_specs.
  all: norm_hosting.
  all: try (left; split; [reflexivity | discriminate]).
  all: use_cell_24; use_cell_30.
  all: right.
  all: repeat match goal with
              | H : hosting _ = [_] |- _ => rewrite H; clear H
              | H : _ \/ _ |- _ =>
                  destruct H as [[H ?]|(? & ? & H)]; rewrite H; clear H
              end;
       try match goal with
           | H : forall a, Done _ <> Done a |- _ =>
               exfalso; exact (H _ eq_refl)
           end.
  all: match goal with
       | Hplan : three_calls ?r ?c _ ?ts = _ |- _ => exists r, c, ts
       end.
  all: eexists; eexists; (split; [eauto|]).
  all: first
         [ split; [rewrite hosting_plan_split, Hplan, <- app_assoc; reflexivity
                  | discriminate]
         | rewrite <- Hplan; split;
           [ unfold hosting_plan, three_calls; cbn [app]; reflexivity
           | first [discriminate | reflexivity] ] ].
  Unshelve. all: exact EmptyString.
Qed.

Lemma no_job_calls seg :
  Forall no_job seg -> Forall (fun c => job_of c = None) (calls_of seg).
Proof.
  induction 1 as [|ev evs Hev _ IH]; [constructor|].
  destruct ev; try exact IH. constructor; assumption.
Qed.

Lemma job_ok_calls job_name seg :
  Forall (job_ok job_name) seg ->
  Forall (fun c => is_job_creation c = false
                   /\ (job_of c = None \/ job_of c = Some job_name))
         (calls_of seg).
Proof.
  induction 1 as [|ev evs Hev _ IH]; [constructor|].
  destruct ev; try exact IH. constructor; assumption.
Qed.

Lemma cell_24_calls job_name w h :
  post (cell_24 job_name) w h (fun o evs =>
    calls_of evs = [DescribeAutoMLJob job_name]).
Proof. wp; reflexivity. Qed.

Ltac job_specs E :=
  try match goal with
      | H : forall a, Done ?x = Done a -> a = _ |- _ =>
          pose proof (H _ eq_refl); subst x; clear H
      end;
  first
    [ destruct (post_run _ _ _ _ _ _ (cell_16_spec _ _ _ _ _) E) as [? ?]
    | pose proof (post_run _ _ _ _ _ _ (cell_01_spec _ _) E)
    | match goal with
      | H : calls_of _ = [CreateAutoMLJob (job_request _ _ _ ?name)] |- _ =>
          assert (Forall (job_ok name) _)
            by (refine (emits_run _ _ _ _ _ _ _ E); emits_cell);
          try pose proof (post_run _ _ _ _ _ _ (cell_24_calls _ _ _) E)
      end ].

(** The submission of the job.  A run of the notebook makes one
    job-creation call (none when it ends before cell 16).  Its request
    carries the job
    name ['automl-churn-'] followed by the time stamp the notebook has
    read before the call, the input location
    [s3://bucket/sagemaker/DEMO-xgboost-churn/train], the target column
    ['Churn?'], the output location
    [s3://bucket/sagemaker/DEMO-xgboost-churn/output] and [MaxCandidates]
    20.  No call before it names a job, and every later call that names
    a job names the one of the request: what the call returns is not
    kept. *)
Theorem job_submitted_once :
  forall (w : world) (iterations : nat),
    let o := fst (run (notebook iterations) w) in
    let evs := snd (run (notebook iterations) w) in
    (Forall (fun c => job_of c = None) (calls_of evs) /\ o <> Done tt)
    \/ exists role bucket h pre post,
         let job_name := "automl-churn-" ++ strftime_gmtime w h in
         let request :=
           job_request role bucket "sagemaker/DEMO-xgboost-churn" job_name in
         calls_of evs = (pre ++ CreateAutoMLJob request :: post)%list
         /\ Forall (fun c => job_of c = None) pre
         /\ Forall (fun c => is_job_creation c = false
                             /\ (job_of c = None \/ job_of c = Some job_name)) post
         /\ (o = Done tt -> In (DescribeAutoMLJob job_name) post)
         /\ AutoMLJobName request = job_name
         /\ InputDataConfig request
            = [ {| S3DataType := "S3Prefix";
                   S3Uri := "s3://" ++ bucket
                            ++ "/sagemaker/DEMO-xgboost-churn/train";
                   TargetAttributeName := "Churn?" |} ]
         /\ S3OutputPath request
            = "s3://" ++ bucket ++ "/sagemaker/DEMO-xgboost-churn/output"
         /\ MaxCandidates request = 20%Z.
Proof.
  intros w iterations.
  change (post (notebook iterations) w [] (fun o evs =>
    (Forall (fun c => job_of c = None) (calls_of evs) /\ o <> Done tt)
    \/ exists role bucket h pre post,
         calls_of evs
         = (pre ++ CreateAutoMLJob
                     (job_request role bucket "sagemaker/DEMO-xgboost-churn"
                                  ("automl-churn-" ++ strftime_gmtime w h))
                :: post)%list
         /\ Forall (fun c => job_of c = None) pre
         /\ Forall (fun c => is_job_creation c = false
                             /\ (job_of c = None
                                 \/ job_of c
                                    = Some ("automl-churn-" ++ strftime_gmtime w h)))
                   post
         /\ (o = Done tt ->
             In (DescribeAutoMLJob ("automl-churn-" ++ strftime_gmtime w h)) post)
         /\ "automl-churn-" ++ strftime_gmtime w h
            = "automl-churn-" ++ strftime_gmtime w h
         /\ input_data_config bucket "sagemaker/DEMO-xgboost-churn"
            = [ {| S3DataType := "S3Prefix";
                   S3Uri := "s3://" ++ bucket
                            ++ "/sagemaker/DEMO-xgboost-churn/train";
                   TargetAttributeName := "Churn?" |} ]
         /\ output_data_config bucket "sagemaker/DEMO-xgboost-churn"
            = "s3://" ++ bucket ++ "/sagemaker/DEMO-xgboost-churn/output"
         /\ 20%Z = 20%Z)).
  unfold notebook.
  repeat nb_step no_job job_specs.
  all: repeat rewrite calls_of_app.
  all: try (left; split; [|discriminate];
            repeat rewrite Forall_app; repeat split;
            auto using no_job_calls; constructor).
  all: right.
  all: repeat match goal with
              | H : forall role bucket prefix, Done _ = Done _ -> _ |- _ =>
                  specialize (H _ _ _ eq_refl); subst
              | H : calls_of _ = [_] |- _ => rewrite H; clear H
              end.
  all: match goal with
       | |- exists role bucket h pre post,
              (?A ++ ?B ++ ?C ++ ?D ++ ?E
               ++ [CreateAutoMLJob (job_request ?r ?b _ (append _ (strftime_gmtime _ ?h0)))]
               ++ ?rest)%list = _ /\ _ =>
           exists r, b, h0, (A ++ B ++ C ++ D ++ E)%list, rest; cbv zeta
       | |- exists role bucket h pre post,
              (?A ++ ?B ++ ?C ++ ?D ++ ?E
               ++ [CreateAutoMLJob (job_request ?r ?b _ (append _ (strftime_gmtime _ ?h0)))])%list
              = _ /\ _ =>
           exists r, b, h0, (A ++ B ++ C ++ D ++ E)%list, (@nil call); cbv zeta
       end.
  all: split; [repeat rewrite <- app_assoc; reflexivity|].
  all: split; [repeat rewrite Forall_app; repeat split; auto using no_job_calls|].
  all: split;
    [ repeat rewrite Forall_app; repeat split; auto using job_ok_calls;
      repeat constructor
    | ].
  all: split; [|repeat split; reflexivity].
  all: try discriminate.
  all: intros _;
    repeat (apply in_or_app; first [left; solve [simpl; auto] | right]).
Qed.


(** ** Nothing is deleted *)

Lemma live_after_no_delete evs live :
  Forall no_delete evs ->
  fold_left apply_event evs live = (rev (created evs) ++ live)%list.
Proof.
  revert live. induction evs as [|ev evs IH]; intros live H; [reflexivity|].
  inversion H as [|? ? Hev Hevs]; subst.
  cbn [fold_left]. rewrite (IH _ Hevs).
  change (created (ev :: evs)) with (created_by ev ++ created evs)%list.
  rewrite rev_app_distr, <- app_assoc. f_equal.
  destruct ev as [c [e|]| | | | |]; try reflexivity;
    destruct c; try reflexivity; simpl in Hev; discriminate.
Qed.


Lemma created_none seg : Forall no_create seg -> created seg = [].
Proof.
  induction 1 as [|ev evs Hev _ IH]; [reflexivity|].
  change (created (ev :: evs)) with (created_by ev ++ created evs)%list.
  unfold no_create in Hev. destruct (created_by ev); [exact IH | contradiction].
Qed.

Lemma no_delete_calls evs :
  Forall no_delete evs -> Forall (fun c => is_delete c = false) (calls_of evs).
Proof.
  induction 1 as [|ev evs Hev _ IH]; [constructor|].
  destruct ev; try exact IH. constructor; assumption.
Qed.

Ltac created_specs E :=
  pose proof (post_run _ _ _ _ _ _ (cell_30_spec _ _ _ _ _) E).

Lemma notebook_created_on_done w iterations :
  post (notebook iterations) w [] (fun o evs =>
    o = Done tt ->
    exists model_name epc_name ep_name,
      created evs = [ModelRes model_name; EndpointConfigRes epc_name;
                     EndpointRes ep_name]).
Proof.
  unfold notebook.
  repeat nb_step no_create created_specs.
  all: try (intros; discriminate).
  all: intros _; repeat rewrite created_app.
  all: repeat match goal with
              | H : Forall no_create ?s |- _ => rewrite (created_none s H); clear H
              end.
  all: match goal with
       | H : let ts := _ in _ |- _ =>
           cbv zeta in H; destruct H as [_ H]; destruct (H _ eq_refl) as [_ ->]
       end.
  all: change (created []) with (@nil resource); cbn [app]; eauto.
Qed.

(** C8.  No run of the notebook calls delete-endpoint,
    delete-endpoint-config or delete-model (the cell that holds these
    calls is a markdown cell, which is not executed), so the hosting
    resources the service holds after a run are all that the run has
    created; after a run that goes through these are a model, an
    endpoint configuration and an endpoint. *)
Theorem nothing_is_deleted :
  forall (w : world) (iterations : nat),
    let o := fst (run (notebook iterations) w) in
    let evs := snd (run (notebook iterations) w) in
    Forall (fun c => is_delete c = false) (calls_of evs)
    /\ live_after evs = rev (created evs)
    /\ (o = Done tt ->
        exists model_name epc_name ep_name,
          created evs = [ModelRes model_name; EndpointConfigRes epc_name;
                         EndpointRes ep_name]
          /\ live_after evs = [EndpointRes ep_name; EndpointConfigRes epc_name;
                               ModelRes model_name]).
Proof.
  intros w iterations. cbv zeta. unfold run.
  pose proof (notebook_no_delete iterations w []) as Hnd.
  assert (live_after (snd (notebook iterations w []))
          = rev (created (snd (notebook iterations w [])))) as Hlive.
  { unfold live_after. rewrite (live_after_no_delete _ [] Hnd).
    apply app_nil_r. }
  split; [apply no_delete_calls; exact Hnd|]. split; [exact Hlive|].
  intros Ho.
  destruct (notebook_created_on_done w iterations Ho) as (m & epc & ep & Hc).
  exists m, epc, ep. split; [exact Hc|].
  rewrite Hlive, Hc. reflexivity.
Qed.

(** The lab run goes through; were cell 38 a code cell, it would remove what cell 30 has created. *)
Example cell_38_as_code_deletes :
  let w := Lab.lab Lab.responses in
  let evs := snd (run (notebook 5) w) in
  fst (run (notebook 5) w) = Done tt
  /\ live_after evs = [EndpointRes "tuning-job-1-00702-01-27-00-ep";
                    EndpointConfigRes "tuning-job-1-00702-01-27-00-epc";
                    ModelRes "tuning-job-1-00702-01-27-00-model"]
  /\ live_after (evs ++ snd (cell_38 "tuning-job-1-00702-01-27-00-ep"
                                      "tuning-job-1-00702-01-27-00-epc"
                                      "tuning-job-1-00702-01-27-00-model" w evs))%list
     = [].
Proof. repeat split; vm_compute; reflexivity. Qed.

(** ** The data-preparation step (cells 9 and 11) *)

Lemma cell_11_files prefix train_data test_data_no_target w h :
  post (cell_11 prefix train_data test_data_no_target) w h (fun o evs =>
    let train_text := to_csv (float_repr w) (pandas_to_csv w) true train_data in
    let test_text :=
      to_csv (float_repr w) (pandas_to_csv w) false test_data_no_target in
    files_written evs
    = ("train_data.csv", train_text)
      :: match upload_data w (h ++ [EvWriteFile "train_data.csv" train_text])%list
                           "train_data.csv" (prefix ++ "/train") with
         | Ok _ => [("test_data.csv", test_text)]
         | Raise _ => []
         end).
Proof.
  wp; cbv zeta;
    match goal with
    | H : upload_data w ((h ++ []) ++ _)%list _ _ = _ |- _ =>
        rewrite app_nil_r in H; rewrite H
    end; reflexivity.
Qed.

Lemma drop_column_inv label df out :
  drop_column label df = Ok out ->
  rows out = map (fun r => (fst r, drop_cells label (columns df) (snd r))) (rows df)
  /\ len out = len df.
Proof.
  unfold drop_column. destruct (existsb _ _); [|discriminate].
  intros [= <-]. unfold len. cbn [rows]. rewrite length_map. auto.
Qed.

Lemma to_csv_plain float_repr fallback header df :
  forallb plain_line (csv_lines float_repr header df) = true ->
  to_csv float_repr fallback header df
  = String.concat "" (map csv_line (csv_lines float_repr header df)).
Proof. intros H. unfold to_csv. rewrite H. reflexivity. Qed.

Lemma forallb_sub {A} (f : A -> bool) (l sub : list A) :
  forallb f l = true -> (forall x, In x sub -> In x l) -> forallb f sub = true.
Proof.
  intros H Hsub. apply forallb_forall. intros x Hx.
  rewrite forallb_forall in H. apply H. apply Hsub. exact Hx.
Qed.

Lemma rows_read_csv header data r :
  In r (rows (read_csv header data)) -> In (snd r) data.
Proof.
  destruct r as [i cells]. unfold read_csv. cbn [rows snd].
  apply in_combine_r.
Qed.

Lemma drop_cells_at label cols : forall cells i,
  nth_error cols i = Some label ->
  (forall j, nth_error cols j = Some label -> j = i) ->
  (List.length cells <= List.length cols)%nat ->
  drop_cells label cols cells = (firstn i cells ++ skipn (S i) cells)%list.
Proof.
  induction cols as [|c cols IH]; intros cells i Hi Huniq Hlen.
  - destruct i; discriminate.
  - destruct cells as [|v cells].
    + destruct i; reflexivity.
    + cbn [drop_cells]. cbn [List.length] in Hlen.
      destruct i as [|i].
      * cbn in Hi. injection Hi as ->. rewrite String.eqb_refl.
        cbn [firstn skipn app].
        clear IH. revert cells Hlen.
        assert (forall j, nth_error cols j <> Some label) as Hnone.
        { intros j Hj. specialize (Huniq (S j) Hj). discriminate. }
        clear Huniq. induction cols as [|c cols IH]; intros cells Hlen.
        -- destruct cells; [reflexivity | cbn in Hlen; lia].
        -- destruct cells as [|v' cells]; [reflexivity|].
           cbn [drop_cells].
           destruct (String.eqb_spec c label) as [->|_].
           ++ exfalso. apply (Hnone 0%nat). reflexivity.
           ++ f_equal. apply IH.
              ** intros j Hj. apply (Hnone (S j)). exact Hj.
              ** cbn in Hlen. lia.
      * cbn in Hi.
        destruct (String.eqb_spec c label) as [->|_].
        -- specialize (Huniq 0%nat eq_refl). discriminate.
        -- cbn [firstn skipn app]. f_equal. apply IH.
           ++ exact Hi.
           ++ intros j Hj. specialize (Huniq (S j) Hj). lia.
           ++ lia.
Qed.

Lemma concat_csv_lines lines :
  String.concat "" (map csv_line lines) = unlines (map (PyStr.join ",") lines).
Proof. unfold unlines. rewrite map_map. reflexivity. Qed.

(** The text written for a frame without the column [label], row by row,
    in terms of the rows of the frame that still has the column. *)
Lemma to_csv_without float_repr fallback label df out i :
  drop_column label df = Ok out ->
  nth_error (columns df) i = Some label ->
  (forall j, nth_error (columns df) j = Some label -> j = i) ->
  Forall (fun r => List.length (snd r) <= List.length (columns df))%nat (rows df) ->
  forallb plain_line
          (map (fun r => map (cell_text float_repr)
                             (firstn i (snd r) ++ skipn (S i) (snd r))%list)
               (rows df)) = true ->
  to_csv float_repr fallback false out
  = unlines (map (fun r => PyStr.join "," (map (cell_text float_repr)
                                               (firstn i (snd r)
                                                ++ skipn (S i) (snd r))%list))
                 (rows df)).
Proof.
  intros Hd Hi Huniq Hlen Hplain.
  destruct (drop_column_inv _ _ _ Hd) as [Hrows _].
  assert (map (fun r => map (cell_text float_repr) (snd r)) (rows out)
          = map (fun r => map (cell_text float_repr)
                              (firstn i (snd r) ++ skipn (S i) (snd r))%list)
                (rows df)) as Hlines.
  { rewrite Hrows, map_map. apply map_ext_in. intros r Hr. cbn [snd].
    rewrite (drop_cells_at label (columns df) (snd r) i Hi Huniq); [reflexivity|].
    rewrite Forall_forall in Hlen. apply Hlen. exact Hr. }
  rewrite to_csv_plain.
  - unfold csv_lines. cbn [app]. rewrite Hlines, concat_csv_lines, map_map.
    reflexivity.
  - unfold csv_lines. cbn [app]. rewrite Hlines. exact Hplain.
Qed.

Lemma drop_column_present label df :
  In label (columns df) -> exists out, drop_column label df = Ok out.
Proof.
  intros H. unfold drop_column.
  assert (existsb (String.eqb label) (columns df) = true) as ->.
  { apply existsb_exists. exists label. split; [exact H | apply String.eqb_refl]. }
  eexists. reflexivity.
Qed.

(** C2.  Cell 9 splits the frame read from the file into two parts that
    form a partition of its rows, and cell 11 writes two CSV files from
    them.  NumPy's generator is taken by its contract: seeded with 200 it
    chooses [round(0.8 * n)] distinct positions among the [n] rows.  Then
    the training split holds the rows at these positions (four fifths of
    the rows, up to rounding), the testing split holds exactly the rows
    of the frame that are not in the training split, every row of the
    frame is in one of the two and in one only.  Every run of cell 11
    writes [train_data.csv] from the training split, with its header,
    before anything else, and [test_data.csv] from the testing split
    without its target column, without a header, once the first upload
    has returned (and not otherwise).  Where the labels and the texts of
    the cells are plain (nothing for the CSV writer to quote),
    [train_data.csv] is the line of the labels followed by one line per
    training row, and [test_data.csv] is one line per testing row with
    the cell of ['Churn?'] left out, the fields separated by commas. *)
Theorem split_is_partition :
  forall (choice : Z -> nat -> nat -> list nat) (global_state : Z)
         (header : list string) (data : list (list pyval)),
    let churn := read_csv header data in
    let n := List.length data in
    let locs := choice 200%Z n (sample_size (8 # 10)%Q n) in
    NoDup locs ->
    Forall (fun p => (p < n)%nat) locs ->
    List.length locs = sample_size (8 # 10)%Q n ->
    In "Churn?" header ->
    exists train_data test_data test_data_no_target,
      split_rows choice global_state churn
      = Ok (train_data, test_data, test_data_no_target)
      /\ index train_data = locs
      /\ (Z.abs (5 * Z.of_nat (len train_data) - 4 * Z.of_nat n) <= 2)%Z
      /\ rows test_data
         = filter (fun r => negb (mem_nat (fst r) (index train_data))) (rows churn)
      /\ Permutation (rows train_data ++ rows test_data)%list (rows churn)
      /\ (forall r, In r (rows churn) ->
            (In r (rows train_data) /\ ~ In r (rows test_data))
            \/ (~ In r (rows train_data) /\ In r (rows test_data)))
      /\ drop_column "Churn?" test_data = Ok test_data_no_target
      /\ (forall (w : world) (h : history) (prefix : string),
            let train_text :=
              to_csv (float_repr w) (pandas_to_csv w) true train_data in
            let test_text :=
              to_csv (float_repr w) (pandas_to_csv w) false test_data_no_target in
            files_written (snd (cell_11 prefix train_data test_data_no_target w h))
            = ("train_data.csv", train_text)
              :: match upload_data
                         w (h ++ [EvWriteFile "train_data.csv" train_text])%list
                         "train_data.csv" (prefix ++ "/train") with
                 | Ok _ => [("test_data.csv", test_text)]
                 | Raise _ => []
                 end)
      /\ (forall (float_repr : Z -> string)
                 (fallback : bool -> DataFrame -> string) (i : nat),
            nth_error header i = Some "Churn?" ->
            (forall j, nth_error header j = Some "Churn?" -> j = i) ->
            Forall (fun cells => List.length cells = List.length header) data ->
            forallb plain_line (header :: map (map (cell_text float_repr)) data)
            = true ->
            forallb plain_line
                    (map (fun cells => map (cell_text float_repr)
                                           (firstn i cells ++ skipn (S i) cells)%list)
                         data) = true ->
            to_csv float_repr fallback true train_data
            = unlines
                (map (PyStr.join ",")
                     (header :: map (fun r => map (cell_text float_repr) (snd r))
                                    (rows train_data)))
            /\ to_csv float_repr fallback false test_data_no_target
               = unlines
                   (map (fun r => PyStr.join ","
                                    (map (cell_text float_repr)
                                         (firstn i (snd r)
                                          ++ skipn (S i) (snd r))%list))
                        (rows test_data))).
Proof.
  intros choice global_state header data churn n locs Hnd Hin Hlen Hcol.
  assert (map fst (rows churn) = seq 0 (List.length (rows churn))) as Hlab.
  { change (map fst (rows churn)) with (index churn). unfold churn.
    rewrite index_read_csv. fold (len (read_csv header data)).
    rewrite len_read_csv. reflexivity. }
  assert (len churn = n) as Hn by apply len_read_csv.
  destruct (take_rows_labelled (rows churn) Hlab locs) as (out & Etake & Hl & Hsub).
  { fold (len churn). rewrite Hn. exact Hin. }
  set (train_data := mk (columns churn) out).
  set (test_data :=
         mk (columns churn)
            (filter (fun r => negb (mem_nat (fst r) (index train_data)))
                    (rows churn))).
  destruct (drop_column_present "Churn?" test_data Hcol) as (tnt & Edrop).
  assert (index train_data = locs) as Hindex by exact Hl.
  assert (Permutation (rows train_data ++ rows test_data)%list (rows churn))
    as Hperm.
  { change (Permutation
              (out ++ filter (fun r => negb (mem_nat (fst r) (index train_data)))
                             (rows churn))%list (rows churn)).
    rewrite Hindex. exact (split_permutation (rows churn) Hlab locs out Hnd Hl Hsub). }
  exists train_data, test_data, tnt.
  split.
  { unfold split_rows, sample. rewrite Hn. fold locs. rewrite Etake.
    cbn [rbind]. fold train_data. unfold drop.
    assert (forallb (fun i => mem_nat i (index churn)) (index train_data) = true)
      as ->.
    { apply forallb_forall. intros i Hi. apply mem_nat_In.
      rewrite Hindex in Hi. unfold index. rewrite Hlab.
      apply in_seq. fold (len churn). rewrite Hn.
      rewrite Forall_forall in Hin. specialize (Hin i Hi). lia. }
    fold test_data. cbn [rbind]. rewrite Edrop. reflexivity. }
  split; [exact Hindex|].
  split.
  { unfold len. cbn [rows train_data].
    rewrite <- (length_map fst out), Hl, Hlen. apply sample_size_four_fifths. }
  split; [reflexivity|].
  split; [exact Hperm|].
  split.
  { intros r Hr.
    assert (In r (rows train_data) -> ~ In r (rows test_data)) as Hexcl.
    { intros Ht Hf. cbn [rows test_data] in Hf.
      apply filter_In in Hf as [_ Hf]. apply negb_true_iff in Hf.
      assert (mem_nat (fst r) (index train_data) = true) as Hm
          by (apply mem_nat_In; apply in_map; exact Ht).
      congruence. }
    apply (Permutation_in _ (Permutation_sym Hperm)) in Hr.
    apply in_app_or in Hr as [Ht|Hf].
    - left. split; [exact Ht | apply Hexcl; exact Ht].
    - right. split; [|exact Hf]. intros Ht. exact (Hexcl Ht Hf). }
  split; [exact Edrop|].
  split.
  { intros w h prefix. exact (cell_11_files prefix train_data tnt w h). }
  intros fr fallback i Hi Huniq Hshape Hfull Hfeatures.
  assert (forall r, In r (rows train_data) -> In (snd r) data) as Htrain.
  { intros r Hr. apply (rows_read_csv header).
    apply (Permutation_in _ Hperm). apply in_or_app. left. exact Hr. }
  assert (forall r, In r (rows test_data) -> In (snd r) data) as Htest.
  { intros r Hr. apply (rows_read_csv header).
    apply (Permutation_in _ Hperm). apply in_or_app. right. exact Hr. }
  cbn [forallb] in Hfull. apply andb_true_iff in Hfull as [Hhead Hfull].
  split.
  - rewrite to_csv_plain; [apply concat_csv_lines|].
    unfold csv_lines. cbn [app forallb columns train_data]. fold train_data.
    change (columns churn) with header. rewrite Hhead. cbn [andb].
    apply forallb_forall. intros fields Hf.
    apply in_map_iff in Hf as (r & <- & Hr).
    rewrite forallb_forall in Hfull. apply Hfull.
    apply in_map. apply Htrain. exact Hr.
  - apply (to_csv_without fr fallback "Churn?" test_data tnt i Edrop Hi Huniq).
    + apply Forall_forall. intros r Hr. change (columns test_data) with header.
      rewrite Forall_forall in Hshape. rewrite (Hshape _ (Htest r Hr)).
      apply Nat.le_refl.
    + apply forallb_forall. intros fields Hf.
      apply in_map_iff in Hf as (r & <- & Hr).
      rewrite forallb_forall in Hfeatures. apply Hfeatures.
      apply (in_map (fun cells => map (cell_text fr)
                                      (firstn i cells ++ skipn (S i) cells)%list)).
      apply Htest. exact Hr.
Qed.

Lemma split_is_partition_witness :
  exists train_data test_data test_data_no_target,
    split_rows Lab.choice 0 (read_csv Lab.header Lab.data)
    = Ok (train_data, test_data, test_data_no_target)
    /\ index train_data = [9; 8; 7; 6; 5; 4; 3; 2]
    /\ index test_data = [0; 1]
    /\ files_written
         (snd (cell_11 "sagemaker/DEMO-xgboost-churn" train_data
                       test_data_no_target (Lab.lab Lab.responses) []))
       = [("train_data.csv",
           unlines ["State,Day Mins,Churn?"; "WV,258.6,False."; "LA,184.5,True.";
                    "MO,157.0,False."; "MA,218.2,False."; "AL,223.4,False.";
                    "OK,166.7,False."; "OH,299.4,True."; "NJ,243.4,False."]);
          ("test_data.csv", unlines ["KS,265.1"; "OH,161.6"])].
Proof.
  destruct (split_is_partition Lab.choice 0 Lab.header Lab.data)
    as (train & test & tnt & E & Hi & _ & Ht & _ & _ & _ & Hfiles & Htext).
  - vm_compute. repeat (constructor; [simpl; intuition discriminate|]). constructor.
  - vm_compute. repeat (constructor; [lia|]). constructor.
  - reflexivity.
  - simpl. auto.
  - exists train, test, tnt. split; [exact E|]. split; [exact Hi|].
    split; [unfold index; rewrite Ht, Hi; reflexivity|].
    rewrite (Hfiles (Lab.lab Lab.responses) [] "sagemaker/DEMO-xgboost-churn").
    destruct (Htext (float_repr (Lab.lab Lab.responses))
                    (pandas_to_csv (Lab.lab Lab.responses)) 2%nat) as [-> ->];
      [ reflexivity
      | intros [|[|[|j]]] Hj; try discriminate; try reflexivity;
        destruct j; discriminate
      | repeat constructor
      | reflexivity
      | reflexivity
      | ].
    vm_compute in E. injection E as <- <- <-.
    vm_compute. reflexivity.
Defined.

(** C10.  The split does not depend on anything but the frame: [sample]
    is called with [random_state=200], so a fresh generator seeded with
    200 draws the positions, and two runs of cell 9 on the same frame
    (in any two worlds that share NumPy's generator function, whatever
    the state of the global generator, the services, the clock or the
    history are) return the same three frames. *)
Theorem split_is_deterministic :
  forall (w1 w2 : world) (h1 h2 : history) (churn : DataFrame),
    np_choice w1 = np_choice w2 ->
    cell_09 churn w1 h1 = cell_09 churn w2 h2
    /\ forall choice state1 state2,
         split_rows choice state1 churn = split_rows choice state2 churn.
Proof.
  intros w1 w2 h1 h2 churn E. split.
  - unfold cell_09, bind, ask. rewrite E.
    destruct (split_rows (np_choice w2) (np_global_state w1) churn) eqn:E1;
      change (split_rows (np_choice w2) (np_global_state w2) churn)
        with (split_rows (np_choice w2) (np_global_state w1) churn);
      rewrite E1; reflexivity.
  - intros choice state1 state2. reflexivity.
Qed.

Lemma split_is_deterministic_witness :
  cell_09 (read_csv Lab.header Lab.data)
          (Lab.lab_at 0 "02-01-27-00" Lab.responses) []
  = cell_09 (read_csv Lab.header Lab.data)
            (Lab.lab_at 7 "03-11-05-42" Lab.stuck)
            [EvShell "jupyter nbconvert --execute"].
Proof.
  refine (proj1 (split_is_deterministic _ _ _ _ _ _)). reflexivity.
Defined.

(** Without the seed the sample would follow the global generator. *)
Example sample_unseeded_follows_global_state :
  let churn := read_csv Lab.header Lab.data in
  sample Lab.choice 0 (8 # 10)%Q None churn <> sample Lab.choice 7 (8 # 10)%Q None churn
  /\ sample Lab.choice 0 (8 # 10)%Q (Some 200%Z) churn
     = sample Lab.choice 7 (8 # 10)%Q (Some 200%Z) churn.
Proof.
  cbv zeta. split; [|reflexivity].
  intros H. vm_compute in H. discriminate.
Qed.
(** ** The inference step (cell 33) *)

(** ** Reading a response back *)

Lemma split_free sep s : free sep s -> PyStr.split sep s = [s].
Proof.
  unfold free. induction s as [|c s IH]; intros H; [reflexivity|].
  cbn [list_ascii_of_string] in H. inversion H as [|? ? Hc Hs]; subst.
  cbn [PyStr.split]. destruct (Ascii.eqb_spec c sep); [congruence|].
  rewrite (IH Hs). reflexivity.
Qed.

Lemma split_app_free sep b k :
  free sep b -> PyStr.split sep (b ++ String sep k) = b :: PyStr.split sep k.
Proof.
  unfold free. induction b as [|c b IH]; intros H.
  - cbn. rewrite Ascii.eqb_refl. reflexivity.
  - cbn [list_ascii_of_string] in H. inversion H as [|? ? Hc Hb]; subst.
    cbn. destruct (Ascii.eqb_spec c sep); [congruence|].
    rewrite (IH Hb). reflexivity.
Qed.

Lemma plain_free text c :
  plain text = true -> plain_char c = false -> free c text.
Proof.
  unfold plain, free. intros H Hc. rewrite forallb_forall in H.
  apply Forall_forall. intros x Hx ->. specialize (H _ Hx). congruence.
Qed.

Lemma split_join sep fields :
  fields <> [] ->
  Forall (free sep) fields ->
  PyStr.split sep (PyStr.join (String sep EmptyString) fields) = fields.
Proof.
  induction fields as [|f fields IH]; [congruence|].
  intros _ H. inversion H as [|? ? Hf Hfs]; subst.
  destruct fields as [|g fields].
  - cbn. apply split_free. exact Hf.
  - rewrite join_cons by discriminate.
    change (String sep EmptyString ++ ?x) with (String sep x).
    rewrite split_app_free by exact Hf.
    rewrite IH; [reflexivity | discriminate | exact Hfs].
Qed.

Lemma join_empty sep fields :
  PyStr.join (String sep EmptyString) fields = "" ->
  fields = [] \/ fields = [""].
Proof.
  destruct fields as [|f [|g fields]]; auto.
  - cbn. intros ->. auto.
  - rewrite join_cons by discriminate.
    destruct f; discriminate.
Qed.

Lemma csv_fields_join fields :
  response_row fields = true -> csv_fields (PyStr.join "," fields) = fields.
Proof.
  unfold response_row. intros H. apply andb_true_iff in H as [Hp Hne].
  unfold csv_fields.
  destruct (String.eqb_spec (PyStr.join "," fields) "") as [E|E].
  - apply join_empty in E as [->| ->]; [reflexivity | discriminate].
  - apply split_join.
    + intros ->. apply E. reflexivity.
    + apply Forall_forall. intros f Hf. rewrite forallb_forall in Hp.
      apply plain_free; [apply Hp; exact Hf | reflexivity].
Qed.

Lemma append_empty_r s : s ++ "" = s.
Proof. induction s as [|c s IH]; [reflexivity|]. cbn. rewrite IH. reflexivity. Qed.

Lemma append_assoc' (a b c : string) : (a ++ b) ++ c = a ++ (b ++ c).
Proof. induction a as [|x a IH]; [reflexivity|]. cbn. rewrite IH. reflexivity. Qed.

Lemma concat_cons x l : String.concat "" (x :: l) = x ++ String.concat "" l.
Proof. destruct l; cbn [String.concat]; [rewrite append_empty_r|]; reflexivity. Qed.

Lemma unlines_cons l lines : unlines (l :: lines) = l ++ newline ++ unlines lines.
Proof.
  unfold unlines. cbn [map]. rewrite concat_cons, append_assoc'. reflexivity.
Qed.

Lemma split_unlines lines :
  Forall (free (ascii_of_nat 10)) lines ->
  PyStr.split (ascii_of_nat 10) (unlines lines) = (lines ++ [""])%list.
Proof.
  induction 1 as [|l lines Hl _ IH]; [reflexivity|].
  rewrite unlines_cons.
  change (newline ++ ?x) with (String (ascii_of_nat 10) x).
  rewrite split_app_free by exact Hl. rewrite IH. reflexivity.
Qed.

Lemma splitlines_unlines lines :
  Forall (free (ascii_of_nat 10)) lines -> splitlines (unlines lines) = lines.
Proof.
  intros H. unfold splitlines. rewrite (split_unlines lines H).
  rewrite last_last, String.eqb_refl. apply removelast_last.
Qed.

Lemma list_ascii_app a b :
  list_ascii_of_string (a ++ b)
  = (list_ascii_of_string a ++ list_ascii_of_string b)%list.
Proof. induction a as [|c a IH]; [reflexivity|]. cbn. rewrite IH. reflexivity. Qed.

Lemma free_join fields c :
  plain_char c = false -> forallb plain fields = true ->
  c <> ","%char ->
  free c (PyStr.join "," fields).
Proof.
  intros Hc Hp Hne. induction fields as [|f fields IH]; [constructor|].
  cbn [forallb] in Hp. apply andb_true_iff in Hp as [Hf Hp].
  destruct fields as [|g fields].
  - cbn. apply plain_free; assumption.
  - rewrite join_cons by discriminate. unfold free.
    rewrite list_ascii_app. apply Forall_app. split.
    + apply plain_free; assumption.
    + cbn. constructor; [congruence|]. apply IH. exact Hp.
Qed.

Lemma body_chars_join fields :
  forallb plain fields = true ->
  forallb plain_body_char (list_ascii_of_string (PyStr.join "," fields)) = true.
Proof.
  intros Hp. induction fields as [|f fields IH]; [reflexivity|].
  cbn [forallb] in Hp. apply andb_true_iff in Hp as [Hf Hp].
  assert (forallb plain_body_char (list_ascii_of_string f) = true) as Hfb.
  { unfold plain in Hf. rewrite forallb_forall in Hf.
    apply forallb_forall. intros x Hx. specialize (Hf x Hx).
    unfold plain_char in Hf. unfold plain_body_char.
    repeat (apply andb_true_iff in Hf as [Hf ?]).
    apply orb_true_iff. right.
    repeat (apply andb_true_iff; split); assumption. }
  destruct fields as [|g fields].
  - cbn. exact Hfb.
  - rewrite join_cons by discriminate.
    rewrite list_ascii_app, forallb_app, Hfb. cbn. apply IH. exact Hp.
Qed.

Lemma body_chars_unlines rows :
  forallb response_row rows = true ->
  forallb plain_body_char
          (list_ascii_of_string (unlines (map (PyStr.join ",") rows))) = true.
Proof.
  induction rows as [|r rows IH]; intros H; [reflexivity|].
  cbn [forallb] in H. apply andb_true_iff in H as [Hr H].
  cbn [map]. rewrite unlines_cons, !list_ascii_app, !forallb_app.
  unfold response_row in Hr. apply andb_true_iff in Hr as [Hr _].
  rewrite (body_chars_join r Hr), (IH H). reflexivity.
Qed.

(** A response of lines of plain fields, separated by commas, every
    line closed by a line feed, is read back as these fields. *)
Lemma csv_deserialize_unlines sdk rows :
  forallb response_row rows = true ->
  (Z.of_nat (String.length (unlines (map (PyStr.join ",") rows))) <= 131072)%Z ->
  csv_deserialize sdk (unlines (map (PyStr.join ",") rows)) = Ok rows.
Proof.
  intros Hrows Hlen. unfold csv_deserialize, plain_body.
  rewrite (body_chars_unlines rows Hrows).
  apply Z.leb_le in Hlen. rewrite Hlen. cbn [andb].
  rewrite splitlines_unlines.
  - rewrite map_map. f_equal.
    rewrite <- (map_id rows) at 2. apply map_ext_in.
    intros r Hr. apply csv_fields_join.
    rewrite forallb_forall in Hrows. apply Hrows. exact Hr.
  - apply Forall_forall. intros line Hl.
    apply in_map_iff in Hl as (r & <- & Hr).
    rewrite forallb_forall in Hrows. specialize (Hrows r Hr).
    unfold response_row in Hrows. apply andb_true_iff in Hrows as [Hp _].
    apply free_join; [reflexivity | exact Hp | discriminate].
Qed.


Lemma sum_le hits : (Frame.sum hits <= List.length hits)%nat.
Proof. unfold Frame.sum. apply filter_length_le. Qed.

Lemma series_eq_length np_equal a b hits :
  series_eq np_equal a b = Ok hits ->
  List.length a = List.length b /\ List.length hits = List.length a.
Proof.
  unfold series_eq. destruct (Nat.eqb_spec (List.length a) (List.length b)) as [E|];
    [|discriminate].
  intros [= <-]. split; [exact E|].
  rewrite length_map, length_combine, length_seq, length_combine, <- E.
  rewrite !Nat.min_id. reflexivity.
Qed.

Lemma reset_index_column_length label df truth :
  reset_index_column label df = Ok truth -> List.length truth = len df.
Proof.
  unfold reset_index_column.
  destruct (existsb _ _); [discriminate|].
  destruct (String.eqb label _).
  - intros [= <-]. apply length_map.
  - destruct (existsb _ _); [|discriminate]. intros [= <-]. apply length_map.
Qed.

Lemma accuracy_of_inv np_equal test_data test_data_inference prediction_df accuracy :
  drop_column "Churn?" test_data = Ok test_data_inference ->
  accuracy_of np_equal test_data test_data_inference prediction_df = Ok accuracy ->
  exists truth hits,
    reset_index_column "Churn?" test_data = Ok truth
    /\ column0 prediction_df = Ok (map (@hd_error pyval) prediction_df)
    /\ List.length truth = len test_data
    /\ List.length prediction_df = len test_data
    /\ series_eq np_equal truth (map (@hd_error pyval) prediction_df) = Ok hits
    /\ List.length hits = len test_data
    /\ accuracy = divide (Frame.sum hits) (len test_data).
Proof.
  intros Hdrop. apply drop_column_inv in Hdrop as [_ Hlen].
  unfold accuracy_of.
  destruct (reset_index_column "Churn?" test_data) as [truth|] eqn:Et;
    [|discriminate].
  cbn [rbind]. unfold column0.
  destruct (existsb _ prediction_df); [|discriminate].
  cbn [rbind].
  destruct (series_eq np_equal truth (map (@hd_error pyval) prediction_df))
    as [hits|] eqn:Eh; [|discriminate].
  cbn [rbind]. intros [= <-].
  pose proof (reset_index_column_length _ _ _ Et) as Ht.
  destruct (series_eq_length _ _ _ _ Eh) as [El Ehl].
  rewrite length_map in El.
  exists truth, hits. rewrite Hlen.
  repeat split; auto; congruence.
Qed.

Lemma map_snd_combine_seq {A B} (g : A -> B) (l : list A) k :
  map (fun p => g (snd p)) (combine (seq k (List.length l)) l) = map g l.
Proof.
  revert k. induction l as [|x l IH]; intros k; [reflexivity|].
  cbn. rewrite IH. reflexivity.
Qed.

(** Against predicted texts every comparison is settled by [cell_eq]. *)
Lemma series_eq_texts np_equal truth (predicted : list (option string)) hits :
  series_eq np_equal truth (map (option_map VStr) predicted) = Ok hits ->
  Frame.sum hits = text_matches truth predicted.
Proof.
  unfold series_eq. rewrite length_map.
  destruct (Nat.eqb_spec (List.length truth) (List.length predicted)) as [E|];
    [|discriminate].
  intros [= <-].
  set (settled := fun q : option pyval * option pyval =>
                    match cell_eq (fst q) (snd q) with
                    | Some r => r
                    | None => false
                    end).
  transitivity
    (Frame.sum (map settled (combine truth (map (option_map VStr) predicted)))).
  - f_equal.
    replace (List.length truth)
      with (List.length (combine truth (map (option_map VStr) predicted)))
      by (rewrite length_combine, length_map, E; apply Nat.min_id).
    rewrite <- (map_snd_combine_seq settled _ 0).
    apply map_ext_in. intros [i [x y]] Hin. unfold settled. cbn [fst snd].
    apply in_combine_r, in_combine_r in Hin.
    apply in_map_iff in Hin as (p & <- & _).
    destruct x as [[| | |]|], p; reflexivity.
  - unfold Frame.sum, text_matches, settled. clear E. revert predicted.
    induction truth as [|x truth IH]; intros [|p predicted]; try reflexivity.
    cbn [map combine filter fst snd].
    destruct x as [[a|n|b|b]|], p as [s|]; cbn [option_map cell_eq];
      try (rewrite IH; reflexivity).
    destruct (String.eqb a s); cbn [List.length]; rewrite IH; reflexivity.
Qed.

Lemma hd_error_map {A B} (f : A -> B) (l : list A) :
  hd_error (map f l) = option_map f (hd_error l).
Proof. destruct l; reflexivity. Qed.
Lemma predictor_init_run ep w h :
  predictor_init ep w h
  = if predictor_describes w
    then match describe_endpoint w h ep with
         | Raise e => (Raised e, [EvCall (DescribeEndpoint ep) (Some e)])
         | Ok config =>
             match describe_endpoint_config
                     w (h ++ [EvCall (DescribeEndpoint ep) None])%list config with
             | Raise e =>
                 (Raised e, [EvCall (DescribeEndpoint ep) None;
                             EvCall (DescribeEndpointConfig config) (Some e)])
             | Ok _ =>
                 (Done tt, [EvCall (DescribeEndpoint ep) None;
                            EvCall (DescribeEndpointConfig config) None])
             end
         end
    else (Done tt, []).
Proof.
  unfold predictor_init, bind, ask, ret, sm_describe_endpoint,
    sm_describe_endpoint_config, remote.
  destruct (predictor_describes w); [|reflexivity].
  cbv beta iota. rewrite app_nil_r.
  destruct (describe_endpoint w h ep) as [config|e]; [|reflexivity].
  cbv beta iota. cbn [app].
  destruct (describe_endpoint_config w _ config); reflexivity.
Qed.

Lemma cell_33_run ep test_data w h :
  cell_33 ep test_data w h
  = match predictor_init ep w h with
    | (Done _, evs0) =>
        match drop_column "Churn?" test_data with
        | Raise e => (Raised e, evs0)
        | Ok test_data_inference =>
            let body := to_csv (float_repr w) (pandas_to_csv w) false
                               test_data_inference in
            let call := InvokeEndpoint ep body in
            match invoke_endpoint w (h ++ evs0)%list ep body with
            | Raise e => (Raised e, (evs0 ++ [EvCall call (Some e)])%list)
            | Ok response =>
                match rbind (parsed_prediction w response) (fun prediction_df =>
                      rbind (accuracy_of (np_equal w) test_data
                                         test_data_inference prediction_df)
                            (fun accuracy => Ok (prediction_df, accuracy))) with
                | Raise e => (Raised e, (evs0 ++ [EvCall call None])%list)
                | Ok (prediction_df, accuracy) =>
                    (Done (prediction_df, accuracy),
                     (evs0 ++ [EvCall call None;
                               EvPrint [PFormat "Accuracy: {}" accuracy]])%list)
                end
            end
        end
    | (Raised e, evs0) => (Raised e, evs0)
    | (Running, evs0) => (Running, evs0)
    end.
Proof.
  unfold cell_33, parsed_prediction. unfold bind at 1. unfold ask at 1.
  cbv beta iota. rewrite app_nil_r.
  destruct (String.ltb (sagemaker_version w) "2").
  - unfold bind at 1.
    destruct (predictor_init ep w h) as [[[]|e|] evs0]; try reflexivity.
    destruct (drop_column "Churn?" test_data) as [tdi|e];
      [|cbn; rewrite app_nil_r; reflexivity].
    unfold bind, lift, ret, raise, df_to_csv, ask, runtime_invoke_endpoint,
      remote, print, emit.
    cbv beta iota. rewrite !app_nil_r. cbn [app].
    destruct (invoke_endpoint w (h ++ evs0)%list ep _) as [response|e];
      [|reflexivity].
    cbv beta iota.
    destruct (pd_read_csv w response) as [pdf|e]; [|reflexivity].
    cbn [rbind]. cbv beta iota.
    destruct (accuracy_of (np_equal w) test_data tdi pdf); reflexivity.
  - unfold bind at 1.
    destruct (predictor_init ep w h) as [[[]|e|] evs0]; try reflexivity.
    destruct (drop_column "Churn?" test_data) as [tdi|e];
      [|cbn; rewrite app_nil_r; reflexivity].
    unfold bind, lift, ret, raise, df_to_csv, ask, runtime_invoke_endpoint,
      remote, print, emit.
    cbv beta iota. rewrite !app_nil_r. cbn [app].
    destruct (invoke_endpoint w (h ++ evs0)%list ep _) as [response|e];
      [|reflexivity].
    cbv beta iota.
    destruct (csv_deserialize (csv_deserializer w) response) as [rows|e];
      [|reflexivity].
    cbn [rbind]. cbv beta iota.
    destruct (accuracy_of (np_equal w) test_data tdi _); reflexivity.
Qed.


Lemma calls_of_lookups evs0 ep w h :
  predictor_init ep w h = (Done tt, evs0) ->
  exists config, calls_of evs0 = lookups (predictor_describes w) ep config
                 /\ Forall quiet evs0.
Proof.
  rewrite predictor_init_run. unfold lookups.
  destruct (predictor_describes w).
  - destruct (describe_endpoint w h ep) as [config|]; [|discriminate].
    destruct (describe_endpoint_config w _ config); [|discriminate].
    intros [= <-]. exists config. split; [reflexivity|].
    repeat constructor.
  - intros [= <-]. exists "". split; [reflexivity | constructor].
Qed.

(** With an SDK from release 2 on, a run of cell 33 that goes through
    has made the look-ups of the predictor's constructor, if the
    installed release makes them, and then one request; the body of the
    request is the testing split without its column ['Churn?'], written
    without header and index (one line per row, the fields separated by
    commas, where the texts of the cells are plain).  The response is
    taken apart by [CSVDeserializer]: a response of lines of plain
    fields separated by commas is read back as these fields.  There is
    one parsed line for every row of the testing split, and the accuracy
    is the number of rows whose ground-truth label is a text, and the
    very text that the first field of the row's line holds, divided by
    the number of rows. *)
Theorem inference_compares_texts :
  forall (w : world) (h : history) (ep_name : string) (test_data : DataFrame)
         (prediction_df : list (list pyval)) (accuracy : pyfloat)
         (evs : list event),
    String.ltb (sagemaker_version w) "2" = false ->
    cell_33 ep_name test_data w h = (Done (prediction_df, accuracy), evs) ->
    exists test_data_inference config before response predicted truth,
      let body := to_csv (float_repr w) (pandas_to_csv w) false
                         test_data_inference in
      drop_column "Churn?" test_data = Ok test_data_inference
      /\ calls_of evs
         = (lookups (predictor_describes w) ep_name config
            ++ [InvokeEndpoint ep_name body])%list
      /\ (forall float_repr fallback i,
            nth_error (columns test_data) i = Some "Churn?" ->
            (forall j, nth_error (columns test_data) j = Some "Churn?" -> j = i) ->
            Forall (fun r => List.length (snd r)
                             <= List.length (columns test_data))%nat
                   (rows test_data) ->
            forallb plain_line
                    (map (fun r => map (cell_text float_repr)
                                       (firstn i (snd r)
                                        ++ skipn (S i) (snd r))%list)
                         (rows test_data)) = true ->
            to_csv float_repr fallback false test_data_inference
            = unlines
                (map (fun r => PyStr.join ","
                                 (map (cell_text float_repr)
                                      (firstn i (snd r)
                                       ++ skipn (S i) (snd r))%list))
                     (rows test_data)))
      /\ invoke_endpoint w (h ++ before)%list ep_name body = Ok response
      /\ csv_deserialize (csv_deserializer w) response = Ok predicted
      /\ (forall rows,
            forallb response_row rows = true ->
            response = unlines (map (PyStr.join ",") rows) ->
            (Z.of_nat (String.length response) <= 131072)%Z ->
            predicted = rows)
      /\ prediction_df = map (map VStr) predicted
      /\ reset_index_column "Churn?" test_data = Ok truth
      /\ List.length predicted = len test_data
      /\ accuracy
         = Ratio (Z.of_nat (text_matches truth (map (@hd_error string) predicted))
                  # Pos.of_nat (len test_data)).
Proof.
  intros w h ep_name test_data prediction_df accuracy evs Hv E.
  rewrite cell_33_run in E.
  destruct (predictor_init ep_name w h) as [[[]|e|] evs0] eqn:E0;
    try discriminate.
  destruct (drop_column "Churn?" test_data) as [tdi|e] eqn:Hd; [|discriminate].
  cbv zeta in E.
  destruct (invoke_endpoint w _ ep_name _) as [response|e] eqn:Hi;
    [|discriminate].
  unfold parsed_prediction in E. rewrite Hv in E.
  destruct (csv_deserialize (csv_deserializer w) response) as [predicted|e]
    eqn:Hparse; [|discriminate].
  cbn [rbind] in E.
  destruct (accuracy_of (np_equal w) test_data tdi _) as [acc|e] eqn:Ha;
    [|discriminate].
  cbn [rbind] in E. injection E as <- <- <-.
  destruct (calls_of_lookups _ _ _ _ E0) as (config & Hc0 & _).
  destruct (accuracy_of_inv _ _ _ _ _ Hd Ha)
    as (truth & hits & Ht & _ & _ & Hp & Hs & _ & Hacc).
  rewrite length_map in Hp.
  exists tdi, config, evs0, response, predicted, truth. cbv zeta.
  split; [reflexivity|].
  split; [rewrite calls_of_app, Hc0; reflexivity|].
  split.
  { intros fr fallback i Hpos Huniq Hshape Hplain.
    exact (to_csv_without fr fallback "Churn?" test_data tdi i Hd Hpos Huniq
                          Hshape Hplain). }
  split; [exact Hi|].
  split; [exact Hparse|].
  split.
  { intros rows Hrows -> Hlen.
    rewrite (csv_deserialize_unlines _ rows Hrows Hlen) in Hparse.
    congruence. }
  split; [reflexivity|].
  split; [exact Ht|].
  split; [exact Hp|].
  rewrite Hacc.
  assert (map (@hd_error pyval) (map (map VStr) predicted)
          = map (option_map VStr) (map (@hd_error string) predicted)) as Hcol.
  { rewrite !map_map. apply map_ext. intros r. apply hd_error_map. }
  rewrite Hcol in Hs. rewrite (series_eq_texts _ _ _ _ Hs).
  unfold divide.
  destruct (len test_data) as [|n] eqn:En; [|reflexivity].
  exfalso. destruct predicted; [|discriminate].
  unfold accuracy_of in Ha. rewrite Ht in Ha. discriminate.
Qed.

Lemma inference_compares_texts_witness :
  exists evs truth predicted,
    cell_33 "ep" Lab.held_out (Lab.lab Lab.responses) []
    = (Done ([[VStr "False."]; [VStr "False."]], Ratio (1 # 2)%Q), evs)
    /\ reset_index_column "Churn?" Lab.held_out = Ok truth
    /\ [[VStr "False."]; [VStr "False."]] = map (map VStr) predicted
    /\ Ratio (1 # 2)%Q
       = Ratio (Z.of_nat (text_matches truth (map (@hd_error string) predicted))
                # Pos.of_nat (len Lab.held_out)).
Proof.
  assert (cell_33 "ep" Lab.held_out (Lab.lab Lab.responses) []
          = (Done ([[VStr "False."]; [VStr "False."]], Ratio (1 # 2)%Q),
             [EvCall (DescribeEndpoint "ep") None;
              EvCall (DescribeEndpointConfig "epc") None;
              EvCall (InvokeEndpoint "ep" (unlines ["KS,265.1"; "OH,161.6"])) None;
              EvPrint [PFormat "Accuracy: {}" (Ratio (1 # 2)%Q)]])) as E
    by (vm_compute; reflexivity).
  destruct (inference_compares_texts (Lab.lab Lab.responses) _ _ _ _ _ _
                                     eq_refl E)
    as (tdi & config & before & response & predicted & truth
        & _ & _ & _ & _ & _ & _ & Hpdf & Ht & _ & Hacc).
  eexists. exists truth, predicted.
  split; [exact E|]. split; [exact Ht|]. split; [exact Hpdf | exact Hacc].
Defined.

(** ** More on the S3 path helper and the download cell (cell 22) *)

Lemma contains_sep_app sep b k :
  PyStr.contains (String sep EmptyString) (b ++ String sep k) = true.
Proof.
  induction b as [|c b IH]; cbn [append PyStr.contains prefix].
  - destruct (ascii_dec sep sep); [|congruence].
    destruct k; reflexivity.
  - rewrite IH. apply orb_true_r.
Qed.

Lemma split_head_clean sep s w ws :
  PyStr.split sep s = w :: ws -> PyStr.contains (String sep EmptyString) w = false.
Proof.
  revert w ws. induction s as [|c s IH]; intros w ws E; simpl in E.
  - injection E as <- <-. reflexivity.
  - destruct (Ascii.eqb_spec c sep) as [->|Hne].
    + injection E as <- <-. reflexivity.
    + destruct (PyStr.split sep s) as [|w' ws'] eqn:Es; injection E as <- <-.
      * cbn [PyStr.contains prefix]. destruct (ascii_dec sep c); [congruence|].
        reflexivity.
      * cbn [PyStr.contains prefix]. destruct (ascii_dec sep c); [congruence|].
        cbn [orb]. exact (IH w' ws' eq_refl).
Qed.

Lemma split_s3_path_shape s3_path :
  exists bucket key,
    split_s3_path s3_path = Some (bucket, key)
    /\ PyStr.contains "/" bucket = false
    /\ ((PyStr.contains "/" (PyStr.replace "s3://" "" s3_path) = true
         /\ PyStr.replace "s3://" "" s3_path = bucket ++ "/" ++ key)
        \/ (PyStr.contains "/" (PyStr.replace "s3://" "" s3_path) = false
            /\ PyStr.replace "s3://" "" s3_path = bucket /\ key = "")).
Proof.
  unfold split_s3_path. set (text := PyStr.replace "s3://" "" s3_path).
  pose proof (join_split "/" text) as Hjoin.
  pose proof (split_nonempty "/" text) as Hne.
  destruct (PyStr.split "/" text) as [|bucket parts] eqn:E; [congruence|].
  exists bucket, (PyStr.join "/" parts). cbn [pop0].
  split; [reflexivity|].
  pose proof (split_head_clean "/" text bucket parts E) as Hb.
  split; [exact Hb|].
  destruct parts as [|p parts].
  - right. cbn in Hjoin. subst bucket. auto.
  - left. rewrite join_cons in Hjoin by discriminate.
    split; [|symmetry; exact Hjoin].
    rewrite <- Hjoin. apply contains_sep_app.
Qed.

(** [split_s3_path] never raises: the list that [split] returns is never
    empty.  The bucket it returns holds no ['/'], and bucket and key are
    the text left after the removal of ["s3://"], cut at its first
    ['/']; where that text has no ['/'] the bucket is all of it and the
    key is empty. *)
Theorem split_s3_path_cuts_at_first_slash :
  forall s3_path : string,
    let text := PyStr.replace "s3://" "" s3_path in
    exists bucket key,
      split_s3_path s3_path = Some (bucket, key)
      /\ PyStr.contains "/" bucket = false
      /\ ((PyStr.contains "/" text = true /\ text = bucket ++ "/" ++ key)
          \/ (PyStr.contains "/" text = false /\ text = bucket /\ key = "")).
Proof. intros s3_path. exact (split_s3_path_shape s3_path). Qed.

(** Cell 22 asks for both notebooks in the bucket of the first location:
    the bucket of the second location is not looked at.  The cell prints
    one line and makes the two download calls in this order; it ends
    with the error of the first call that raises, and raises nothing of
    its own. *)
Theorem downloads_use_first_bucket :
  forall (w : world) (h : history) (candidate_nbk data_explore_nbk : string),
    let o := fst (cell_22 candidate_nbk data_explore_nbk w h) in
    let evs := snd (cell_22 candidate_nbk data_explore_nbk w h) in
    exists bucket key other_bucket other_key,
      split_s3_path candidate_nbk = Some (bucket, key)
      /\ split_s3_path data_explore_nbk = Some (other_bucket, other_key)
      /\ let line := EvPrint [PStr bucket; PStr key; PStr other_key] in
         let first := DownloadData "./" bucket key in
         let second := DownloadData "./" bucket other_key in
         (o = Done tt /\ evs = [line; EvCall first None; EvCall second None])
         \/ (exists e, o = Raised e /\ evs = [line; EvCall first (Some e)])
         \/ (exists e, o = Raised e
                       /\ evs = [line; EvCall first None; EvCall second (Some e)]).
Proof.
  intros w h candidate_nbk data_explore_nbk.
  destruct (split_s3_path_shape candidate_nbk) as (b & k & E1 & _).
  destruct (split_s3_path_shape data_explore_nbk) as (b' & k' & E2 & _).
  exists b, k, b', k'. split; [exact E1|]. split; [exact E2|].
  change (post (cell_22 candidate_nbk data_explore_nbk) w h (fun o evs =>
    (o = Done tt
     /\ evs = [EvPrint [PStr b; PStr k; PStr k'];
               EvCall (DownloadData "./" b k) None;
               EvCall (DownloadData "./" b k') None])
    \/ (exists e, o = Raised e
                  /\ evs = [EvPrint [PStr b; PStr k; PStr k'];
                            EvCall (DownloadData "./" b k) (Some e)])
    \/ (exists e, o = Raised e
                  /\ evs = [EvPrint [PStr b; PStr k; PStr k'];
                            EvCall (DownloadData "./" b k) None;
                            EvCall (DownloadData "./" b k') (Some e)]))).
  unfold cell_22, split_s3_path_call. rewrite E1, E2.
  unfold_cells. repeat wp_step.
  - left. destruct a0. split; reflexivity.
  - right. right. eexists. split; reflexivity.
  - right. left. eexists. split; reflexivity.
Qed.

(** ** The setup cell (cell 1) *)

Lemma filter_first {X} (f : X -> bool) (l : list X) x rest :
  filter f l = x :: rest ->
  exists before after,
    l = (before ++ x :: after)%list /\ f x = true
    /\ Forall (fun y => f y = false) before.
Proof.
  induction l as [|y l IH]; [discriminate|]. cbn [filter].
  destruct (f y) eqn:Ey.
  - intros [= -> <-]. exists [], l.
    split; [reflexivity|]. split; [exact Ey | constructor].
  - intros E. destruct (IH E) as (before & after & -> & Hx & Hb).
    exists (y :: before), after.
    split; [reflexivity|]. split; [exact Hx|].
    constructor; assumption.
Qed.

Lemma filter_none {X} (f : X -> bool) (l : list X) :
  Forall (fun y => f y = false) l -> filter f l = [].
Proof.
  induction 1 as [|y l Hy _ IH]; [reflexivity|].
  cbn [filter]. rewrite Hy. exact IH.
Qed.

(** Cell 1 takes the first bucket of the listing whose name starts with
    ['sagemaker-lab'], whatever else is listed, and the key prefix is a
    constant; where the listing holds no such bucket the cell raises
    [IndexError] (the [[0]] on an empty list) after its two calls. *)
Theorem bucket_is_first_lab_bucket :
  forall (w : world) (h : history),
    let o := fst (cell_01 w h) in
    let evs := snd (cell_01 w h) in
    (forall role bucket prefix, o = Done (role, bucket, prefix) ->
       get_execution_role w h = Ok role
       /\ prefix = "sagemaker/DEMO-xgboost-churn"
       /\ exists before after,
            list_buckets w (h ++ [EvCall GetExecutionRole None])%list
            = Ok (before ++ bucket :: after)%list
            /\ lab_bucket bucket = true
            /\ Forall (fun name => lab_bucket name = false) before)
    /\ (forall role names,
          get_execution_role w h = Ok role ->
          list_buckets w (h ++ [EvCall GetExecutionRole None])%list = Ok names ->
          Forall (fun name => lab_bucket name = false) names ->
          o = Raised IndexError
          /\ evs = [EvCall GetExecutionRole None; EvCall ListBuckets None]).
Proof.
  intros w h. cbv zeta. unfold cell_01, bind, remote, lift, ret, raise.
  destruct (get_execution_role w h) as [role|e]; cbn [fst snd].
  - destruct (list_buckets w (h ++ [EvCall GetExecutionRole None])%list)
      as [names|e]; cbn [fst snd].
    + fold lab_bucket.
      change (fun name : string => PyStr.startswith name "sagemaker-lab")
        with lab_bucket.
      destruct (filter lab_bucket names) as [|bucket rest] eqn:Ef; cbn [fst snd].
      * split; [discriminate|]. intros role' names' [= <-] [= <-] _. auto.
      * split.
        -- intros role' bucket' prefix' [= <- <- <-].
           destruct (filter_first _ _ _ _ Ef) as (before & after & -> & Hb & Hn).
           split; [reflexivity|]. split; [reflexivity|].
           exists before, after. auto.
        -- intros role' names' [= <-] [= <-] Hnone.
           rewrite (filter_none _ _ Hnone) in Ef. discriminate.
    + split; [discriminate|]. intros role' names' _ [=].
  - split; [discriminate|]. intros role' names' [=].
Qed.

(** ** The candidate listing (cell 28) *)

Lemma cell_28_body_run item w h :
  (print [PStr (CandidateName item); PMetric (FinalAutoMLJobObjectiveMetric item)] ;;
   c <- lift (match nth_error (InferenceContainers item) 1 with
              | None => Raise IndexError
              | Some c => Ok c
              end) ;;
   print [PStr (Image c); PStr Frame.newline]) w h
  = (if two_containers item then Done tt else Raised IndexError, candidate_lines item).
Proof.
  unfold two_containers, candidate_lines, bind, print, emit, lift.
  destruct (InferenceContainers item) as [|c0 [|c1 l]]; reflexivity.
Qed.

(** Cell 28 makes no call.  It prints two lines per candidate and goes
    through where every candidate has at least two inference containers;
    at the first candidate with fewer it raises [IndexError]
    ([item['InferenceContainers'][1]]), having printed the lines of the
    candidates before it and the first line of this one. *)
Theorem candidate_listing_needs_two_containers :
  forall (w : world) (h : history) (candidates : list candidate),
    (forallb two_containers candidates = true ->
     cell_28 candidates w h = (Done tt, flat_map candidate_lines candidates))
    /\ (forall before item after,
          candidates = (before ++ item :: after)%list ->
          forallb two_containers before = true ->
          two_containers item = false ->
          cell_28 candidates w h
          = (Raised IndexError,
             flat_map candidate_lines (before ++ [item])%list)).
Proof.
  intros w h candidates. unfold cell_28. split.
  - revert h. induction candidates as [|item l IH]; intros h Hall; [reflexivity|].
    cbn [forallb] in Hall. apply andb_true_iff in Hall as [Hi Hl].
    cbn [for_each flat_map]. unfold bind at 1.
    rewrite cell_28_body_run, Hi. rewrite (IH _ Hl). reflexivity.
  - intros before item after -> Hb Hi. revert h.
    induction before as [|x before IH]; intros h.
    + cbn [app for_each flat_map]. unfold bind at 1.
      rewrite cell_28_body_run, Hi. rewrite app_nil_r. reflexivity.
    + cbn [forallb] in Hb. apply andb_true_iff in Hb as [Hx Hb].
      cbn [app for_each flat_map]. unfold bind at 1.
      rewrite cell_28_body_run, Hx. rewrite (IH Hb). reflexivity.
Qed.

(** ** The tracking loop against any service *)

Lemma returned_polls_app a b :
  returned_polls (a ++ b)%list = (returned_polls a + returned_polls b)%nat.
Proof. unfold returned_polls. rewrite filter_app, length_app. reflexivity. Qed.

Lemma slept_app a b : slept (a ++ b)%list = (slept a + slept b)%Z.
Proof.
  induction a as [|ev a IH]; [reflexivity|].
  cbn [app slept fold_right]. fold (slept (a ++ b)%list). fold (slept a).
  rewrite IH. destruct ev; lia.
Qed.

Lemma poll_while_any_service n name : forall d st w h o evs,
  poll_while n name d st w h = (o, evs) ->
  (forall d', o = Done d' ->
     (ended st = true /\ d' = d) \/ ended (AutoMLJobStatus d') = true)
  /\ slept evs = (30 * Z.of_nat (returned_polls evs))%Z
  /\ (polls evs <= n)%nat
  /\ (o = Running -> polls evs = n).
Proof.
  induction n as [|n IH]; intros d st w h o evs E; cbn [poll_while] in E;
    destruct (ended st) eqn:Est.
  - injection E as <- <-. cbn. repeat split; auto; try discriminate.
    intros d' [= <-]. left. auto.
  - injection E as <- <-. cbn. repeat split; auto; try discriminate.
  - injection E as <- <-. cbn. repeat split; auto; try discriminate; try lia.
    intros d' [= <-]. left. auto.
  - unfold bind, sm_describe_auto_ml_job, remote, print, sleep, emit in E.
    destruct (describe_auto_ml_job w h name) as [d1|e].
    + match type of E with
      | context [poll_while n name d1 ?s w ?h'] =>
          destruct (poll_while n name d1 s w h') as [o1 evs1] eqn:E1
      end.
      apply IH in E1. destruct E1 as (Hd & Hs & Hp & Hr).
      injection E as <- <-.
      match goal with
      | |- context [slept (?a :: ?b :: ?c :: evs1)] =>
          change (a :: b :: c :: evs1) with ([a; b; c] ++ evs1)%list
      end.
      rewrite slept_app, polls_app, returned_polls_app.
      change (slept [EvCall (DescribeAutoMLJob name) None;
                     EvPrint (status_line d1); EvSleep 30]) with 30%Z.
      change (polls [EvCall (DescribeAutoMLJob name) None;
                     EvPrint (status_line d1); EvSleep 30]) with 1%nat.
      change (returned_polls [EvCall (DescribeAutoMLJob name) None;
                              EvPrint (status_line d1); EvSleep 30]) with 1%nat.
      split; [|split; [lia | split; [lia | intros Ho; specialize (Hr Ho); lia]]].
      intros d' Ho. right. destruct (Hd d' Ho) as [(He & ->)|He]; exact He.
    + injection E as <- <-. cbn. repeat split; try discriminate; lia.
Qed.

(** Whatever the service answers, cell 19 returns only a description
    whose status is ['Failed'], ['Completed'] or ['Stopped']; it has
    slept 30 seconds for every description that returned after the
    first one and not otherwise; and where it is still running after
    its turns, every turn has described the job once. *)
Theorem tracking_against_any_service :
  forall (w : world) (h : history) (iterations : nat) (job_name : string),
    let o := fst (cell_19 iterations job_name w h) in
    let evs := snd (cell_19 iterations job_name w h) in
    (forall d, o = Done d -> ended (AutoMLJobStatus d) = true)
    /\ slept evs = (30 * Z.of_nat (Nat.pred (returned_polls evs)))%Z
    /\ (polls evs <= S iterations)%nat
    /\ (o = Running -> polls evs = S iterations).
Proof.
  intros w h iterations job_name. cbv zeta.
  destruct (cell_19 iterations job_name w h) as [o evs] eqn:E. cbn [fst snd].
  unfold cell_19, bind, sm_describe_auto_ml_job, remote, print, emit in E.
  match type of E with
  | context [describe_auto_ml_job w ?h' job_name] =>
      destruct (describe_auto_ml_job w h' job_name) as [d0|e]
  end.
  - match type of E with
    | context [poll_while iterations job_name d0 ?s w ?h'] =>
        destruct (poll_while iterations job_name d0 s w h') as [o1 evs1] eqn:E1
    end.
    apply poll_while_any_service in E1. destruct E1 as (Hd & Hs & Hp & Hr).
    injection E as <- <-.
    match goal with
    | |- context [slept (?a :: ?b :: ?c :: ?d :: evs1)] =>
        change (a :: b :: c :: d :: evs1)
          with (first_look job_name d0 ++ evs1)%list
    end.
    rewrite slept_app, polls_app, returned_polls_app.
    change (slept (first_look job_name d0)) with 0%Z.
    change (polls (first_look job_name d0)) with 1%nat.
    change (returned_polls (first_look job_name d0)) with 1%nat.
    cbn [Nat.add Nat.pred].
    split; [|split; [lia | split; [lia | intros Ho; specialize (Hr Ho); lia]]].
    intros d Ho. destruct (Hd d Ho) as [(He & ->)|He]; exact He.
  - injection E as <- <-. cbn. repeat split; try discriminate; lia.
Qed.

(** ** Runs that cannot go through *)

(** Without a best candidate in what the service describes (a job that
    has failed or was stopped), the notebook does not go through and
    makes no hosting call: the loop of cell 19 ends on any of the three
    statuses alike, and the missing key stops cell 24 at the latest. *)
Theorem no_candidate_no_deployment :
  forall (w : world) (iterations : nat),
    (forall h job_name d,
       describe_auto_ml_job w h job_name = Ok d -> BestCandidate d = None) ->
    hosting (snd (run (notebook iterations) w)) = []
    /\ fst (run (notebook iterations) w) <> Done tt.
Proof.
  intros w iterations Hnone.
  change (post (notebook iterations) w [] (fun o evs =>
            hosting evs = [] /\ o <> Done tt)).
  unfold notebook.
  repeat nb_step no_hosting hosting_specs.
  all: norm_hosting.
  all: try (split; [reflexivity | discriminate]).
  all: exfalso; use_cell_24;
    match goal with
    | Hd : describe_auto_ml_job _ _ _ = Ok ?d, Hb : BestCandidate ?d = Some _ |- _ =>
        rewrite (Hnone _ _ _ Hd) in Hb; discriminate
    end.
Qed.

Lemma no_candidate_no_deployment_witness :
  hosting (snd (run (notebook 5) (Lab.lab (fun _ => failed_job)))) = []
  /\ fst (run (notebook 5) (Lab.lab (fun _ => failed_job))) <> Done tt.
Proof.
  apply no_candidate_no_deployment.
  intros h job_name d [= <-]. reflexivity.
Defined.

Example failed_job_raises_key_error :
  fst (run (notebook 5) (Lab.lab (fun _ => failed_job)))
  = Raised (KeyError (VStr "BestCandidate")).
Proof. vm_compute. reflexivity. Qed.

Lemma cell_05_spec w h :
  post (run_cell code cell_05) w h (fun o evs =>
    o = Done tt /\ files_written evs = [] /\ calls_of evs = []).
Proof. unfold run_cell. wp. auto. Qed.

Lemma cell_06_spec w h :
  post cell_06 w h (fun o evs =>
    evs = []
    /\ (churn_txt w h = None -> o = Raised (FileNotFoundError "./churn.txt"))).
Proof.
  unfold cell_06, bind, ask, post.
  destruct (churn_txt w h) as [[header data]|]; cbn; split; auto; discriminate.
Qed.

Lemma setup_event_shape seg :
  Forall setup_event seg ->
  files_written seg = []
  /\ Forall (fun c => c = GetExecutionRole \/ c = ListBuckets) (calls_of seg)
  /\ forallb (fun ev => negb (is_shell ev)) seg = true.
Proof.
  induction 1 as [|ev seg Hev _ (Hf & Hc & Hs)]; [repeat split; constructor|].
  destruct ev as [c r| | | | |]; try contradiction.
  destruct c; try contradiction; cbn; repeat split; auto.
Qed.

Ltac file_specs E :=
  first [ pose proof (post_run _ _ _ _ _ _ (cell_05_spec _ _) E)
        | pose proof (post_run _ _ _ _ _ _ (cell_06_spec _ _) E) ].

(** The exit status of [wget] in cell 5 is not looked at: where
    [./churn.txt] is not there afterwards, cell 6 raises
    [FileNotFoundError], and the run has written no file and made no
    call besides the two of cell 1. *)
Theorem missing_file_stops_the_run :
  forall (w : world) (iterations : nat),
    (forall h, churn_txt w h = None) ->
    let o := fst (run (notebook iterations) w) in
    let evs := snd (run (notebook iterations) w) in
    o <> Done tt
    /\ files_written evs = []
    /\ Forall (fun c => c = GetExecutionRole \/ c = ListBuckets) (calls_of evs)
    /\ (existsb is_shell evs = true ->
        o = Raised (FileNotFoundError "./churn.txt")).
Proof.
  intros w iterations Hnone.
  change (post (notebook iterations) w [] (fun o evs =>
    o <> Done tt
    /\ files_written evs = []
    /\ Forall (fun c => c = GetExecutionRole \/ c = ListBuckets) (calls_of evs)
    /\ (existsb is_shell evs = true ->
        o = Raised (FileNotFoundError "./churn.txt")))).
  unfold notebook.
  repeat nb_step setup_event file_specs.
  all: repeat match goal with
              | H : _ = [] /\ (churn_txt _ _ = None -> _) |- _ =>
                  destruct H as [-> H]; specialize (H (Hnone _))
              | H : _ = Done tt /\ _ /\ _ |- _ => destruct H as (? & ? & ?)
              end; try congruence.
  all: repeat match goal with
              | H : Forall setup_event _ |- _ =>
                  destruct (setup_event_shape _ H) as (? & ? & ?); clear H
              end.
  all: split; [discriminate|].
  all: split;
    [ unfold files_written in *; rewrite ?flat_map_app;
      repeat match goal with
             | H : flat_map _ ?l = [] |- context [flat_map _ ?l] => rewrite H
             end; reflexivity |].
  all: split;
    [ rewrite ?calls_of_app;
      repeat match goal with
             | H : calls_of _ = [] |- _ => rewrite H
             end;
      rewrite ?Forall_app; repeat split; (assumption || constructor) |].
  all: first [ intros _; congruence | idtac ].
  all: intros Hx; exfalso; apply existsb_exists in Hx as (ev & Hin & Hev);
    match goal with
    | Hs : forallb _ ?l = true, Hin : In _ ?l |- _ =>
        rewrite forallb_forall in Hs; specialize (Hs _ Hin);
        rewrite Hev in Hs; discriminate
    end.
Qed.

Lemma missing_file_stops_the_run_witness :
  let w := with_churn_txt (fun _ => None) (Lab.lab Lab.responses) in
  fst (run (notebook 5) w) = Raised (FileNotFoundError "./churn.txt")
  /\ files_written (snd (run (notebook 5) w)) = [].
Proof.
  cbv zeta.
  destruct (missing_file_stops_the_run
              (with_churn_txt (fun _ => None) (Lab.lab Lab.responses)) 5)
    as (_ & Hf & _ & Hs).
  - reflexivity.
  - split; [apply Hs; vm_compute; reflexivity | exact Hf].
Defined.

(** ** More on the data split (cell 9) *)

Lemma sample_then_drop choice global_state header data :
  let churn := read_csv header data in
  let n := List.length data in
  let locs := choice 200%Z n (sample_size (8 # 10)%Q n) in
  Forall (fun p => (p < n)%nat) locs ->
  exists out,
    map fst out = locs
    /\ (forall r, In r out -> In r (rows churn))
    /\ map fst (rows churn) = seq 0 (List.length (rows churn))
    /\ split_rows choice global_state churn
       = rbind (drop_column "Churn?"
                  (mk header (filter (fun r => negb (mem_nat (fst r) locs))
                                     (rows churn))))
               (fun test_data_no_target =>
                  Ok (mk header out,
                      mk header (filter (fun r => negb (mem_nat (fst r) locs))
                                        (rows churn)),
                      test_data_no_target)).
Proof.
  intros churn n locs Hin.
  assert (map fst (rows churn) = seq 0 (List.length (rows churn))) as Hlab.
  { change (map fst (rows churn)) with (index churn). unfold churn.
    rewrite index_read_csv. fold (len (read_csv header data)).
    rewrite len_read_csv. reflexivity. }
  assert (len churn = n) as Hn by apply len_read_csv.
  destruct (take_rows_labelled (rows churn) Hlab locs) as (out & Etake & Hl & Hsub).
  { fold (len churn). rewrite Hn. exact Hin. }
  exists out. split; [exact Hl|]. split; [exact Hsub|]. split; [exact Hlab|].
  unfold split_rows, sample. rewrite Hn. fold locs. rewrite Etake.
  cbn [rbind]. unfold drop.
  change (index (mk (columns churn) out)) with (map fst out). rewrite Hl.
  assert (forallb (fun i => mem_nat i (index churn)) locs = true) as ->.
  { apply forallb_forall. intros i Hi. apply mem_nat_In.
    unfold index. rewrite Hlab. apply in_seq. fold (len churn). rewrite Hn.
    rewrite Forall_forall in Hin. specialize (Hin i Hi). lia. }
  reflexivity.
Qed.

(** Where the file has no column ['Churn?'], cell 9 raises the
    [KeyError] of [DataFrame.drop], whose message names the missing
    label (['Churn?'] not found in axis): the rows are sampled and split
    first, and the removal of the target column from the testing split
    is what fails. *)
Theorem split_needs_target_column :
  forall (choice : Z -> nat -> nat -> list nat) (global_state : Z)
         (header : list string) (data : list (list pyval)),
    let n := List.length data in
    Forall (fun p => (p < n)%nat) (choice 200%Z n (sample_size (8 # 10)%Q n)) ->
    ~ In "Churn?" header ->
    split_rows choice global_state (read_csv header data)
    = Raise (NotFoundInAxis [VStr "Churn?"]).
Proof.
  intros choice global_state header data n Hin Hcol.
  destruct (sample_then_drop choice global_state header data Hin)
    as (out & _ & _ & _ & ->).
  unfold drop_column. cbn [columns].
  assert (existsb (String.eqb "Churn?") header = false) as ->; [|reflexivity].
  apply not_true_is_false. intros H. apply existsb_exists in H as (c & Hc & E).
  apply String.eqb_eq in E. subst c. exact (Hcol Hc).
Qed.

Lemma split_needs_target_column_witness :
  split_rows Lab.choice 0 (read_csv ["State"; "Day Mins"; "Churn"] Lab.data)
  = Raise (NotFoundInAxis [VStr "Churn?"]).
Proof.
  apply split_needs_target_column.
  - vm_compute. repeat (constructor; [lia|]). constructor.
  - simpl. intros [H|[H|[H|[]]]]; discriminate.
Defined.

Lemma sample_size_bounds n :
  (sample_size (8 # 10)%Q n <= n)%nat
  /\ (sample_size (8 # 10)%Q n = n <-> (n <= 2)%nat).
Proof.
  pose proof (sample_size_four_fifths n) as H. cbv zeta in H. lia.
Qed.

(** The sizes of the split of an [n]-row file: the training split has
    [round(0.8 * n)] rows and the testing split the [n - round(0.8 * n)]
    others, so the testing split is empty exactly for files of at most
    two rows; the frame written for the endpoint has the rows of the
    testing split and no column ['Churn?']. *)
Theorem split_sizes :
  forall (choice : Z -> nat -> nat -> list nat) (global_state : Z)
         (header : list string) (data : list (list pyval)),
    let n := List.length data in
    let locs := choice 200%Z n (sample_size (8 # 10)%Q n) in
    NoDup locs ->
    Forall (fun p => (p < n)%nat) locs ->
    List.length locs = sample_size (8 # 10)%Q n ->
    In "Churn?" header ->
    exists train_data test_data test_data_no_target,
      split_rows choice global_state (read_csv header data)
      = Ok (train_data, test_data, test_data_no_target)
      /\ len train_data = sample_size (8 # 10)%Q n
      /\ len test_data = (n - sample_size (8 # 10)%Q n)%nat
      /\ (len test_data = 0%nat <-> (n <= 2)%nat)
      /\ len test_data_no_target = len test_data
      /\ index test_data_no_target = index test_data
      /\ columns train_data = header
      /\ columns test_data = header
      /\ ~ In "Churn?" (columns test_data_no_target).
Proof.
  intros choice global_state header data n locs Hnd Hin Hlen Hcol.
  destruct (sample_then_drop choice global_state header data Hin)
    as (out & Hl & Hsub & Hlab & E).
  fold n in E. fold locs in E, Hl.
  set (test := mk header (filter (fun r => negb (mem_nat (fst r) locs))
                                 (rows (read_csv header data)))) in *.
  destruct (drop_column_present "Churn?" test Hcol) as (tnt & Edrop).
  rewrite Edrop in E. cbn [rbind] in E.
  exists (mk header out), test, tnt.
  split; [exact E|].
  assert (len (mk header out) = sample_size (8 # 10)%Q n) as Htrain.
  { unfold len. cbn [rows]. rewrite <- (length_map fst out), Hl. exact Hlen. }
  assert (len (mk header out) + len test = n)%nat as Hsum.
  { pose proof (split_permutation _ Hlab locs out Hnd Hl Hsub) as Hperm.
    apply Permutation_length in Hperm. rewrite length_app in Hperm.
    unfold len. cbn [rows test]. rewrite Hperm.
    fold (len (read_csv header data)). apply len_read_csv. }
  destruct (sample_size_bounds n) as [Hle Hiff].
  destruct (drop_column_inv _ _ _ Edrop) as [Hrows Hlen'].
  split; [exact Htrain|]. split; [lia|]. split; [lia|].
  split; [exact Hlen'|].
  split.
  { unfold index. rewrite Hrows, map_map. reflexivity. }
  split; [reflexivity|]. split; [reflexivity|].
  unfold drop_column in Edrop. destruct (existsb _ _); [|discriminate].
  injection Edrop as <-. cbn [columns]. intros H.
  apply filter_In in H as [_ H]. rewrite String.eqb_refl in H. discriminate.
Qed.

Lemma split_sizes_witness :
  exists train_data test_data test_data_no_target,
    split_rows Lab.choice 0 (read_csv Lab.header Lab.data)
    = Ok (train_data, test_data, test_data_no_target)
    /\ len train_data = 8%nat
    /\ len test_data = 2%nat.
Proof.
  destruct (split_sizes Lab.choice 0 Lab.header Lab.data)
    as (train & test & tnt & E & Ht & Hs & _).
  - vm_compute. repeat (constructor; [simpl; intuition discriminate|]). constructor.
  - vm_compute. repeat (constructor; [lia|]). constructor.
  - reflexivity.
  - simpl. auto.
  - exists train, test, tnt. split; [exact E|]. split; [exact Ht | exact Hs].
Defined.

(** ** More on the inference step (cell 33) *)

(** When cell 33 goes through, the testing split has at least one row
    and the accuracy it reports is a number between 0 and 1, never
    [nan]: against an empty split, a prediction frame that has a field
    has too many rows for the comparison, and one that has none has no
    column [0]. *)
Theorem accuracy_is_a_fraction :
  forall (w : world) (h : history) (ep_name : string) (test_data : DataFrame)
         (prediction_df : list (list pyval)) (accuracy : pyfloat)
         (evs : list event),
    cell_33 ep_name test_data w h = (Done (prediction_df, accuracy), evs) ->
    (0 < len test_data)%nat
    /\ exists q, accuracy = Ratio q /\ (0 <= q)%Q /\ (q <= 1)%Q.
Proof.
  intros w h ep_name test_data prediction_df accuracy evs E.
  rewrite cell_33_run in E.
  destruct (predictor_init ep_name w h) as [[[]|e|] evs0]; try discriminate.
  destruct (drop_column "Churn?" test_data) as [tdi|e] eqn:Hd; [|discriminate].
  cbv zeta in E.
  destruct (invoke_endpoint w _ ep_name _) as [response|e]; [|discriminate].
  destruct (parsed_prediction w response) as [pdf|e]; [|discriminate].
  cbn [rbind] in E.
  destruct (accuracy_of (np_equal w) test_data tdi pdf) as [acc|e] eqn:Ha;
    [|discriminate].
  cbn [rbind] in E. injection E as <- <- _.
  destruct (accuracy_of_inv _ _ _ _ _ Hd Ha)
    as (truth & hits & _ & Hc & _ & Hp & _ & Hl & Hacc).
  assert (0 < len test_data)%nat as Hpos.
  { rewrite <- Hp. unfold column0 in Hc.
    destruct pdf; [discriminate | cbn; lia]. }
  split; [exact Hpos|].
  pose proof (sum_le hits) as Hm. rewrite Hl in Hm.
  rewrite Hacc. unfold divide.
  destruct (len test_data) as [|n] eqn:En; [lia|].
  eexists. split; [reflexivity|].
  unfold Qle. cbn [Qnum Qden]. split; lia.
Qed.

Lemma accuracy_is_a_fraction_witness :
  let test_data :=
    mk Lab.header [(0, [VStr "KS"; VFloat 4643371304711985562; VStr "False."]);
                   (1, [VStr "OH"; VFloat 4639889811093795635; VStr "True."])]%nat in
  (0 < len test_data)%nat
  /\ exists q, Ratio (1 # 2)%Q = Ratio q /\ (0 <= q)%Q /\ (q <= 1)%Q.
Proof.
  cbv zeta.
  refine (accuracy_is_a_fraction (Lab.lab Lab.responses) [] "ep" _
            [[VStr "False."]; [VStr "False."]] (Ratio (1 # 2)%Q) _ _).
  vm_compute. reflexivity.
Defined.

(** A prediction frame with another number of rows than the testing
    split is an error and not a wrong accuracy: once the predictor is
    there, the request has returned and the column of the ground truth
    has been read, the comparison of the two columns raises
    [ValueError], and nothing is printed.  The frame is what the branch
    for the installed SDK makes of the response. *)
Theorem wrong_number_of_predictions :
  forall (w : world) (h : history) (ep_name : string)
         (test_data test_data_inference : DataFrame) (evs0 : list event)
         (response : string) (prediction_df : list (list pyval))
         (truth : list (option pyval)),
    let body := to_csv (float_repr w) (pandas_to_csv w) false
                       test_data_inference in
    predictor_init ep_name w h = (Done tt, evs0) ->
    drop_column "Churn?" test_data = Ok test_data_inference ->
    invoke_endpoint w (h ++ evs0)%list ep_name body = Ok response ->
    parsed_prediction w response = Ok prediction_df ->
    reset_index_column "Churn?" test_data = Ok truth ->
    existsb (fun r => negb (Nat.eqb (List.length r) 0)) prediction_df = true ->
    List.length prediction_df <> len test_data ->
    cell_33 ep_name test_data w h
    = (Raised (ValueError "Can only compare identically-labeled Series objects"),
       (evs0 ++ [EvCall (InvokeEndpoint ep_name body) None])%list).
Proof.
  intros w h ep_name test_data tdi evs0 response pdf truth body H0 Hd Hi Hparse
         Ht Hfield Hlen.
  rewrite cell_33_run, H0, Hd. cbv zeta. fold body. rewrite Hi, Hparse.
  cbn [rbind]. unfold accuracy_of. rewrite Ht.
  apply reset_index_column_length in Ht.
  cbn [rbind]. unfold column0. rewrite Hfield. cbn [rbind]. unfold series_eq.
  rewrite length_map, Ht.
  destruct (Nat.eqb_spec (len test_data) (List.length pdf)); [congruence|].
  reflexivity.
Qed.

Lemma wrong_number_of_predictions_witness :
  cell_33 "ep" (mk Lab.header
                   [(0, [VStr "KS"; VFloat 4643371304711985562; VStr "False."]);
                    (1, [VStr "OH"; VFloat 4639889811093795635; VStr "True."]);
                    (2, [VStr "NJ"; VFloat 4642767892730662093; VStr "False."])])
          (Lab.lab Lab.responses) []
  = (Raised (ValueError "Can only compare identically-labeled Series objects"),
     [EvCall (DescribeEndpoint "ep") None;
      EvCall (DescribeEndpointConfig "epc") None;
      EvCall (InvokeEndpoint "ep" (unlines ["KS,265.1"; "OH,161.6"; "NJ,243.4"]))
             None]).
Proof.
  refine (wrong_number_of_predictions
            (Lab.lab Lab.responses) [] "ep" _
            (mk ["State"; "Day Mins"]
                [(0, [VStr "KS"; VFloat 4643371304711985562]);
                 (1, [VStr "OH"; VFloat 4639889811093795635]);
                 (2, [VStr "NJ"; VFloat 4642767892730662093])])
            [EvCall (DescribeEndpoint "ep") None;
             EvCall (DescribeEndpointConfig "epc") None]
            Lab.predictions [[VStr "False."]; [VStr "False."]]
            [Some (VStr "False."); Some (VStr "True."); Some (VStr "False.")]
            _ _ _ _ _ _ _).
  - reflexivity.
  - reflexivity.
  - reflexivity.
  - reflexivity.
  - reflexivity.
  - reflexivity.
  - cbn. lia.
Defined.

(** ** The calls of a run that goes through *)

Lemma no_call_calls seg : Forall no_call seg -> calls_of seg = [].
Proof.
  induction 1 as [|ev evs Hev _ IH]; [reflexivity|].
  destruct ev; try exact IH. destruct Hev.
Qed.

Lemma cell_01_calls w h :
  post cell_01 w h (fun o evs =>
    forall role bucket prefix, o = Done (role, bucket, prefix) ->
      prefix = "sagemaker/DEMO-xgboost-churn"
      /\ get_execution_role w h = Ok role
      /\ calls_of evs = [GetExecutionRole; ListBuckets]).
Proof. wp; intros r b p [=]; subst; auto. Qed.

Lemma cell_11_calls prefix train_data test_data_no_target w h :
  post (cell_11 prefix train_data test_data_no_target) w h (fun o evs =>
    o = Done tt ->
    calls_of evs = [UploadData "train_data.csv" (prefix ++ "/train");
                    UploadData "test_data.csv" (prefix ++ "/test")]).
Proof. wp; intros; try discriminate; reflexivity. Qed.

Lemma poll_while_calls n name : forall d st w h,
  post (poll_while n name d st) w h (fun o evs =>
    forall d', o = Done d' ->
      exists k, (k <= n)%nat /\ calls_of evs = repeat (DescribeAutoMLJob name) k).
Proof.
  induction n as [|n IH]; intros d st w h; cbn [poll_while];
    destruct (ended st).
  - apply post_ret. intros _ _. exists 0%nat. auto.
  - unfold post. cbn. discriminate.
  - apply post_ret. intros _ _. exists 0%nat. split; [lia | reflexivity].
  - unfold_cells. do 2 wp_step; [|intros ? [=]]. do 4 wp_step.
    apply post_any. intros o evs E.
    pose proof (post_run _ _ _ _ _ _ (IH _ _ _ _) E) as HI.
    intros d' Ho. destruct (HI d' Ho) as (k & Hk & Hc).
    exists (S k). split; [lia|]. cbn [app calls_of flat_map repeat].
    fold (calls_of evs). rewrite Hc. reflexivity.
Qed.

Lemma cell_19_calls n name w h :
  post (cell_19 n name) w h (fun o evs =>
    forall d, o = Done d ->
      exists k, (k <= n)%nat
                /\ calls_of evs = repeat (DescribeAutoMLJob name) (S k)).
Proof.
  unfold cell_19. unfold_cells. do 6 wp_step; [|intros ? [=]]. do 2 wp_step.
  apply post_any. intros o evs E.
  pose proof (post_run _ _ _ _ _ _ (poll_while_calls _ _ _ _ _ _) E) as HI.
  intros d' Ho. destruct (HI d' Ho) as (k & Hk & Hc).
  exists k. split; [exact Hk|]. cbn [app calls_of flat_map repeat].
  fold (calls_of evs). rewrite Hc. reflexivity.
Qed.

Lemma cell_22_calls candidate_nbk data_explore_nbk w h :
  post (cell_22 candidate_nbk data_explore_nbk) w h (fun o evs =>
    o = Done tt ->
    exists s3_bucket key key',
      calls_of evs = [DownloadData "./" s3_bucket key;
                      DownloadData "./" s3_bucket key']).
Proof. wp; intros; try discriminate; do 3 eexists; reflexivity. Qed.

Lemma cell_24_one_call job_name w h :
  post (cell_24 job_name) w h (fun o evs =>
    forall bc bcn, o = Done (bc, bcn) ->
      bcn = CandidateName bc /\ calls_of evs = [DescribeAutoMLJob job_name]).
Proof. wp; intros bc bcn [=]; subst; auto. Qed.

Lemma cell_27_calls job_name w h :
  post (cell_27 job_name) w h (fun o evs =>
    calls_of evs = [ListCandidatesForAutoMLJob job_name]).
Proof. wp; reflexivity. Qed.

Lemma cell_30_calls role bc bcn w h :
  post (cell_30 role bc bcn) w h (fun o evs =>
    forall a, o = Done a ->
      a = (bcn ++ strftime_gmtime w h ++ "-model",
           bcn ++ strftime_gmtime w h ++ "-epc",
           bcn ++ strftime_gmtime w h ++ "-ep")
      /\ calls_of evs = three_calls role bc bcn (strftime_gmtime w h)).
Proof. wp; intros ? [=]; subst; auto. Qed.

Lemma cell_31_calls ep_name w h :
  post (cell_31 ep_name) w h (fun o evs =>
    calls_of evs = [WaitEndpointInService ep_name]).
Proof. wp; reflexivity. Qed.

Lemma cell_33_calls ep_name test_data w h :
  post (cell_33 ep_name test_data) w h (fun o evs =>
    forall a, o = Done a ->
      exists config body,
        calls_of evs
        = (lookups (predictor_describes w) ep_name config
           ++ [InvokeEndpoint ep_name body])%list).
Proof.
  apply post_any. intros o evs E a ->.
  rewrite cell_33_run in E.
  destruct (predictor_init ep_name w h) as [[[]|e|] evs0] eqn:E0;
    try discriminate.
  destruct (drop_column "Churn?" test_data) as [tdi|e]; [|discriminate].
  cbv zeta in E.
  destruct (invoke_endpoint w _ ep_name _) as [response|e]; [|discriminate].
  destruct (rbind (parsed_prediction w response) _) as [[pdf acc]|e];
    [|discriminate].
  injection E as _ <-.
  destruct (calls_of_lookups _ _ _ _ E0) as (config & Hc & _).
  exists config. eexists. rewrite calls_of_app, Hc. reflexivity.
Qed.

Ltac calls_specs E :=
  first [ pose proof (post_run _ _ _ _ _ _ (cell_01_calls _ _) E)
        | pose proof (post_run _ _ _ _ _ _ (cell_16_spec _ _ _ _ _) E)
        | pose proof (post_run _ _ _ _ _ _ (cell_19_calls _ _ _ _) E)
        | pose proof (post_run _ _ _ _ _ _ (cell_24_one_call _ _ _) E)
        | pose proof (post_run _ _ _ _ _ _ (cell_27_calls _ _ _) E)
        | pose proof (post_run _ _ _ _ _ _ (cell_30_calls _ _ _ _ _) E)
        | pose proof (post_run _ _ _ _ _ _ (cell_33_calls _ _ _ _) E)
        | pose proof (post_run _ _ _ _ _ _ (cell_11_calls _ _ _ _ _) E)
        | pose proof (post_run _ _ _ _ _ _ (cell_22_calls _ _ _ _) E)
        | pose proof (post_run _ _ _ _ _ _ (cell_31_calls _ _ _) E) ].

(** A run of the notebook that goes through has made these calls, in
    this order, and no other: the role and the listing of the buckets,
    the two uploads, the creation of the job, one description of the
    job for the first look and one for every turn of the loop, the two
    downloads from one bucket, one more description for the best
    candidate, the listing of the candidates, the three creations, the
    wait for the endpoint (the waiter taken as one call), the look-ups
    of the predictor's constructor where the installed SDK makes them
    (the endpoint, then the configuration its description names), and
    one invocation.  The role of the job and of the model is the one the
    first call returned, and every call that names a job names the one
    created. *)
Theorem completed_run_calls :
  forall (w : world) (iterations : nat),
    fst (run (notebook iterations) w) = Done tt ->
    exists role bucket h16 turns s3_bucket key key' best_candidate h30 config body,
      let timestamp_suffix := strftime_gmtime w h30 in
      let ep_name := CandidateName best_candidate ++ timestamp_suffix ++ "-ep" in
      get_execution_role w [] = Ok role
      /\ (turns <= iterations)%nat
      /\ calls_of (snd (run (notebook iterations) w))
         = completed_calls role bucket ("automl-churn-" ++ strftime_gmtime w h16)
                           turns s3_bucket key key' best_candidate
                           timestamp_suffix
                           (lookups (predictor_describes w) ep_name config) body.
Proof.
  intros w iterations.
  change (post (notebook iterations) w [] (fun o evs =>
    o = Done tt ->
    exists role bucket h16 turns s3_bucket key key' best_candidate h30 config body,
      get_execution_role w [] = Ok role
      /\ (turns <= iterations)%nat
      /\ calls_of evs
         = completed_calls role bucket ("automl-churn-" ++ strftime_gmtime w h16)
                           turns s3_bucket key key' best_candidate
                           (strftime_gmtime w h30)
                           (lookups (predictor_describes w)
                                    (CandidateName best_candidate
                                     ++ strftime_gmtime w h30 ++ "-ep")
                                    config)
                           body)).
  unfold notebook.
  repeat nb_step no_call calls_specs.
  all: try (intros; discriminate).
  all: intros _.
  repeat match goal with u : unit |- _ => destruct u end.
  destruct (H _ _ _ eq_refl) as (-> & Hrole & Hc1); clear H.
  specialize (H3 eq_refl).
  destruct H4 as [Hc4 Hname]. specialize (Hname _ eq_refl). subst a2.
  destruct (H6 _ eq_refl) as (k & Hk & Hc6); clear H6.
  destruct (H8 eq_refl) as (b & key & key' & Hc8); clear H8.
  destruct (H9 _ _ eq_refl) as (-> & Hc9); clear H9.
  destruct (H12 _ eq_refl) as (Hn & Hc12); clear H12.
  injection Hn as -> -> ->.
  destruct (H14 _ eq_refl) as (config & body & Hc14); clear H14.
  exists s0, s1. eexists. exists k, b, key, key', c. eexists.
  exists config, body.
  split; [exact Hrole|]. split; [exact Hk|].
  repeat rewrite calls_of_app.
  repeat match goal with
         | Hn : Forall no_call ?s |- _ => rewrite (no_call_calls s Hn); clear Hn
         end.
  rewrite Hc1, H3, Hc4, Hc6, Hc8, Hc9, H10, Hc12, H13, Hc14.
  unfold completed_calls. cbn [app].
  repeat rewrite app_nil_r. repeat rewrite <- app_assoc. reflexivity.
Qed.

Lemma completed_run_calls_witness :
  exists role bucket h16 turns s3_bucket key key' best_candidate h30 config body,
    let w := Lab.lab Lab.responses in
    let timestamp_suffix := strftime_gmtime w h30 in
    let ep_name := CandidateName best_candidate ++ timestamp_suffix ++ "-ep" in
    get_execution_role w [] = Ok role
    /\ (turns <= 5)%nat
    /\ calls_of (snd (run (notebook 5) w))
       = completed_calls role bucket
           ("automl-churn-" ++ strftime_gmtime w h16)
           turns s3_bucket key key' best_candidate timestamp_suffix
           (lookups (predictor_describes w) ep_name config) body.
Proof.
  apply (completed_run_calls (Lab.lab Lab.responses) 5).
  vm_compute. reflexivity.
Defined.

(** ** What a failing deployment leaves behind (cell 30) *)

(** Cell 30 creates the model, then the endpoint configuration, then the
    endpoint, and has no handler: when the second or the third call
    raises, what the earlier calls have created is still there, and the
    names of the three resources are returned only when all three calls
    have. *)
Theorem failed_deployment_leaves_resources :
  forall (w : world) (h : history) (role : string) (best_candidate : candidate)
         (best_candidate_name : string),
    let o := fst (cell_30 role best_candidate best_candidate_name w h) in
    let evs := snd (cell_30 role best_candidate best_candidate_name w h) in
    let timestamp_suffix := strftime_gmtime w h in
    let model_name := best_candidate_name ++ timestamp_suffix ++ "-model" in
    let epc_name := best_candidate_name ++ timestamp_suffix ++ "-epc" in
    let ep_name := best_candidate_name ++ timestamp_suffix ++ "-ep" in
    exists model epc ep,
      three_calls role best_candidate best_candidate_name timestamp_suffix
      = [model; epc; ep]
      /\ ((exists e, o = Raised e
                     /\ evs = [EvCall model (Some e)]
                     /\ live_after evs = [])
          \/ (exists e, o = Raised e
                        /\ evs = [EvCall model None; EvCall epc (Some e)]
                        /\ live_after evs = [ModelRes model_name])
          \/ (exists e, o = Raised e
                        /\ evs = [EvCall model None; EvCall epc None;
                                  EvCall ep (Some e)]
                        /\ live_after evs = [EndpointConfigRes epc_name;
                                             ModelRes model_name])
          \/ (o = Done (model_name, epc_name, ep_name)
              /\ evs = [EvCall model None; EvCall epc None; EvCall ep None]
              /\ live_after evs = [EndpointRes ep_name;
                                   EndpointConfigRes epc_name;
                                   ModelRes model_name])).
Proof.
  intros w h role bc bcn. cbv zeta.
  do 3 eexists. split; [reflexivity|].
  unfold cell_30, bind, ask, ret, sm_create_model, sm_create_endpoint_config,
    sm_create_endpoint, remote.
  cbv beta iota. cbn [fst snd app].
  destruct (create_model w _ _ _ _) as [m|e]; cbn [fst snd app].
  - destruct (create_endpoint_config w _ _ _) as [c|e]; cbn [fst snd app].
    + destruct (create_endpoint w _ _ _) as [p|e]; cbn [fst snd app].
      * right. right. right. repeat split.
      * right. right. left. exists e. repeat split.
    + right. left. exists e. repeat split.
  - left. exists e. repeat split.
Qed.
